(** * wattsense: the anomaly-detection engine of backend/anomalyDetection.js

    A shallow embedding of [calculateStats], [createHourlyProfile],
    [detectAnomalies], [generateRecommendations] and [calculateSavings],
    and the properties the specification states about them.

    JavaScript numbers are IEEE 754 binary64 values; they are modelled by
    Rocq's primitive floats, which are the same format with the same
    round-to-nearest-even arithmetic, so [NaN], the infinities and the
    signed zeros behave as they do in the engine. *)

From Stdlib Require Import Floats ZArith String List Bool Arith Lia Sorted Permutation.
Import ListNotations.

Set Implicit Arguments.

(** Decimal literals such as [0.15] denote the nearest binary64 value, as
    they do in JavaScript. *)
Set Warnings "-inexact-float".

(** ** The part of the JavaScript runtime the engine uses *)

Module JS.

(** A call either completes with a value or throws. The engine can raise
    two exceptions: the [TypeError] of a property read on [undefined], and
    the [RangeError] of a call that is given more arguments than the
    runtime can pass. *)
Inductive Result (A : Type) : Type :=
| Ok (a : A)
| TypeError
| RangeError.
Arguments TypeError {A}.
Arguments RangeError {A}.

Definition bind {A B : Type} (r : Result A) (k : A -> Result B) : Result B :=
  match r with
  | Ok a => k a
  | TypeError => TypeError
  | RangeError => RangeError
  end.

(** [arr[i]] followed by a property read: [undefined.p] throws. *)
Definition get {A : Type} (arr : list A) (i : nat) : Result A :=
  match nth_error arr i with
  | Some a => Ok a
  | None => TypeError
  end.

(** [for (let i = lo; i < lo + n; i++) s = body(i, s)], for a body that
    neither assigns [i] nor leaves the loop early. *)
Fixpoint forRange {S : Type} (n i : nat) (body : nat -> S -> Result S) (s : S)
  : Result S :=
  match n with
  | O => Ok s
  | Datatypes.S n' => bind (body i s) (forRange n' (Datatypes.S i) body)
  end.

(** [arr.slice(from, to)] for [0 <= from <= to]. *)
Definition slice {A : Type} (arr : list A) (from to : nat) : list A :=
  firstn (to - from) (skipn from arr).

(** The Number value of an integer, and of an array length or a count. *)
Definition Number_of_Z (z : Z) : float :=
  SF2Prim (binary_normalize prec emax z 0 false).

Definition Number_of_nat (n : nat) : float := Number_of_Z (Z.of_nat n).

(** [x > y] is [y < x]: false as soon as one side is [NaN]. *)
Definition gtb (x y : float) : bool := PrimFloat.ltb y x.

(** The sign of a zero or of any other float. *)
Definition signbit (x : float) : bool := get_sign x.

(** [Math.round]: the integral value closest to [x], ties towards
    [+Infinity]; [NaN], the infinities and the zeros are returned as they
    are, and a result that is zero keeps the sign of [x]. The float
    [(-1)^s * m * 2^e] is rounded exactly, on integers. *)
Definition Math_round (x : float) : float :=
  match Prim2SF x with
  | S754_finite s m e =>
      if (0 <=? e)%Z then x
      else
        let k := (- e)%Z in
        let v := if s then Zneg m else Zpos m in
        let n := ((2 * v + 2 ^ k) / 2 ^ (k + 1))%Z in
        match n with
        | Z0 => if s then neg_zero else zero
        | Zpos p => of_uint63 (Uint63.of_Z (Zpos p))
        | Zneg p => PrimFloat.opp (of_uint63 (Uint63.of_Z (Zpos p)))
        end
  | _ => x
  end.

(** [Math.min(x, y)] and [Math.max(x, y)]: [NaN] if either is [NaN], and
    [-0] is smaller than [+0]. *)
Definition Math_min2 (x y : float) : float :=
  if is_nan x || is_nan y then nan
  else if PrimFloat.ltb x y then x
  else if PrimFloat.ltb y x then y
  else if signbit x then x else y.

Definition Math_max2 (x y : float) : float :=
  if is_nan x || is_nan y then nan
  else if PrimFloat.ltb y x then x
  else if PrimFloat.ltb x y then y
  else if signbit x then y else x.

(** [Math.min] and [Math.max] of the arguments they are given:
    [+Infinity] and [-Infinity] for no argument. *)
Definition Math_min (values : list float) : float :=
  fold_left Math_min2 values infinity.

Definition Math_max (values : list float) : float :=
  fold_left Math_max2 values neg_infinity.

(** [f(...args)]: the call of [f] with the elements of the array [args] as
    its arguments. Every element becomes an argument of the call, and a
    runtime passes only so many: with more than [argumentLimit] elements
    the call throws a [RangeError] and [f] is not run. *)
Definition spread {A B : Type} (argumentLimit : nat) (f : list A -> B)
  (args : list A) : Result B :=
  if Nat.ltb argumentLimit (length args) then RangeError else Ok (f args).

(** [arr.reduce(f, init)]. *)
Definition reduce {A B : Type} (f : B -> A -> B) (init : B) (arr : list A) : B :=
  fold_left f arr init.

(** [Array.prototype.sort(compare)] is stable: [a] goes before [b] when
    [compare(a, b) < 0], after it when [compare(a, b) > 0], and elements that
    compare equal keep their order. For a comparator that is a consistent
    ordering every stable sort returns the same array, which is the one
    computed here: the model inserts the elements from the right, and
    takes the comparator as the test [positive a b] for [compare(a, b) > 0].
    For a comparator that is not a consistent ordering (one that returns
    [NaN] for some pairs and a sign for others) the language leaves the
    order to the implementation; the array computed here is then one of
    the permutations an engine may return, and an engine may return
    another. *)
Fixpoint sort_insert {A : Type} (positive : A -> A -> bool) (a : A) (sorted : list A)
  : list A :=
  match sorted with
  | [] => [a]
  | b :: rest =>
      if positive a b then b :: sort_insert positive a rest
      else a :: sorted
  end.

Definition sort {A : Type} (positive : A -> A -> bool) (arr : list A) : list A :=
  fold_right (sort_insert positive) [] arr.

(** A template literal, kept as its pieces: the text of a Number or of a
    formatted date is decided by the host and is not computed here. *)
Inductive Piece (Timestamp : Type) : Type :=
| Lit (s : string)
| Num (x : float)
| Count (n : nat)
| HourNum (h : option nat)
| LocaleDate (t : Timestamp).
Arguments Lit {Timestamp} s.
Arguments Num {Timestamp} x.
Arguments Count {Timestamp} n.
Arguments HourNum {Timestamp} h.

Definition Template (Timestamp : Type) : Type := list (Piece Timestamp).

(** An object whose property names are hours. [getHours()] is an integer
    or [NaN], so a key is [Some h] for the name of the integer [h] and
    [None] for the name [NaN]. The entries are kept in the order in which
    JavaScript enumerates own properties: integer names first, in
    ascending numeric order whatever the order of creation, then the other
    names in order of creation. *)
Definition Key : Type := option nat.

Definition Obj (V : Type) : Type := list (Key * V).

Definition key_eqb (k k' : Key) : bool :=
  match k, k' with
  | Some n, Some n' => Nat.eqb n n'
  | None, None => true
  | _, _ => false
  end.

(** Whether a new property [k] is enumerated before the existing [k']. *)
Definition key_before (k k' : Key) : bool :=
  match k, k' with
  | Some n, Some n' => Nat.ltb n n'
  | Some _, None => true
  | None, _ => false
  end.

(** [o[k]]: [undefined] is [None]. *)
Fixpoint obj_get {V : Type} (o : Obj V) (k : Key) : option V :=
  match o with
  | [] => None
  | (k', v) :: rest => if key_eqb k k' then Some v else obj_get rest k
  end.

(** [o[k] = v]. *)
Fixpoint obj_set {V : Type} (o : Obj V) (k : Key) (v : V) : Obj V :=
  match o with
  | [] => [(k, v)]
  | (k', v') :: rest =>
      if key_eqb k k' then (k, v) :: rest
      else if key_before k k' then (k, v) :: o
      else (k', v') :: obj_set rest k v
  end.

(** [o[k]] followed by a property read. *)
Definition obj_read {V : Type} (o : Obj V) (k : Key) : Result V :=
  match obj_get o k with
  | Some v => Ok v
  | None => TypeError
  end.

Definition Object_values {V : Type} (o : Obj V) : list V := map snd o.

Definition Object_entries {V : Type} (o : Obj V) : list (Key * V) := o.

End JS.

Import JS.

Notation "x <- e ;; k" := (JS.bind e (fun x => k))
  (at level 61, e at next level, right associativity).

Open Scope float_scope.

(** ** The data model *)

Module Reading.
Record t (Timestamp : Type) : Type := mk {
  timestamp : Timestamp;
  consumption : float;
  temperature : float;
  occupancy : float;
  dayType : string
}.
End Reading.

Module Stats.
Record t : Type := mk {
  mean : float;
  stdDev : float;
  min : float;
  max : float
}.
End Stats.

(** One entry of the object [createHourlyProfile] returns. *)
Module HourBucket.
Record t : Type := mk {
  values : list float;
  mean : float;
  stdDev : float;
  count : nat
}.
End HourBucket.

Module Anomaly.
Record t (Timestamp : Type) : Type := mk {
  type : string;
  timestamp : Timestamp;
  consumption : float;
  expected : float;
  percentageIncrease : float;
  severity : Z;
  description : Template Timestamp
}.
End Anomaly.

Module Recommendation.
Record t (Timestamp : Type) : Type := mk {
  id : Template Timestamp;
  title : string;
  description : Template Timestamp;
  action : string;
  impact : Template Timestamp;
  urgency : string;
  anomalyType : string
}.
End Recommendation.

Module Savings.
Record t : Type := mk {
  energy : float;
  cost : float;
  carbon : float
}.
End Savings.

(** The record the server keeps for a building and passes as
    [buildingData]. *)
Module Building.
Record t (Timestamp : Type) : Type := mk {
  id : string;
  name : string;
  location : option string;
  area : option float;
  energyData : list (Reading.t Timestamp);
  anomalies : list (Anomaly.t Timestamp);
  lastUpdated : string
}.
End Building.

(** ** A host and sample inputs

    A concrete host on which the engine can be run: a timestamp is a number
    of hours of local time counted from a midnight, or [None] for a string
    that is not a date; [Math.pow] is exact for the exponent 2, the only one
    the engine uses; a call takes up to 125000 arguments. *)

Module Demo.

Definition Timestamp : Type := option nat.

Definition getHours (t : Timestamp) : option nat :=
  match t with
  | Some h => Some (h mod 24)%nat
  | None => None
  end.

Definition getTime (t : Timestamp) : float :=
  match t with
  | Some h => Number_of_Z (Z.of_nat h * 3600000)
  | None => nan
  end.

Definition Math_pow (base exponent : float) : float := base * base.

Definition argumentLimit : nat := Z.to_nat 125000.

Definition Date_now (k : nat) : float := 1700000000000.

Definition building : Building.t Timestamp :=
  Building.mk "hq" "Headquarters" None None [] [] "2024-01-15T00:00:00.000Z".

Definition reading (t : nat) (c : float) : Reading.t Timestamp :=
  Reading.mk (Some t) c 20 0 "weekday".

(** One weekday reading a day at 9 o'clock, from day [d] on. *)
Fixpoint daily (d : nat) (cs : list float) : list (Reading.t Timestamp) :=
  match cs with
  | [] => []
  | c :: rest => reading (24 * d + 9) c :: daily (S d) rest
  end.

(** The end-to-end scenario of the specification. *)
Definition scenario : list (Reading.t Timestamp) :=
  daily 0 [100; 102; 101; 103; 102; 104; 103; 105; 180; 106; 104; 103; 105; 104].

(** Eight days of steady increase. *)
Definition rising : list (Reading.t Timestamp) :=
  daily 0 [100; 110; 120; 130; 140; 150; 160; 170].

(** Two readings of zero, then a jump. *)
Definition zeroPrevious : list (Reading.t Timestamp) :=
  daily 0 [100; 102; 101; 103; 102; 104; 0; 0; 500; 106; 104; 103; 105; 104].

(** A week of weekday increase with a weekend reading in the middle whose
    consumption is not a number. *)
Definition gap : list (Reading.t Timestamp) :=
  [reading 9 100; reading 33 110; reading 57 120;
   Reading.mk (Some 81%nat) nan 20 0 "weekend";
   reading 105 140; reading 129 150; reading 153 160; reading 177 200].

(** Six readings whose timestamps are not dates. *)
Definition shortInvalid : list (Reading.t Timestamp) :=
  map (fun c => Reading.mk None c 20 0 "weekday") [100; 102; 101; 103; 102; 104].

(** Ten days with a reading at 3 o'clock and one at noon; the night of day
    7 is abnormal. *)
Fixpoint nightAndNoon (d : nat) (nights : list float) : list (Reading.t Timestamp) :=
  match nights with
  | [] => []
  | c :: rest =>
      reading (24 * d + 3) c :: reading (24 * d + 12) 1000
        :: nightAndNoon (S d) rest
  end.

Definition offHours : list (Reading.t Timestamp) :=
  nightAndNoon 0 [10; 10; 10; 10; 10; 10; 10; 100; 10; 10].

Definition scheduleAt (t : nat) (consumption expected : float) : Anomaly.t Timestamp :=
  Anomaly.mk "schedule" (Some t) consumption expected 0 1%Z [].

(** Two schedule anomalies, the first at 5 o'clock with an excess of 100,
    the second at 3 o'clock (of the next day) with an excess of 10. *)
Definition tie : list (Anomaly.t Timestamp) :=
  [scheduleAt 5 200 100; scheduleAt 27 110 100].

(** The scenario with a reading that is not a number on day 2. *)
Definition notANumber : list (Reading.t Timestamp) :=
  daily 0 [100; 102; nan; 103; 102; 104; 103; 105; 180; 106; 104; 103; 105; 104].

(** The scenario with other temperatures and occupancies. *)
Definition occupied : list (Reading.t Timestamp) :=
  map
    (fun r =>
       Reading.mk (Reading.timestamp r) (Reading.consumption r) 35 120
         (Reading.dayType r))
    scenario.

(** Eight readings of an unknown day type whose timestamps are not dates. *)
Definition holidays : list (Reading.t Timestamp) :=
  map (fun c => Reading.mk None c 20 0 "holiday")
    [100; 102; 101; 103; 102; 104; 150; 100].

(** Three spikes, of severity 2, 3 and 3, and a drift between them. *)
Definition spikes : list (Anomaly.t Timestamp) :=
  [Anomaly.mk "spike" (Some 33%nat) 140 100 40 2%Z [];
   Anomaly.mk "spike" (Some 57%nat) 180 100 80 3%Z [];
   Anomaly.mk "drift" (Some 153%nat) 130 100 30 2%Z [];
   Anomaly.mk "spike" (Some 81%nat) 200 100 100 3%Z []].

End Demo.

(** ** The engine *)

Section Engine.

(** What the host decides: the type of the [timestamp] field and how the
    [Date] object reads it, [Math.pow], whose result the language leaves
    to the implementation, and how many arguments a call can take. *)
Variable Timestamp : Type.

(** [new Date(t).getHours()]: an hour from 0 to 23, or [None] for the
    [NaN] of an invalid date. *)
Variable getHours : Timestamp -> option nat.

(** The time value of [new Date(t)], which is what subtracting two dates
    subtracts. *)
Variable getTime : Timestamp -> float.

Variable Math_pow : float -> float -> float.

(** The greatest number of arguments the runtime passes to one call. It
    depends on the engine and on the size of its stack, and is taken to be
    the same for every call of an invocation. *)
Variable argumentLimit : nat.

Abbreviation Reading := (Reading.t Timestamp).
Abbreviation Anomaly := (Anomaly.t Timestamp).
Abbreviation Recommendation := (Recommendation.t Timestamp).
Abbreviation Building := (Building.t Timestamp).

(** [arr.forEach(body)] for a body that updates captured state. *)
Fixpoint forEach {A S : Type} (arr : list A) (body : A -> S -> Result S) (s : S)
  : Result S :=
  match arr with
  | [] => Ok s
  | a :: rest => s' <- body a s ;; forEach rest body s'
  end.

(** The two spread calls of the object literal are evaluated in the order
    of its properties, [min] then [max]. *)
Definition calculateStats (values : list float) : Result Stats.t :=
  let count := length values in
  if Nat.eqb count 0 then Ok (Stats.mk 0 0 0 0)
  else
    let sum := reduce (fun acc val => acc + val) 0 values in
    let mean := sum / Number_of_nat count in
    let squaredDiffs := map (fun value => Math_pow (value - mean) 2) values in
    let variance :=
      reduce (fun acc val => acc + val) 0 squaredDiffs / Number_of_nat count in
    let stdDev := sqrt variance in
    min <- spread argumentLimit Math_min values ;;
    max <- spread argumentLimit Math_max values ;;
    Ok (Stats.mk mean stdDev min max).

Definition createHourlyProfile (data : list Reading) : Result (Obj HourBucket.t) :=
  let hourlyData : Obj HourBucket.t := [] in
  hourlyData <-
    forRange 24 0
      (fun hour hourlyData =>
         Ok (obj_set hourlyData (Some hour) (HourBucket.mk [] 0 0 0)))
      hourlyData ;;
  hourlyData <-
    forEach data
      (fun entry hourlyData =>
         let hour := getHours (Reading.timestamp entry) in
         bucket <- obj_read hourlyData hour ;;
         Ok (obj_set hourlyData hour
               (HourBucket.mk
                  (HourBucket.values bucket ++ [Reading.consumption entry])
                  (HourBucket.mean bucket) (HourBucket.stdDev bucket)
                  (HourBucket.count bucket))))
      hourlyData ;;
  hourlyData <-
    forRange 24 0
      (fun hour hourlyData =>
         bucket <- obj_read hourlyData (Some hour) ;;
         stats <- calculateStats (HourBucket.values bucket) ;;
         Ok (obj_set hourlyData (Some hour)
               (HourBucket.mk (HourBucket.values bucket)
                  (Stats.mean stats) (Stats.stdDev stats)
                  (length (HourBucket.values bucket)))))
      hourlyData ;;
  Ok hourlyData.

(** The inner loop of the drift pass, with its [break]. *)
Fixpoint increasingLoop (window : list Reading) (n j : nat) (isIncreasing : bool)
  : Result bool :=
  match n with
  | O => Ok isIncreasing
  | S n' =>
      wj <- get window j ;;
      wj1 <- get window (j - 1) ;;
      if Reading.consumption wj <=? Reading.consumption wj1 then Ok false
      else increasingLoop window n' (S j) isIncreasing
  end.

Definition windowSize : nat := 5.

Definition spikeBody (data : list Reading) (weekdayStats weekendStats : Stats.t)
  (i : nat) (anomalies : list Anomaly) : Result (list Anomaly) :=
  current <- get data i ;;
  previous <- get data (i - 1) ;;
  let dayType := Reading.dayType current in
  let stats := if String.eqb dayType "weekday" then weekdayStats else weekendStats in
  let percentageIncrease :=
    ((Reading.consumption current - Reading.consumption previous)
     / Reading.consumption previous) * 100 in
  if gtb percentageIncrease 30
     && gtb (Reading.consumption current) (Stats.mean stats + 2 * Stats.stdDev stats)
  then
    Ok (anomalies ++
        [Anomaly.mk "spike" (Reading.timestamp current)
           (Reading.consumption current) (Reading.consumption previous)
           (Math_round (percentageIncrease * 10) / 10)
           (if gtb percentageIncrease 50 then 3%Z else 2%Z)
           [Lit "Sudden energy spike of "; Num (Math_round percentageIncrease);
            Lit "% detected"]])
  else Ok anomalies.

Definition driftBody (data : list Reading) (weekdayStats weekendStats : Stats.t)
  (i : nat) (anomalies : list Anomaly) : Result (list Anomaly) :=
  let window := slice data (i - windowSize) (i + 1) in
  di <- get data i ;;
  let dayType := Reading.dayType di in
  let stats := if String.eqb dayType "weekday" then weekdayStats else weekendStats in
  isIncreasing <- increasingLoop window (length window - 1) 1 true ;;
  if isIncreasing then
    wlast <- get window windowSize ;;
    if gtb (Reading.consumption wlast) (Stats.mean stats + 1.5 * Stats.stdDev stats)
    then
      wfirst <- get window 0 ;;
      let startVal := Reading.consumption wfirst in
      let endVal := Reading.consumption wlast in
      let percentageIncrease := ((endVal - startVal) / startVal) * 100 in
      let avgDailyIncrease := percentageIncrease / Number_of_nat windowSize in
      if gtb avgDailyIncrease 3 then
        Ok (anomalies ++
            [Anomaly.mk "drift" (Reading.timestamp wlast) endVal startVal
               (Math_round (percentageIncrease * 10) / 10)
               (if gtb avgDailyIncrease 5 then 2%Z else 1%Z)
               [Lit "Gradual efficiency loss of ";
                Num (Math_round percentageIncrease); Lit "% over ";
                Count windowSize; Lit " days"]])
      else Ok anomalies
    else Ok anomalies
  else Ok anomalies.

Definition scheduleBody (data : list Reading)
  (weekdayHourlyProfile weekendHourlyProfile : Obj HourBucket.t)
  (i : nat) (anomalies : list Anomaly) : Result (list Anomaly) :=
  entry <- get data i ;;
  let hour := getHours (Reading.timestamp entry) in
  let profile :=
    if String.eqb (Reading.dayType entry) "weekday" then weekdayHourlyProfile
    else weekendHourlyProfile in
  match obj_get profile hour with
  | None => Ok anomalies
  | Some bucket =>
      if Nat.ltb (HourBucket.count bucket) 3 then Ok anomalies
      else
        let expected := HourBucket.mean bucket in
        let deviation := HourBucket.stdDev bucket in
        if gtb (Reading.consumption entry) (expected + 2.5 * deviation) then
          let allHoursAvg :=
            reduce (fun sum h => sum + HourBucket.mean h) 0 (Object_values profile)
            / 24 in
          if expected <? 0.7 * allHoursAvg then
            let percentageIncrease :=
              ((Reading.consumption entry - expected) / expected) * 100 in
            Ok (anomalies ++
                [Anomaly.mk "schedule" (Reading.timestamp entry)
                   (Reading.consumption entry) expected
                   (Math_round (percentageIncrease * 10) / 10)
                   (if gtb percentageIncrease 70 then 2%Z else 1%Z)
                   [Lit "Abnormal energy use during off-hours (";
                    HourNum hour; Lit ":00)"]])
          else Ok anomalies
        else Ok anomalies
  end.

(** [data] is an array, so the [!data] of the guard is false and the guard
    is the test on the length. The three loops push to one array. *)
Definition detectAnomalies (data : list Reading) : Result (list Anomaly) :=
  if Nat.ltb (length data) 7 then Ok []
  else
    let anomalies : list Anomaly := [] in
    let weekdayData :=
      filter (fun entry => String.eqb (Reading.dayType entry) "weekday") data in
    let weekendData :=
      filter (fun entry => String.eqb (Reading.dayType entry) "weekend") data in
    weekdayStats <- calculateStats (map (@Reading.consumption _) weekdayData) ;;
    weekendStats <- calculateStats (map (@Reading.consumption _) weekendData) ;;
    anomalies <-
      forRange (length data - 1) 1 (spikeBody data weekdayStats weekendStats)
        anomalies ;;
    anomalies <-
      forRange (length data - windowSize) windowSize
        (driftBody data weekdayStats weekendStats) anomalies ;;
    weekdayHourlyProfile <- createHourlyProfile weekdayData ;;
    weekendHourlyProfile <- createHourlyProfile weekendData ;;
    anomalies <-
      forRange (length data) 0
        (scheduleBody data weekdayHourlyProfile weekendHourlyProfile) anomalies ;;
    Ok anomalies.

(** The [forEach] of the schedule branch: the anomalies of one hour are
    collected under that hour's property. *)
Definition groupByHour (scheduleAnomalies : list Anomaly) : Result (Obj (list Anomaly)) :=
  forEach scheduleAnomalies
    (fun anomaly hourGroups =>
       let hour := getHours (Anomaly.timestamp anomaly) in
       let hourGroups :=
         match obj_get hourGroups hour with
         | None => obj_set hourGroups hour []
         | Some _ => hourGroups
         end in
       group <- obj_read hourGroups hour ;;
       Ok (obj_set hourGroups hour (group ++ [anomaly])))
    [].

(** The scan for the hour with most anomalies; [parseInt] gives back the
    number a property is named after. *)
Definition findWorstHour (hourGroups : Obj (list Anomaly)) : Key * nat :=
  let worstHour : Key := Some 0%nat in
  let maxCount := 0%nat in
  fold_left
    (fun (st : Key * nat) (entry : Key * list Anomaly) =>
       let '(worstHour, maxCount) := st in
       let '(hour, anomalies) := entry in
       if Nat.ltb maxCount (length anomalies) then (hour, length anomalies)
       else (worstHour, maxCount))
    (Object_entries hourGroups) (worstHour, maxCount).

Definition hourFormatted (worstHour : Key) : Template Timestamp :=
  match worstHour with
  | Some h =>
      if Nat.ltb h 12 then [HourNum (Some h); Lit "am"]
      else if Nat.eqb h 12 then [Lit "12pm"]
      else [HourNum (Some (h - 12)%nat); Lit "pm"]
  | None => [HourNum None; Lit "pm"]
  end.

(** The three object literals that [generateRecommendations] pushes;
    [now] is the value of [Date.now()]. *)
Definition spikeRecommendation (now : float) (worstSpike : Anomaly) : Recommendation :=
  let date := LocaleDate (Anomaly.timestamp worstSpike) in
  Recommendation.mk
    [Lit "spike-"; Num now]
    "Potential Equipment Malfunction"
    [Lit "Sudden energy spike of "; Num (Anomaly.percentageIncrease worstSpike);
     Lit "% detected on "; date;
     Lit ". This pattern typically indicates HVAC system malfunction or short-cycling."]
    "Schedule inspection of HVAC control systems and verify thermostat settings."
    [Lit "Addressing this issue could save approximately $";
     Num (Math_round
            ((Anomaly.consumption worstSpike - Anomaly.expected worstSpike)
             * 30 * 0.15));
     Lit " per month if recurring."]
    (if (Anomaly.severity worstSpike =? 3)%Z
     then "High - Immediate attention recommended"
     else "Medium - Address within 1 week")
    "spike".

Definition driftRecommendation (now : float) (mostRecent : Anomaly) : Recommendation :=
  let date := LocaleDate (Anomaly.timestamp mostRecent) in
  Recommendation.mk
    [Lit "drift-"; Num now]
    "Gradual Efficiency Loss Detected"
    [Lit "Increasing energy consumption pattern detected, culminating on "; date;
     Lit ". This typically indicates developing system inefficiency."]
    "Check for air leaks, inspect insulation integrity, and verify building automation schedules."
    [Lit "Addressing this trend could save approximately $";
     Num (Math_round
            ((Anomaly.consumption mostRecent - Anomaly.expected mostRecent)
             * 30 * 0.15));
     Lit " per month."]
    (if (Anomaly.severity mostRecent =? 2)%Z
     then "Medium - Address within 1-2 weeks"
     else "Low - Schedule during next maintenance")
    "drift".

Definition scheduleRecommendation (now : float) (worstHour : Key) (maxCount : nat)
  (averageExcess : float) : Recommendation :=
  Recommendation.mk
    [Lit "schedule-"; Num now]
    "Off-hours Energy Usage"
    ([Lit "Abnormal energy consumption detected during expected low-usage hours ("]
     ++ hourFormatted worstHour
     ++ [Lit "). This has occurred "; Count maxCount; Lit " times recently."])
    "Review building occupancy schedule and automation system settings. Check for unauthorized equipment operation."
    [Lit "Optimizing scheduling could save approximately $";
     Num (Math_round (averageExcess * Number_of_nat maxCount * 4 * 0.15));
     Lit " per month."]
    (if Nat.ltb 3 maxCount
     then "Medium - Investigate within 2 weeks"
     else "Low - Investigate during next maintenance cycle")
    "schedule".

(** The clock is passed explicitly: [Date_now k] is what the [k]-th call of
    [Date.now()] of the invocation returns, counting from 0; a call is made
    for each recommendation pushed. *)
Definition generateRecommendations (Date_now : nat -> float)
  (anomalies : list Anomaly) (buildingData : Building)
  : Result (list Recommendation) :=
  if Nat.eqb (length anomalies) 0 then Ok []
  else
    let recommendations : list Recommendation := [] in
    let spikeAnomalies :=
      filter (fun a => String.eqb (Anomaly.type a) "spike") anomalies in
    let driftAnomalies :=
      filter (fun a => String.eqb (Anomaly.type a) "drift") anomalies in
    let scheduleAnomalies :=
      filter (fun a => String.eqb (Anomaly.type a) "schedule") anomalies in
    recommendations <-
      (if Nat.ltb 0 (length spikeAnomalies) then
         worstSpike <-
           get (sort (fun a b => (0 <? Anomaly.severity b - Anomaly.severity a)%Z)
                  spikeAnomalies) 0 ;;
         Ok (recommendations ++
             [spikeRecommendation (Date_now (length recommendations)) worstSpike])
       else Ok recommendations) ;;
    recommendations <-
      (if Nat.ltb 0 (length driftAnomalies) then
         mostRecent <-
           get (sort (fun a b =>
                        gtb (getTime (Anomaly.timestamp b)
                             - getTime (Anomaly.timestamp a)) 0)
                  driftAnomalies) 0 ;;
         Ok (recommendations ++
             [driftRecommendation (Date_now (length recommendations)) mostRecent])
       else Ok recommendations) ;;
    recommendations <-
      (if Nat.ltb 0 (length scheduleAnomalies) then
         hourGroups <- groupByHour scheduleAnomalies ;;
         let '(worstHour, maxCount) := findWorstHour hourGroups in
         if Nat.ltb 0 maxCount then
           worstGroup <- obj_read hourGroups worstHour ;;
           let averageExcess :=
             reduce (fun sum a => sum + (Anomaly.consumption a - Anomaly.expected a))
               0 worstGroup
             / Number_of_nat (length worstGroup) in
           Ok (recommendations ++
               [scheduleRecommendation (Date_now (length recommendations))
                  worstHour maxCount averageExcess])
         else Ok recommendations
       else Ok recommendations) ;;
    Ok recommendations.

Definition ELECTRICITY_COST_PER_KWH : float := 0.15.
Definition CARBON_INTENSITY : float := 0.4.

Definition calculateSavings (anomalies : list Anomaly) (buildingData : Building)
  : Savings.t :=
  if Nat.eqb (length anomalies) 0 then Savings.mk 0 0 0
  else
    let totalExcessEnergy :=
      reduce
        (fun sum anomaly =>
           sum + (Anomaly.consumption anomaly - Anomaly.expected anomaly))
        0 anomalies in
    let costSavings := totalExcessEnergy * ELECTRICITY_COST_PER_KWH in
    let carbonSavings := totalExcessEnergy * CARBON_INTENSITY in
    Savings.mk
      (Math_round (totalExcessEnergy * 10) / 10)
      (Math_round (costSavings * 100) / 100)
      (Math_round (carbonSavings * 10) / 10).

(** ** What the specification says, in its own words

    The definitions below follow the specification's sentences; the
    theorems compare them with the functions above. *)

(** A reading is well formed when its day type is one of the two of the
    data model, its timestamp is an instant (it has an hour of the day),
    and its consumption is a number. *)
Definition knownDayType (r : Reading) : bool :=
  String.eqb (Reading.dayType r) "weekday" || String.eqb (Reading.dayType r) "weekend".

Definition validHour (r : Reading) : bool :=
  match getHours (Reading.timestamp r) with
  | Some h => Nat.ltb h 24
  | None => false
  end.

Definition numericConsumption (r : Reading) : bool :=
  negb (is_nan (Reading.consumption r)).

Definition hasType (t : string) (a : Anomaly) : bool := String.eqb (Anomaly.type a) t.

(** The sum of a sequence, taken in the order of the sequence. *)
Definition sumOf (xs : list float) : float := fold_left PrimFloat.add xs 0.

(** Rounding to [digits] decimals. *)
Definition roundTo (digits : nat) (x : float) : float :=
  match digits with
  | 1%nat => Math_round (x * 10) / 10
  | 2%nat => Math_round (x * 100) / 100
  | _ => Math_round x
  end.

(** The statistics of a sequence of values: its mean, its population
    standard deviation, its least and its greatest value; all zero for the
    empty sequence. *)
Definition statistics (values : list float) : Stats.t :=
  let count := length values in
  if Nat.eqb count 0 then Stats.mk 0 0 0 0
  else
    let sum := reduce (fun acc val => acc + val) 0 values in
    let mean := sum / Number_of_nat count in
    let squaredDiffs := map (fun value => Math_pow (value - mean) 2) values in
    let variance :=
      reduce (fun acc val => acc + val) 0 squaredDiffs / Number_of_nat count in
    Stats.mk mean (sqrt variance) (Math_min values) (Math_max values).

(** The baseline of a day type: the statistics of the consumption of all
    the readings of that day type. *)
Definition baseline (data : list Reading) (dayType : string) : Stats.t :=
  statistics
    (map (@Reading.consumption _)
       (filter (fun r => String.eqb (Reading.dayType r) dayType) data)).

(** [(value - reference) / reference * 100]. *)
Definition percentageOver (reference value : float) : float :=
  (value - reference) / reference * 100.

(** *** Spike *)

Definition spikeCondition (data : list Reading) (previous current : Reading) : bool :=
  let b := baseline data (Reading.dayType current) in
  gtb (percentageOver (Reading.consumption previous) (Reading.consumption current)) 30
  && gtb (Reading.consumption current) (Stats.mean b + 2 * Stats.stdDev b).

Definition spikeAnomaly (previous current : Reading) : Anomaly :=
  let p := percentageOver (Reading.consumption previous) (Reading.consumption current) in
  Anomaly.mk "spike" (Reading.timestamp current) (Reading.consumption current)
    (Reading.consumption previous) (roundTo 1 p)
    (if gtb p 50 then 3%Z else 2%Z)
    [Lit "Sudden energy spike of "; Num (Math_round p); Lit "% detected"].

(** The spike anomalies of reading [i]: one when the condition holds, none
    otherwise. *)
Definition spikesAt (data : list Reading) (i : nat) : list Anomaly :=
  match nth_error data (i - 1), nth_error data i with
  | Some previous, Some current =>
      if spikeCondition data previous current then [spikeAnomaly previous current]
      else []
  | _, _ => []
  end.

(** *** Drift *)

(** The [n] consecutive readings that end at index [i]. *)
Definition readingsEndingAt (data : list Reading) (i n : nat) : list Reading :=
  firstn n (skipn (i + 1 - n) data).

(** Every consecutive pair increases strictly. *)
Fixpoint strictlyIncreasing (xs : list float) : bool :=
  match xs with
  | a :: (b :: _) as rest => (a <? b) && strictlyIncreasing rest
  | _ => true
  end.

Definition avgDailyIncrease (first last : Reading) : float :=
  percentageOver (Reading.consumption first) (Reading.consumption last) / 5.

Definition driftCondition (data : list Reading) (window : list Reading)
  (first last : Reading) : bool :=
  let b := baseline data (Reading.dayType last) in
  strictlyIncreasing (map (@Reading.consumption _) window)
  && gtb (Reading.consumption last) (Stats.mean b + 1.5 * Stats.stdDev b)
  && gtb (avgDailyIncrease first last) 3.

Definition driftAnomaly (first last : Reading) : Anomaly :=
  let p := percentageOver (Reading.consumption first) (Reading.consumption last) in
  Anomaly.mk "drift" (Reading.timestamp last) (Reading.consumption last)
    (Reading.consumption first) (roundTo 1 p)
    (if gtb (avgDailyIncrease first last) 5 then 2%Z else 1%Z)
    [Lit "Gradual efficiency loss of "; Num (Math_round p); Lit "% over ";
     Count 5; Lit " days"].

Definition driftsAt (data : list Reading) (i : nat) : list Anomaly :=
  let window := readingsEndingAt data i 6 in
  match nth_error window 0, nth_error window 5 with
  | Some first, Some last =>
      if driftCondition data window first last then [driftAnomaly first last]
      else []
  | _, _ => []
  end.

(** *** Schedule *)

(** The samples of an hour of the day in the profile of a day type. *)
Definition hourValues (data : list Reading) (dayType : string) (hour : nat)
  : list float :=
  map (@Reading.consumption _)
    (filter
       (fun r =>
          String.eqb (Reading.dayType r) dayType
          && key_eqb (getHours (Reading.timestamp r)) (Some hour))
       data).

Definition hourMean (data : list Reading) (dayType : string) (hour : nat) : float :=
  Stats.mean (statistics (hourValues data dayType hour)).

Definition hourStdDev (data : list Reading) (dayType : string) (hour : nat) : float :=
  Stats.stdDev (statistics (hourValues data dayType hour)).

(** The hourly profile of a day type: all 24 hours, each with its mean,
    standard deviation and sample count. *)
Definition hourBucket (values : list float) : HourBucket.t :=
  HourBucket.mk values (Stats.mean (statistics values))
    (Stats.stdDev (statistics values)) (length values).

Definition tabulate {V : Type} (f : nat -> V) (a n : nat) : Obj V :=
  map (fun h => (Some h, f h)) (seq a n).

Definition hourlyProfile (data : list Reading) (dayType : string) : Obj HourBucket.t :=
  tabulate (fun h => hourBucket (hourValues data dayType h)) 0 24.

(** The average of all 24 hourly means. *)
Definition allHoursAverage (data : list Reading) (dayType : string) : float :=
  sumOf (map (hourMean data dayType) (seq 0 24)) / 24.

Definition scheduleCondition (data : list Reading) (entry : Reading) (hour : nat)
  : bool :=
  let d := Reading.dayType entry in
  gtb (Reading.consumption entry) (hourMean data d hour + 2.5 * hourStdDev data d hour)
  && (hourMean data d hour <? 0.7 * allHoursAverage data d).

Definition scheduleAnomaly (data : list Reading) (entry : Reading) (hour : nat)
  : Anomaly :=
  let expected := hourMean data (Reading.dayType entry) hour in
  let p := percentageOver expected (Reading.consumption entry) in
  Anomaly.mk "schedule" (Reading.timestamp entry) (Reading.consumption entry)
    expected (roundTo 1 p)
    (if gtb p 70 then 2%Z else 1%Z)
    [Lit "Abnormal energy use during off-hours ("; HourNum (Some hour); Lit ":00)"].

Definition schedulesAt (data : list Reading) (i : nat) : list Anomaly :=
  match nth_error data i with
  | Some entry =>
      match getHours (Reading.timestamp entry) with
      | Some hour =>
          if Nat.ltb (length (hourValues data (Reading.dayType entry) hour)) 3 then []
          else if scheduleCondition data entry hour then [scheduleAnomaly data entry hour]
          else []
      | None => []
      end
  | None => []
  end.

(** *** Savings *)

(** The excess of an anomaly list: the sum of consumption - expected. *)
Definition excess (anomalies : list Anomaly) : float :=
  sumOf (map (fun a => Anomaly.consumption a - Anomaly.expected a) anomalies).

(** *** Recommendations *)

Definition hourOf (a : Anomaly) : Key := getHours (Anomaly.timestamp a).

(** The anomalies of a list that fall in hour [k]. *)
Definition atHour (k : Key) (l : list Anomaly) : list Anomaly :=
  filter (fun a => key_eqb (hourOf a) k) l.

(** The dollar estimate of the schedule recommendation for the anomalies
    [group] of the chosen hour. *)
Definition scheduleImpact (group : list Anomaly) : float :=
  Math_round
    (excess group / Number_of_nat (length group)
     * Number_of_nat (length group) * 4 * 0.15).

(** The hours of a list of anomalies, in the order in which they are first
    encountered. *)
Fixpoint hoursSeen (l : list Anomaly) : list Key :=
  match l with
  | [] => []
  | a :: rest =>
      hourOf a :: filter (fun k => negb (key_eqb k (hourOf a))) (hoursSeen rest)
  end.

(** The hour with the most anomalies, the first one encountered in the
    input winning a tie. *)
Definition firstSeenWorstHour (l : list Anomaly) : Key :=
  fst
    (fold_left
       (fun (best : Key * nat) (k : Key) =>
          if Nat.ltb (snd best) (length (atHour k l)) then (k, length (atHour k l))
          else best)
       (hoursSeen l) (Some 0%nat, 0%nat)).

(** The dollar estimate the recommendation would carry if, as the
    specification has it, a tie went to the hour first encountered. *)
Definition firstSeenImpact (anomalies : list Anomaly) : float :=
  let scheduleAnomalies := filter (hasType "schedule") anomalies in
  scheduleImpact (atHour (firstSeenWorstHour scheduleAnomalies) scheduleAnomalies).

(** Two recommendations that differ at most in their identifier. *)
Definition sameButId (r1 r2 : Recommendation) : Prop :=
  Recommendation.title r1 = Recommendation.title r2
  /\ Recommendation.description r1 = Recommendation.description r2
  /\ Recommendation.action r1 = Recommendation.action r2
  /\ Recommendation.impact r1 = Recommendation.impact r2
  /\ Recommendation.urgency r1 = Recommendation.urgency r2
  /\ Recommendation.anomalyType r1 = Recommendation.anomalyType r2.

(** ** The loops of the code in closed form

    What each loop computes, written without the loop; the lemmas below
    prove that the code computes it, and the theorems relate it to the
    definitions that follow the specification's words. *)

(** The test the loop of the code performs on a window: no reading is
    less than or equal to the one before it. With numbers this is
    [strictlyIncreasing]; a [NaN] passes it. *)
Fixpoint noDrop (xs : list float) : bool :=
  match xs with
  | a :: (b :: _) as rest => negb (b <=? a) && noDrop rest
  | _ => true
  end.

Definition driftsRawAt (data : list Reading) (i : nat) : list Anomaly :=
  let window := readingsEndingAt data i 6 in
  match nth_error window 0, nth_error window 5 with
  | Some first, Some last =>
      let b := baseline data (Reading.dayType last) in
      if noDrop (map (@Reading.consumption _) window)
         && gtb (Reading.consumption last) (Stats.mean b + 1.5 * Stats.stdDev b)
         && gtb (avgDailyIncrease first last) 3
      then [driftAnomaly first last]
      else []
  | _, _ => []
  end.

(** The own properties of an object are enumerated in strictly increasing
    order of key. *)
Definition sortedObj {V : Type} (o : Obj V) : Prop :=
  StronglySorted (fun e1 e2 => key_before (fst e1) (fst e2) = true) o.

(** What a group holds after more anomalies of its hour are pushed. *)
Definition pushed (group : option (list Anomaly)) (more : list Anomaly)
  : option (list Anomaly) :=
  match more with
  | [] => group
  | _ => Some (match group with Some g => g | None => [] end ++ more)
  end.

(** The hour the code settles on, and the closed form of each of the three
    steps of [generateRecommendations]. *)
Definition codeWorstHour (scheduleAnomalies : list Anomaly) : Key :=
  match groupByHour scheduleAnomalies with
  | Ok hourGroups => fst (findWorstHour hourGroups)
  | TypeError | RangeError => Some 0%nat
  end.

Definition spikePart (now : float) (anomalies : list Anomaly) : list Recommendation :=
  match
    sort (fun a b => (0 <? Anomaly.severity b - Anomaly.severity a)%Z)
      (filter (hasType "spike") anomalies)
  with
  | [] => []
  | worstSpike :: _ => [spikeRecommendation now worstSpike]
  end.

Definition driftPart (now : float) (anomalies : list Anomaly) : list Recommendation :=
  match
    sort (fun a b =>
            gtb (getTime (Anomaly.timestamp b) - getTime (Anomaly.timestamp a)) 0)
      (filter (hasType "drift") anomalies)
  with
  | [] => []
  | mostRecent :: _ => [driftRecommendation now mostRecent]
  end.

Definition schedulePart (now : float) (anomalies : list Anomaly)
  : list Recommendation :=
  match filter (hasType "schedule") anomalies with
  | [] => []
  | scheduleAnomalies =>
      let worstHour := codeWorstHour scheduleAnomalies in
      let group := atHour worstHour scheduleAnomalies in
      [scheduleRecommendation now worstHour (length group)
         (excess group / Number_of_nat (length group))]
  end.

(** The recommendations, in the order in which they are pushed; the
    [k]-th one pushed reads the clock for the [k]-th time. *)
Definition recommendationsOf (Date_now : nat -> float) (anomalies : list Anomaly)
  : list Recommendation :=
  let s := spikePart (Date_now 0%nat) anomalies in
  let d := driftPart (Date_now (length s)) anomalies in
  let c := schedulePart (Date_now (length (s ++ d))) anomalies in
  s ++ d ++ c.

(** *** The argument limit

    [calculateStats] spreads the consumption of all the weekday readings,
    and then of all the weekend readings, into a call: whether one of the
    two day types has more readings than a call takes arguments. *)
Definition overArgumentLimit (data : list Reading) : bool :=
  Nat.ltb argumentLimit
    (length (filter (fun r => String.eqb (Reading.dayType r) "weekday") data))
  || Nat.ltb argumentLimit
       (length (filter (fun r => String.eqb (Reading.dayType r) "weekend") data)).

(** *** The detector on every input

    The code selects the weekday statistics and profile for a reading whose
    day type is ['weekday'] and the weekend ones for every other reading,
    whatever its day type is. *)
Definition dayBucket (dayType : string) : string :=
  if String.eqb dayType "weekday" then "weekday"%string else "weekend"%string.

Definition emittedSpikes (data : list Reading) (i : nat) : list Anomaly :=
  match nth_error data (i - 1), nth_error data i with
  | Some previous, Some current =>
      let b := baseline data (dayBucket (Reading.dayType current)) in
      if gtb (percentageOver (Reading.consumption previous)
                (Reading.consumption current)) 30
         && gtb (Reading.consumption current) (Stats.mean b + 2 * Stats.stdDev b)
      then [spikeAnomaly previous current]
      else []
  | _, _ => []
  end.

Definition emittedDrifts (data : list Reading) (i : nat) : list Anomaly :=
  let window := readingsEndingAt data i 6 in
  match nth_error window 0, nth_error window 5 with
  | Some first, Some last =>
      let b := baseline data (dayBucket (Reading.dayType last)) in
      if noDrop (map (@Reading.consumption _) window)
         && gtb (Reading.consumption last) (Stats.mean b + 1.5 * Stats.stdDev b)
         && gtb (avgDailyIncrease first last) 3
      then [driftAnomaly first last]
      else []
  | _, _ => []
  end.

Definition scheduleAnomalyIn (data : list Reading) (d : string) (entry : Reading)
  (hour : nat) : Anomaly :=
  let expected := hourMean data d hour in
  let p := percentageOver expected (Reading.consumption entry) in
  Anomaly.mk "schedule" (Reading.timestamp entry) (Reading.consumption entry)
    expected (roundTo 1 p)
    (if gtb p 70 then 2%Z else 1%Z)
    [Lit "Abnormal energy use during off-hours ("; HourNum (Some hour); Lit ":00)"].

Definition emittedSchedules (data : list Reading) (i : nat) : list Anomaly :=
  match nth_error data i with
  | Some entry =>
      let d := dayBucket (Reading.dayType entry) in
      match getHours (Reading.timestamp entry) with
      | Some hour =>
          if Nat.ltb hour 24 then
            if Nat.ltb (length (hourValues data d hour)) 3 then []
            else if gtb (Reading.consumption entry)
                      (hourMean data d hour + 2.5 * hourStdDev data d hour)
                    && (hourMean data d hour <? 0.7 * allHoursAverage data d)
                 then [scheduleAnomalyIn data d entry hour]
                 else []
          else []
      | None => []
      end
  | None => []
  end.

(** Everything the three passes emit, in the order of emission. *)
Definition emitted (data : list Reading) : list Anomaly :=
  flat_map (emittedSpikes data) (seq 1 (length data - 1))
  ++ flat_map (emittedDrifts data) (seq 5 (length data - 5))
  ++ flat_map (emittedSchedules data) (seq 0 (length data)).

(** The fields of a reading that the detector uses. *)
Definition coreOf (r : Reading) : Timestamp * float * string :=
  (Reading.timestamp r, Reading.consumption r, Reading.dayType r).

(** The reading with its temperature and occupancy erased. *)
Definition strip (r : Reading) : Reading :=
  Reading.mk (Reading.timestamp r) (Reading.consumption r) 0 0 (Reading.dayType r).

(** *** Auxiliary notions of the proofs *)

(** Less than or equal, on the specification of floats. *)
Definition SFle (a b : spec_float) : Prop :=
  SFcompare a b = Some Lt \/ SFcompare a b = Some Eq.

(** A bucket after more values are pushed, and the consumption of the
    readings of an hour. *)
Definition pushValue (b : HourBucket.t) (vs : list float) : HourBucket.t :=
  HourBucket.mk (HourBucket.values b ++ vs) (HourBucket.mean b)
    (HourBucket.stdDev b) (HourBucket.count b).

Definition consumptionAt (l : list Reading) (h : nat) : list float :=
  map (@Reading.consumption _)
    (filter (fun r => key_eqb (getHours (Reading.timestamp r)) (Some h)) l).

(** ** Facts about the runtime model *)

(** *** Comparison of floats *)

Lemma SFcompare_swap (a b : spec_float) :
  SFcompare b a = option_map CompOpp (SFcompare a b).
Proof.
  destruct a as [sa|sa| |sa ma ea], b as [sb|sb| |sb mb eb]; simpl; try reflexivity;
    try (destruct sa; reflexivity); try (destruct sb; reflexivity);
    try (destruct sa, sb; reflexivity).
  destruct sa, sb; simpl; try reflexivity;
    rewrite (Z.compare_antisym ea eb); destruct (ea ?= eb)%Z; simpl; try reflexivity;
    rewrite (Pos.compare_cont_antisym ma mb Eq); simpl;
    destruct (Pos.compare_cont Eq ma mb); reflexivity.
Qed.

Lemma SFcompare_refl (a : spec_float) :
  a <> S754_nan -> SFcompare a a = Some Eq.
Proof.
  destruct a as [s|s| |s m e]; simpl; intros H; try reflexivity; try congruence.
  - destruct s; reflexivity.
  - destruct s; rewrite Z.compare_refl; fold (Pos.compare m m);
      rewrite Pos.compare_refl; reflexivity.
Qed.

Lemma SFcompare_None (a b : spec_float) :
  SFcompare a b = None <-> a = S754_nan \/ b = S754_nan.
Proof.
  split.
  - destruct a as [sa|sa| |sa ma ea], b as [sb|sb| |sb mb eb]; simpl; intros H;
      auto; try discriminate;
      try (destruct sa; discriminate); try (destruct sb; discriminate).
  - intros [-> | ->]; [reflexivity | destruct a; reflexivity].
Qed.

Lemma is_nan_Prim2SF (x : float) : is_nan x = false <-> Prim2SF x <> S754_nan.
Proof.
  unfold is_nan. rewrite FloatAxioms.eqb_spec. unfold SFeqb. split.
  - intros H E. rewrite E in H. discriminate.
  - intros H. rewrite SFcompare_refl by assumption. reflexivity.
Qed.

Lemma ltb_leb_false (x y : float) : (x <? y) = true -> (y <=? x) = false.
Proof.
  rewrite FloatAxioms.ltb_spec, FloatAxioms.leb_spec. unfold SFltb, SFleb.
  rewrite (SFcompare_swap (Prim2SF x) (Prim2SF y)).
  destruct (SFcompare (Prim2SF x) (Prim2SF y)) as [[]|]; simpl; congruence.
Qed.

Lemma leb_ltb_false (x y : float) : (x <=? y) = true -> (y <? x) = false.
Proof.
  intros H. destruct (y <? x) eqn:E; [|reflexivity].
  apply ltb_leb_false in E. congruence.
Qed.

Lemma leb_false_ltb (x y : float) :
  is_nan x = false -> is_nan y = false -> (x <=? y) = false -> (y <? x) = true.
Proof.
  rewrite !is_nan_Prim2SF, FloatAxioms.ltb_spec, FloatAxioms.leb_spec.
  unfold SFltb, SFleb.
  intros Hx Hy. rewrite (SFcompare_swap (Prim2SF x) (Prim2SF y)).
  destruct (SFcompare (Prim2SF x) (Prim2SF y)) as [[]|] eqn:E; simpl; try congruence.
  apply SFcompare_None in E. tauto.
Qed.

Lemma ltb_false_leb (x y : float) :
  is_nan x = false -> is_nan y = false -> (x <? y) = false -> (y <=? x) = true.
Proof.
  intros Hx Hy H. destruct (y <=? x) eqn:E; [reflexivity|].
  apply leb_false_ltb in E; congruence.
Qed.

Lemma ltb_leb (x y : float) : (x <? y) = true -> (x <=? y) = true.
Proof.
  rewrite FloatAxioms.ltb_spec, FloatAxioms.leb_spec. unfold SFltb, SFleb.
  destruct (SFcompare (Prim2SF x) (Prim2SF y)) as [[]|]; congruence.
Qed.

Lemma leb_refl (x : float) : is_nan x = false -> (x <=? x) = true.
Proof.
  rewrite is_nan_Prim2SF, FloatAxioms.leb_spec. unfold SFleb.
  intros H. rewrite SFcompare_refl by assumption. reflexivity.
Qed.

Lemma SFle_trans (a b c : spec_float) : SFle a b -> SFle b c -> SFle a c.
Proof.
  unfold SFle.
  destruct a as [[]|[]| |[] ma ea], b as [[]|[]| |[] mb eb], c as [[]|[]| |[] mc ec];
    simpl; intros [H1|H1] [H2|H2]; try discriminate; auto.
  all: revert H1 H2;
    change (Pos.compare_cont Eq ma mb) with (Pos.compare ma mb);
    change (Pos.compare_cont Eq mb mc) with (Pos.compare mb mc);
    change (Pos.compare_cont Eq ma mc) with (Pos.compare ma mc);
    destruct (Z.compare_spec ea eb), (Z.compare_spec eb ec), (Z.compare_spec ea ec);
    try lia; try discriminate; auto;
    destruct (Pos.compare_spec ma mb), (Pos.compare_spec mb mc),
      (Pos.compare_spec ma mc);
    simpl; try lia; try discriminate; auto.
Qed.

Lemma leb_SFle (x y : float) : (x <=? y) = true <-> SFle (Prim2SF x) (Prim2SF y).
Proof.
  rewrite FloatAxioms.leb_spec. unfold SFleb, SFle.
  destruct (SFcompare (Prim2SF x) (Prim2SF y)) as [[]|]; split; auto;
    try discriminate; intros [H|H]; discriminate.
Qed.

Lemma leb_trans (x y z : float) :
  (x <=? y) = true -> (y <=? z) = true -> (x <=? z) = true.
Proof.
  rewrite !leb_SFle. apply SFle_trans.
Qed.

(** *** Loops and arrays *)

(** The branch of a loop body that pushes nothing. *)
Ltac nothing_pushed := rewrite app_nil_r; reflexivity.

Lemma forRange_append {A : Type} (f : nat -> list A)
  (body : nat -> list A -> Result (list A)) (n lo : nat) (acc : list A) :
  (forall i acc', lo <= i < lo + n -> body i acc' = Ok (acc' ++ f i)) ->
  forRange n lo body acc = Ok (acc ++ flat_map f (seq lo n)).
Proof.
  revert lo acc. induction n as [|n IH]; intros lo acc H; simpl.
  - rewrite app_nil_r. reflexivity.
  - rewrite H by lia. simpl. rewrite IH.
    + rewrite <- app_assoc. reflexivity.
    + intros i acc' Hi. apply H. lia.
Qed.

Lemma get_nth_error {A : Type} (arr : list A) (i : nat) (a : A) :
  nth_error arr i = Some a -> get arr i = Ok a.
Proof. unfold get. intros ->. reflexivity. Qed.

Lemma nth_error_in_range {A : Type} (arr : list A) (i : nat) :
  i < length arr -> exists a, nth_error arr i = Some a.
Proof.
  intros H. destruct (nth_error arr i) eqn:E; [eauto|].
  apply nth_error_None in E. lia.
Qed.

Lemma forallb_ext_in {A : Type} (p q : A -> bool) (l : list A) :
  (forall x, In x l -> p x = q x) -> forallb p l = forallb q l.
Proof.
  induction l as [|x l IH]; intros H; simpl; [reflexivity|].
  rewrite (H x) by (left; reflexivity).
  rewrite IH by (intros; apply H; right; assumption). reflexivity.
Qed.

Lemma filter_length_le {A : Type} (p : A -> bool) (l : list A) :
  length (filter p l) <= length l.
Proof.
  induction l as [|x l IH]; simpl; [lia|]. destruct (p x); simpl; lia.
Qed.

(** ** The statistics and the argument limit *)

(** [calculateStats] throws when it is given more values than a call takes
    arguments, and returns the statistics of the values otherwise. *)
Lemma calculateStats_cases (values : list float) :
  calculateStats values
  = if Nat.ltb argumentLimit (length values) then RangeError
    else Ok (statistics values).
Proof.
  unfold calculateStats, statistics, spread. destruct values as [|v vs].
  - cbn [length Nat.eqb]. destruct (Nat.ltb_spec argumentLimit 0); [lia|reflexivity].
  - cbn [length Nat.eqb]. cbv zeta.
    destruct (Nat.ltb argumentLimit (S (length vs))); reflexivity.
Qed.

Lemma calculateStats_within (values : list float) :
  length values <= argumentLimit -> calculateStats values = Ok (statistics values).
Proof.
  intros H. rewrite calculateStats_cases.
  destruct (Nat.ltb_spec argumentLimit (length values)); [lia|reflexivity].
Qed.

(** ** The detector *)

(** The statistics the passes select are the baseline of the reading's
    day type. *)
Lemma stats_is_baseline (data : list Reading) (r : Reading) :
  knownDayType r = true ->
  (if String.eqb (Reading.dayType r) "weekday"
   then statistics
          (map (@Reading.consumption _)
             (filter (fun entry => String.eqb (Reading.dayType entry) "weekday") data))
   else statistics
          (map (@Reading.consumption _)
             (filter (fun entry => String.eqb (Reading.dayType entry) "weekend") data)))
  = baseline data (Reading.dayType r).
Proof.
  unfold knownDayType, baseline. intros H.
  destruct (String.eqb_spec (Reading.dayType r) "weekday") as [E|E].
  - rewrite E. reflexivity.
  - simpl in H. apply String.eqb_eq in H. rewrite H. reflexivity.
Qed.

Lemma forallb_nth_error {A : Type} (p : A -> bool) (l : list A) (i : nat) (a : A) :
  forallb p l = true -> nth_error l i = Some a -> p a = true.
Proof.
  intros H E. rewrite forallb_forall in H. apply H. eapply nth_error_In; eauto.
Qed.

Lemma spikeBody_spec (data : list Reading) (i : nat) (acc : list Anomaly) :
  forallb knownDayType data = true ->
  1 <= i < length data ->
  spikeBody data
    (statistics
       (map (@Reading.consumption _)
          (filter (fun entry => String.eqb (Reading.dayType entry) "weekday") data)))
    (statistics
       (map (@Reading.consumption _)
          (filter (fun entry => String.eqb (Reading.dayType entry) "weekend") data)))
    i acc
  = Ok (acc ++ spikesAt data i).
Proof.
  intros Hd Hi. unfold spikeBody, spikesAt.
  destruct (nth_error_in_range data (i := i)) as [current Hc]; [lia|].
  destruct (nth_error_in_range data (i := i - 1)) as [previous Hp]; [lia|].
  rewrite (get_nth_error _ _ Hc), (get_nth_error _ _ Hp), Hc, Hp. simpl.
  rewrite (stats_is_baseline data current) by (eapply forallb_nth_error; eauto).
  unfold spikeCondition, percentageOver.
  destruct (_ && _); [reflexivity|]. rewrite app_nil_r. reflexivity.
Qed.

Lemma leb_negb_ltb (x y : float) :
  is_nan x = false -> is_nan y = false -> (y <=? x) = negb (x <? y).
Proof.
  intros Hx Hy. destruct (x <? y) eqn:E; simpl.
  - apply ltb_leb_false. assumption.
  - apply ltb_false_leb; assumption.
Qed.

Lemma window_in_data (data : list Reading) (k n : nat) (r : Reading) :
  In r (firstn n (skipn k data)) -> In r data.
Proof.
  intros H. apply In_nth_error in H. destruct H as [j H].
  rewrite nth_error_firstn in H. destruct (Nat.ltb j n); [|discriminate].
  rewrite nth_error_skipn in H. eapply nth_error_In; eauto.
Qed.

Lemma window_length (data : list Reading) (i : nat) :
  5 <= i < length data -> length (firstn 6 (skipn (i - 5) data)) = 6%nat.
Proof.
  intros H. rewrite length_firstn, length_skipn. lia.
Qed.

Lemma window_last (data : list Reading) (i : nat) :
  5 <= i -> nth_error (firstn 6 (skipn (i - 5) data)) 5 = nth_error data i.
Proof.
  intros H. rewrite nth_error_firstn.
  change (Nat.ltb 5 6) with true. cbv iota.
  rewrite nth_error_skipn. f_equal. lia.
Qed.

Lemma driftBody_spec (data : list Reading) (i : nat) (acc : list Anomaly) :
  forallb knownDayType data = true ->
  5 <= i < length data ->
  driftBody data
    (statistics
       (map (@Reading.consumption _)
          (filter (fun entry => String.eqb (Reading.dayType entry) "weekday") data)))
    (statistics
       (map (@Reading.consumption _)
          (filter (fun entry => String.eqb (Reading.dayType entry) "weekend") data)))
    i acc
  = Ok (acc ++ driftsRawAt data i).
Proof.
  intros Hd Hi. unfold driftBody, driftsRawAt, readingsEndingAt, slice, windowSize.
  replace (i + 1 - (i - 5))%nat with 6%nat by lia.
  replace (i + 1 - 6)%nat with (i - 5)%nat by lia.
  pose proof (window_length data Hi) as Hlen.
  pose proof (window_last data (i := i) (proj1 Hi)) as Hlast.
  destruct (firstn 6 (skipn (i - 5) data))
    as [|w0 [|w1 [|w2 [|w3 [|w4 [|w5 [|w6 rest]]]]]]] eqn:Ew;
    simpl in Hlen; try discriminate.
  simpl in Hlast. symmetry in Hlast.
  rewrite (get_nth_error _ _ Hlast). simpl.
  rewrite (stats_is_baseline data w5) by (eapply forallb_nth_error; eauto).
  unfold avgDailyIncrease, percentageOver.
  destruct (Reading.consumption w1 <=? Reading.consumption w0); simpl;
    [nothing_pushed|].
  destruct (Reading.consumption w2 <=? Reading.consumption w1); simpl;
    [nothing_pushed|].
  destruct (Reading.consumption w3 <=? Reading.consumption w2); simpl;
    [nothing_pushed|].
  destruct (Reading.consumption w4 <=? Reading.consumption w3); simpl;
    [nothing_pushed|].
  destruct (Reading.consumption w5 <=? Reading.consumption w4); simpl;
    [nothing_pushed|].
  destruct (gtb (Reading.consumption w5) _); simpl;
    [|nothing_pushed].
  change (Number_of_nat 5) with 5.
  destruct (gtb _ 3); simpl; [reflexivity|nothing_pushed].
Qed.

Lemma noDrop_strictlyIncreasing (xs : list float) :
  forallb (fun x => negb (is_nan x)) xs = true ->
  noDrop xs = strictlyIncreasing xs.
Proof.
  induction xs as [|a xs IH]; intros H; [reflexivity|].
  destruct xs as [|b rest]; [reflexivity|].
  cbn [forallb] in H. apply andb_true_iff in H. destruct H as [Ha H].
  specialize (IH H).
  cbn [forallb] in H. apply andb_true_iff in H. destruct H as [Hb _].
  apply negb_true_iff in Ha, Hb.
  change (noDrop (a :: b :: rest)) with (negb (b <=? a) && noDrop (b :: rest)).
  change (strictlyIncreasing (a :: b :: rest))
    with ((a <? b) && strictlyIncreasing (b :: rest)).
  rewrite IH, (@leb_negb_ltb a b) by assumption.
  rewrite negb_involutive. reflexivity.
Qed.

Lemma driftsRawAt_numeric (data : list Reading) (i : nat) :
  forallb numericConsumption data = true ->
  driftsRawAt data i = driftsAt data i.
Proof.
  intros Hn. unfold driftsRawAt, driftsAt, driftCondition.
  rewrite noDrop_strictlyIncreasing; [reflexivity|].
  rewrite forallb_forall. intros x Hx. apply in_map_iff in Hx.
  destruct Hx as [r [<- Hr]]. apply window_in_data in Hr.
  rewrite forallb_forall in Hn. apply (Hn r Hr).
Qed.

(** *** The hourly profile *)

Lemma tabulate_ext {V : Type} (f g : nat -> V) (a n : nat) :
  (forall h, a <= h < a + n -> f h = g h) -> tabulate f a n = tabulate g a n.
Proof.
  intros H. unfold tabulate. apply map_ext_in. intros h Hh.
  apply in_seq in Hh. rewrite H by lia. reflexivity.
Qed.

Lemma obj_get_tabulate {V : Type} (f : nat -> V) (a n h : nat) :
  obj_get (tabulate f a n) (Some h)
  = if Nat.leb a h && Nat.ltb h (a + n) then Some (f h) else None.
Proof.
  revert a. induction n as [|n IH]; intros a; simpl.
  - destruct (Nat.leb_spec a h), (Nat.ltb_spec h (a + 0)); simpl; auto; lia.
  - destruct (Nat.eqb_spec h a) as [->|Hne].
    + rewrite Nat.leb_refl. destruct (Nat.ltb_spec a (a + S n)); [reflexivity|lia].
    + fold (tabulate f (S a) n). rewrite IH.
      destruct (Nat.leb_spec (S a) h), (Nat.leb_spec a h),
        (Nat.ltb_spec h (S a + n)), (Nat.ltb_spec h (a + S n)); simpl; auto; lia.
Qed.

Lemma obj_set_tabulate {V : Type} (f : nat -> V) (a n h : nat) (v : V) :
  a <= h < a + n ->
  obj_set (tabulate f a n) (Some h) v
  = tabulate (fun h' => if Nat.eqb h' h then v else f h') a n.
Proof.
  unfold tabulate.
  revert a. induction n as [|n IH]; intros a Hh; [simpl in Hh; lia|].
  cbn [seq map obj_set key_eqb key_before].
  destruct (Nat.eqb_spec h a) as [E|Hne].
  - subst h. rewrite Nat.eqb_refl. f_equal.
    apply map_ext_in. intros h' Hh'. apply in_seq in Hh'.
    destruct (Nat.eqb_spec h' a); [lia|reflexivity].
  - destruct (Nat.ltb_spec h a); [lia|].
    destruct (Nat.eqb_spec a h); [lia|].
    f_equal. apply (IH (S a)). lia.
Qed.

Lemma obj_read_tabulate {V : Type} (f : nat -> V) (h : nat) :
  h < 24 -> obj_read (tabulate f 0 24) (Some h) = Ok (f h).
Proof.
  intros H. unfold obj_read. rewrite obj_get_tabulate.
  destruct (Nat.ltb_spec h (0 + 24)); [reflexivity|lia].
Qed.

Lemma profile_fill (l : list Reading) (f : nat -> HourBucket.t) :
  forallb validHour l = true ->
  forEach l
    (fun entry hourlyData =>
       let hour := getHours (Reading.timestamp entry) in
       bucket <- obj_read hourlyData hour ;;
       Ok (obj_set hourlyData hour
             (HourBucket.mk
                (HourBucket.values bucket ++ [Reading.consumption entry])
                (HourBucket.mean bucket) (HourBucket.stdDev bucket)
                (HourBucket.count bucket))))
    (tabulate f 0 24)
  = Ok (tabulate (fun h => pushValue (f h) (consumptionAt l h)) 0 24).
Proof.
  revert f. induction l as [|entry rest IH]; intros f Hv.
  - simpl. f_equal. apply tabulate_ext. intros h _.
    unfold pushValue, consumptionAt. simpl. rewrite app_nil_r.
    destruct (f h); reflexivity.
  - simpl in Hv. apply andb_true_iff in Hv. destruct Hv as [Hh Hrest].
    unfold validHour in Hh.
    cbn [forEach]. cbv zeta.
    destruct (getHours (Reading.timestamp entry)) as [h0|] eqn:Eh; [|discriminate].
    apply Nat.ltb_lt in Hh.
    rewrite obj_read_tabulate by assumption. cbn [bind].
    rewrite obj_set_tabulate by lia. rewrite IH by assumption.
    f_equal. apply tabulate_ext. intros h _.
    unfold pushValue, consumptionAt. cbn [filter]. rewrite Eh. cbn [key_eqb].
    rewrite (Nat.eqb_sym h0 h).
    destruct (Nat.eqb_spec h h0) as [->|Hne]; cbn.
    + rewrite <- app_assoc. reflexivity.
    + reflexivity.
Qed.

Lemma profile_finish (n lo : nat) (f : nat -> HourBucket.t) :
  lo + n <= 24 ->
  forRange n lo
    (fun hour hourlyData =>
       bucket <- obj_read hourlyData (Some hour) ;;
       stats <- calculateStats (HourBucket.values bucket) ;;
       Ok (obj_set hourlyData (Some hour)
             (HourBucket.mk (HourBucket.values bucket)
                (Stats.mean stats) (Stats.stdDev stats)
                (length (HourBucket.values bucket)))))
    (tabulate f 0 24)
  = if forallb
         (fun h => Nat.leb (length (HourBucket.values (f h))) argumentLimit)
         (seq lo n)
    then Ok (tabulate
               (fun h =>
                  if Nat.leb lo h && Nat.ltb h (lo + n)
                  then hourBucket (HourBucket.values (f h)) else f h)
               0 24)
    else RangeError.
Proof.
  revert lo f. induction n as [|n IH]; intros lo f Hlo.
  - simpl. f_equal. apply tabulate_ext. intros h _.
    destruct (Nat.leb_spec lo h), (Nat.ltb_spec h (lo + 0)); simpl; auto; lia.
  - cbn [forRange seq forallb]. rewrite obj_read_tabulate by lia. cbn [bind].
    rewrite calculateStats_cases.
    destruct (Nat.leb_spec (length (HourBucket.values (f lo))) argumentLimit),
      (Nat.ltb_spec argumentLimit (length (HourBucket.values (f lo))));
      try lia; cbn [bind andb]; [|reflexivity].
    rewrite obj_set_tabulate by lia. rewrite IH by lia.
    rewrite (forallb_ext_in
               (fun h =>
                  Nat.leb
                    (length
                       (HourBucket.values
                          (if Nat.eqb h lo
                           then HourBucket.mk (HourBucket.values (f lo))
                                  (Stats.mean (statistics (HourBucket.values (f lo))))
                                  (Stats.stdDev (statistics (HourBucket.values (f lo))))
                                  (length (HourBucket.values (f lo)))
                           else f h)))
                    argumentLimit)
               (fun h => Nat.leb (length (HourBucket.values (f h))) argumentLimit)).
    + destruct (forallb _ (seq (S lo) n)); [|reflexivity].
      f_equal. apply tabulate_ext. intros h _. unfold hourBucket.
      destruct (Nat.eqb_spec h lo) as [->|Hne].
      * destruct (Nat.leb_spec (S lo) lo); [lia|]. rewrite Nat.leb_refl.
        destruct (Nat.ltb_spec lo (lo + S n)); [|lia]. reflexivity.
      * destruct (Nat.leb_spec (S lo) h), (Nat.leb_spec lo h),
          (Nat.ltb_spec h (S lo + n)), (Nat.ltb_spec h (lo + S n));
          simpl; auto; lia.
    + intros h Hh. apply in_seq in Hh.
      destruct (Nat.eqb_spec h lo); [lia|reflexivity].
Qed.

(** The number of readings of an hour, within the argument limit or not. *)
Lemma buckets_within (l : list Reading) :
  length l <= argumentLimit ->
  forallb (fun h => Nat.leb (length (consumptionAt l h)) argumentLimit) (seq 0 24)
  = true.
Proof.
  intros H. apply forallb_forall. intros h _. apply Nat.leb_le.
  unfold consumptionAt. rewrite length_map.
  pose proof (filter_length_le
                (fun r => key_eqb (getHours (Reading.timestamp r)) (Some h)) l).
  lia.
Qed.

Lemma createHourlyProfile_valid (l : list Reading) :
  forallb validHour l = true ->
  createHourlyProfile l
  = if forallb (fun h => Nat.leb (length (consumptionAt l h)) argumentLimit)
         (seq 0 24)
    then Ok (tabulate (fun h => hourBucket (consumptionAt l h)) 0 24)
    else RangeError.
Proof.
  intros Hv. unfold createHourlyProfile.
  change (forRange 24 0
            (fun hour hourlyData =>
               Ok (obj_set hourlyData (Some hour) (HourBucket.mk [] 0 0 0))) [])
    with (Ok (tabulate (fun _ : nat => HourBucket.mk [] 0 0 0) 0 24)).
  cbn [bind]. rewrite profile_fill by assumption. cbn [bind].
  rewrite profile_finish by lia.
  change (forallb
            (fun h =>
               Nat.leb
                 (length
                    (HourBucket.values
                       (pushValue (HourBucket.mk [] 0 0 0) (consumptionAt l h))))
                 argumentLimit)
            (seq 0 24))
    with (forallb (fun h => Nat.leb (length (consumptionAt l h)) argumentLimit)
            (seq 0 24)).
  destruct (forallb _ (seq 0 24)); reflexivity.
Qed.

Lemma createHourlyProfile_spec (l : list Reading) :
  forallb validHour l = true ->
  length l <= argumentLimit ->
  createHourlyProfile l = Ok (tabulate (fun h => hourBucket (consumptionAt l h)) 0 24).
Proof.
  intros Hv Hl. rewrite createHourlyProfile_valid by assumption.
  rewrite buckets_within by assumption. reflexivity.
Qed.

Lemma filter_filter {A : Type} (p q : A -> bool) (l : list A) :
  filter p (filter q l) = filter (fun x => q x && p x) l.
Proof.
  induction l as [|x l IH]; simpl; [reflexivity|].
  destruct (q x); simpl; [destruct (p x)|]; rewrite IH; reflexivity.
Qed.

Lemma forallb_filter {A : Type} (p q : A -> bool) (l : list A) :
  forallb p l = true -> forallb p (filter q l) = true.
Proof.
  rewrite !forallb_forall. intros H x Hx. apply filter_In in Hx. apply H, Hx.
Qed.

Lemma createHourlyProfile_dayType (data : list Reading) (dayType : string) :
  forallb validHour data = true ->
  length (filter (fun entry => String.eqb (Reading.dayType entry) dayType) data)
  <= argumentLimit ->
  createHourlyProfile
    (filter (fun entry => String.eqb (Reading.dayType entry) dayType) data)
  = Ok (hourlyProfile data dayType).
Proof.
  intros Hv Hl.
  rewrite createHourlyProfile_spec by (try apply forallb_filter; assumption).
  f_equal. apply tabulate_ext. intros h _.
  unfold consumptionAt, hourValues. rewrite filter_filter. reflexivity.
Qed.

Lemma profile_is_hourlyProfile (data : list Reading) (r : Reading) :
  knownDayType r = true ->
  (if String.eqb (Reading.dayType r) "weekday" then hourlyProfile data "weekday"
   else hourlyProfile data "weekend")
  = hourlyProfile data (Reading.dayType r).
Proof.
  unfold knownDayType. intros H.
  destruct (String.eqb_spec (Reading.dayType r) "weekday") as [E|E].
  - rewrite E. reflexivity.
  - simpl in H. apply String.eqb_eq in H. rewrite H. reflexivity.
Qed.

Lemma allHoursAvg_spec (data : list Reading) (dayType : string) :
  reduce (fun sum h => sum + HourBucket.mean h) 0
    (Object_values (hourlyProfile data dayType)) / 24
  = allHoursAverage data dayType.
Proof. reflexivity. Qed.

Lemma scheduleBody_spec (data : list Reading) (i : nat) (acc : list Anomaly) :
  forallb knownDayType data = true ->
  forallb validHour data = true ->
  i < length data ->
  scheduleBody data (hourlyProfile data "weekday") (hourlyProfile data "weekend") i acc
  = Ok (acc ++ schedulesAt data i).
Proof.
  intros Hd Hv Hi. unfold scheduleBody, schedulesAt.
  destruct (nth_error_in_range data Hi) as [entry He].
  rewrite (get_nth_error _ _ He), He. cbn [bind]. cbv zeta.
  rewrite (profile_is_hourlyProfile data entry) by (eapply forallb_nth_error; eauto).
  pose proof (forallb_nth_error _ _ _ Hv He) as Hh. unfold validHour in Hh.
  destruct (getHours (Reading.timestamp entry)) as [h|] eqn:Eh; [|discriminate].
  apply Nat.ltb_lt in Hh.
  rewrite allHoursAvg_spec.
  unfold hourlyProfile at 1. rewrite obj_get_tabulate.
  destruct (Nat.ltb_spec h (0 + 24)); [|lia]. cbn [Nat.leb andb].
  unfold hourBucket. cbn [HourBucket.count HourBucket.mean HourBucket.stdDev].
  destruct (Nat.ltb _ 3); [nothing_pushed|].
  unfold scheduleCondition, scheduleAnomaly, percentageOver, hourMean, hourStdDev.
  cbn [roundTo].
  destruct (gtb (Reading.consumption entry) _); cbn [andb];
    [|nothing_pushed].
  destruct (_ <? _); [reflexivity|nothing_pushed].
Qed.

Lemma flat_map_ext_in {A B : Type} (f g : A -> list B) (l : list A) :
  (forall a, In a l -> f a = g a) -> flat_map f l = flat_map g l.
Proof.
  induction l as [|a l IH]; intros H; simpl; [reflexivity|].
  rewrite (H a) by (left; reflexivity).
  rewrite IH by (intros; apply H; right; assumption). reflexivity.
Qed.

(** The three passes, in the order of the code, under the assumptions of
    the data model on day types and timestamps: the statistics of the two
    day types are computed first, and the call throws there when a day
    type has more readings than a call takes arguments. *)
Lemma detectAnomalies_passes (data : list Reading) :
  7 <= length data ->
  forallb knownDayType data = true ->
  forallb validHour data = true ->
  detectAnomalies data
  = if overArgumentLimit data then RangeError
    else Ok (flat_map (spikesAt data) (seq 1 (length data - 1))
             ++ flat_map (driftsRawAt data) (seq 5 (length data - 5))
             ++ flat_map (schedulesAt data) (seq 0 (length data))).
Proof.
  intros Hlen Hd Hv. unfold detectAnomalies, overArgumentLimit.
  destruct (Nat.ltb_spec (length data) 7); [lia|]. cbv zeta.
  rewrite !calculateStats_cases, !length_map.
  destruct (Nat.ltb_spec argumentLimit
              (length
                 (filter (fun entry => String.eqb (Reading.dayType entry) "weekday")
                    data))) as [|Hwd];
    cbn [bind orb]; [reflexivity|].
  destruct (Nat.ltb_spec argumentLimit
              (length
                 (filter (fun entry => String.eqb (Reading.dayType entry) "weekend")
                    data))) as [|Hwe];
    cbn [bind]; [reflexivity|].
  rewrite (forRange_append (spikesAt data))
    by (intros; apply spikeBody_spec; [assumption|lia]).
  cbn [bind app].
  unfold windowSize at 1 2.
  rewrite (forRange_append (driftsRawAt data))
    by (intros; apply driftBody_spec; [assumption|lia]).
  cbn [bind].
  rewrite !createHourlyProfile_dayType by assumption. cbn [bind].
  rewrite (forRange_append (schedulesAt data))
    by (intros; apply scheduleBody_spec; [assumption|assumption|lia]).
  cbn [bind]. rewrite <- app_assoc. reflexivity.
Qed.

(** A history that is within the argument limit as a whole is within it
    for each day type. *)
Lemma overArgumentLimit_false (data : list Reading) :
  length data <= argumentLimit -> overArgumentLimit data = false.
Proof.
  intros H. unfold overArgumentLimit.
  pose proof (filter_length_le
                (fun r => String.eqb (Reading.dayType r) "weekday") data).
  pose proof (filter_length_le
                (fun r => String.eqb (Reading.dayType r) "weekend") data).
  destruct (Nat.ltb_spec argumentLimit
              (length (filter (fun r => String.eqb (Reading.dayType r) "weekday") data)));
    [lia|].
  destruct (Nat.ltb_spec argumentLimit
              (length (filter (fun r => String.eqb (Reading.dayType r) "weekend") data)));
    [lia|reflexivity].
Qed.

(** What the detector returns when it returns, on well-formed readings. *)
Lemma detectAnomalies_returns (data : list Reading) (out : list Anomaly) :
  7 <= length data ->
  forallb knownDayType data = true ->
  forallb validHour data = true ->
  detectAnomalies data = Ok out ->
  out = flat_map (spikesAt data) (seq 1 (length data - 1))
        ++ flat_map (driftsRawAt data) (seq 5 (length data - 5))
        ++ flat_map (schedulesAt data) (seq 0 (length data)).
Proof.
  intros Hlen Hd Hv Ho. rewrite detectAnomalies_passes in Ho by assumption.
  destruct (overArgumentLimit data); [discriminate|]. congruence.
Qed.

(** A call that returns on 7 readings or more has passed the two calls of
    [calculateStats]: each day type is within the argument limit. *)
Lemma detectAnomalies_returns_within (data : list Reading) (out : list Anomaly) :
  7 <= length data ->
  detectAnomalies data = Ok out ->
  length (filter (fun entry => String.eqb (Reading.dayType entry) "weekday") data)
  <= argumentLimit
  /\ length (filter (fun entry => String.eqb (Reading.dayType entry) "weekend") data)
     <= argumentLimit.
Proof.
  intros Hlen Ho. unfold detectAnomalies in Ho.
  destruct (Nat.ltb_spec (length data) 7); [lia|]. cbv zeta in Ho.
  rewrite !calculateStats_cases, !length_map in Ho.
  destruct (Nat.ltb_spec argumentLimit
              (length
                 (filter (fun entry => String.eqb (Reading.dayType entry) "weekday")
                    data))) as [|Hwd];
    cbn [bind] in Ho; [discriminate|].
  destruct (Nat.ltb_spec argumentLimit
              (length
                 (filter (fun entry => String.eqb (Reading.dayType entry) "weekend")
                    data))) as [|Hwe];
    cbn [bind] in Ho; [discriminate|].
  split; assumption.
Qed.

Lemma detectAnomalies_within (data : list Reading) :
  7 <= length data ->
  forallb knownDayType data = true ->
  forallb validHour data = true ->
  length data <= argumentLimit ->
  exists out, detectAnomalies data = Ok out.
Proof.
  intros Hlen Hd Hv Hl. rewrite detectAnomalies_passes by assumption.
  rewrite overArgumentLimit_false by assumption. eauto.
Qed.

(** Each pass emits anomalies of its own type only. *)
Lemma filter_all {A : Type} (p : A -> bool) (l : list A) :
  Forall (fun a => p a = true) l -> filter p l = l.
Proof.
  induction 1 as [|a l Ha _ IH]; simpl; [reflexivity|].
  rewrite Ha, IH. reflexivity.
Qed.

Lemma filter_none {A : Type} (p : A -> bool) (l : list A) :
  Forall (fun a => p a = false) l -> filter p l = [].
Proof.
  induction 1 as [|a l Ha _ IH]; simpl; [reflexivity|].
  rewrite Ha, IH. reflexivity.
Qed.

Lemma Forall_flat_map_seq {A : Type} (P : A -> Prop) (f : nat -> list A) (lo n : nat) :
  (forall i, Forall P (f i)) -> Forall P (flat_map f (seq lo n)).
Proof.
  intros H. revert lo. induction n as [|n IH]; intros lo; simpl.
  - constructor.
  - apply Forall_app. split; [apply H|apply IH].
Qed.

Lemma spikesAt_type (data : list Reading) (i : nat) :
  Forall (fun a => Anomaly.type a = "spike"%string) (spikesAt data i).
Proof.
  unfold spikesAt.
  destruct (nth_error data (i - 1)), (nth_error data i); try constructor.
  destruct (spikeCondition _ _ _); repeat constructor.
Qed.

Lemma driftsRawAt_type (data : list Reading) (i : nat) :
  Forall (fun a => Anomaly.type a = "drift"%string) (driftsRawAt data i).
Proof.
  unfold driftsRawAt. cbv zeta.
  destruct (nth_error (readingsEndingAt data i 6) 0),
    (nth_error (readingsEndingAt data i 6) 5); try constructor.
  destruct (_ && _); repeat constructor.
Qed.

Lemma schedulesAt_type (data : list Reading) (i : nat) :
  Forall (fun a => Anomaly.type a = "schedule"%string) (schedulesAt data i).
Proof.
  unfold schedulesAt.
  destruct (nth_error data i); [|constructor].
  destruct (getHours _); [|constructor].
  destruct (Nat.ltb _ 3); [constructor|].
  destruct (scheduleCondition _ _ _); repeat constructor.
Qed.

Lemma filter_passes (t : string) (xs ys zs : list Anomaly) :
  Forall (fun a => Anomaly.type a = "spike"%string) xs ->
  Forall (fun a => Anomaly.type a = "drift"%string) ys ->
  Forall (fun a => Anomaly.type a = "schedule"%string) zs ->
  filter (hasType t) (xs ++ ys ++ zs)
  = (if String.eqb "spike" t then xs else [])
    ++ (if String.eqb "drift" t then ys else [])
    ++ (if String.eqb "schedule" t then zs else []).
Proof.
  intros Hx Hy Hz. rewrite !filter_app.
  assert (K : forall s l, Forall (fun a => Anomaly.type a = s) l ->
              filter (hasType t) l = if String.eqb s t then l else []).
  { intros s l Hl. destruct (String.eqb_spec s t) as [E|E].
    - apply filter_all. revert Hl. apply Forall_impl. intros a Ha.
      unfold hasType. rewrite Ha. apply String.eqb_eq. assumption.
    - apply filter_none. revert Hl. apply Forall_impl. intros a Ha.
      unfold hasType. rewrite Ha. apply String.eqb_neq. assumption. }
  rewrite (K _ _ Hx), (K _ _ Hy), (K _ _ Hz). reflexivity.
Qed.

Lemma strictlyIncreasing_pairs (xs : list float) :
  strictlyIncreasing xs = true <->
  (forall j x y,
      nth_error xs j = Some x -> nth_error xs (S j) = Some y -> (x <? y) = true).
Proof.
  induction xs as [|a xs IH].
  - split; [|reflexivity]. intros _ [|j] x y H; discriminate.
  - destruct xs as [|b rest].
    + split; [|reflexivity]. intros _ [|[|j]] x y _ H; discriminate.
    + change (strictlyIncreasing (a :: b :: rest))
        with ((a <? b) && strictlyIncreasing (b :: rest)).
      rewrite andb_true_iff, IH. split.
      * intros [Hab Hrest] [|j] x y Hx Hy.
        -- simpl in Hx, Hy. congruence.
        -- apply (Hrest j); assumption.
      * intros H. split.
        -- apply (H 0%nat); reflexivity.
        -- intros j x y Hx Hy. apply (H (S j)); assumption.
Qed.

(** ** Properties of the detector *)

(** C7. For every reading sequence of length strictly less than 7,
    [detectAnomalies] returns the empty anomaly list; it does so before any
    statistics or profile is computed, so whatever the readings are (a
    timestamp that is not a date, which makes the profile builder throw
    on longer input, does not matter). *)
Theorem detectAnomalies_short_history (data : list Reading) :
  length data < 7 -> detectAnomalies data = Ok [].
Proof.
  intros H. unfold detectAnomalies.
  destruct (Nat.ltb_spec (length data) 7); [reflexivity|lia].
Qed.

(** C1. On at least 7 well-formed readings the detector returns as long
    as the history is within the argument limit of the runtime (beyond
    it, the spread calls of [calculateStats] throw a [RangeError]
    before the pass runs), and whenever it returns, its
    anomalies of type spike are, reading by reading from index 1 on and in
    that order, those of [spikesAt]: for reading [i] one anomaly when the
    percentage increase over the previous reading exceeds 30 and the
    consumption exceeds mean + 2 stdDev of the baseline of the reading's
    day type, and none otherwise. The anomaly has severity 3 when the
    percentage increase exceeds 50 and 2 otherwise, its expected field is
    the previous consumption, and its percentageIncrease field is the
    percentage rounded to one decimal. *)
Theorem spike_pass_spec (data : list Reading) :
  7 <= length data ->
  forallb knownDayType data = true ->
  forallb validHour data = true ->
  (length data <= argumentLimit -> exists out, detectAnomalies data = Ok out) /\
  (forall out,
      detectAnomalies data = Ok out ->
      filter (hasType "spike") out
      = flat_map (spikesAt data) (seq 1 (length data - 1))) /\
    forall i previous current,
      1 <= i ->
      nth_error data (i - 1) = Some previous ->
      nth_error data i = Some current ->
      let p :=
        (Reading.consumption current - Reading.consumption previous)
        / Reading.consumption previous * 100 in
      let b := baseline data (Reading.dayType current) in
      let flagged :=
        gtb p 30 = true
        /\ gtb (Reading.consumption current) (Stats.mean b + 2 * Stats.stdDev b)
           = true in
      (flagged -> spikesAt data i = [spikeAnomaly previous current]) /\
      (~ flagged -> spikesAt data i = []) /\
      Anomaly.type (spikeAnomaly previous current) = "spike"%string /\
      Anomaly.severity (spikeAnomaly previous current)
      = (if gtb p 50 then 3 else 2)%Z /\
      Anomaly.expected (spikeAnomaly previous current)
      = Reading.consumption previous /\
      Anomaly.percentageIncrease (spikeAnomaly previous current)
      = Math_round (p * 10) / 10.
Proof.
  intros Hlen Hd Hv.
  split; [intros Hl; apply detectAnomalies_within; assumption|].
  split.
  - intros out Ho. rewrite (@detectAnomalies_returns data out Hlen Hd Hv Ho).
    rewrite filter_passes.
    + simpl. rewrite app_nil_r. reflexivity.
    + apply Forall_flat_map_seq, spikesAt_type.
    + apply Forall_flat_map_seq, driftsRawAt_type.
    + apply Forall_flat_map_seq, schedulesAt_type.
  - intros i previous current Hi Hp Hc p b flagged.
    unfold spikesAt. rewrite Hp, Hc.
    assert (E : spikeCondition data previous current = true <-> flagged).
    { unfold spikeCondition, flagged, percentageOver. apply andb_true_iff. }
    repeat split.
    + intros F. apply E in F. rewrite F. reflexivity.
    + intros F. destruct (spikeCondition data previous current); [|reflexivity].
      exfalso. apply F, E. reflexivity.
Qed.

Lemma driftsAt_cases (data : list Reading) (i : nat) (first last : Reading) :
  nth_error (readingsEndingAt data i 6) 0 = Some first ->
  nth_error (readingsEndingAt data i 6) 5 = Some last ->
  let values := map (@Reading.consumption _) (readingsEndingAt data i 6) in
  let increasing :=
    forall j x y,
      nth_error values j = Some x -> nth_error values (S j) = Some y ->
      (x <? y) = true in
  let avg :=
    ((Reading.consumption last - Reading.consumption first)
     / Reading.consumption first * 100) / 5 in
  let b := baseline data (Reading.dayType last) in
  let flagged :=
    increasing
    /\ gtb (Reading.consumption last) (Stats.mean b + 1.5 * Stats.stdDev b) = true
    /\ gtb avg 3 = true in
  (flagged -> driftsAt data i = [driftAnomaly first last]) /\
  (~ flagged -> driftsAt data i = []) /\
  ((exists j x y,
       nth_error values j = Some x /\ nth_error values (S j) = Some y
       /\ (y <=? x) = true) ->
   driftsAt data i = []).
Proof.
  intros Hf Hla values increasing avg b flagged.
  assert (E : driftCondition data (readingsEndingAt data i 6) first last = true
              <-> flagged).
  { unfold driftCondition, flagged, increasing, values.
    rewrite !andb_true_iff, strictlyIncreasing_pairs.
    unfold avgDailyIncrease, percentageOver, avg, b. tauto. }
  assert (D : driftsAt data i
              = if driftCondition data (readingsEndingAt data i 6) first last
                then [driftAnomaly first last] else []).
  { unfold driftsAt. cbv zeta. rewrite Hf, Hla. reflexivity. }
  assert (N : ~ flagged -> driftsAt data i = []).
  { intros F. rewrite D.
    destruct (driftCondition _ _ _ _); [|reflexivity].
    exfalso. apply F, E. reflexivity. }
  split; [|split].
  - intros F. apply E in F. rewrite D, F. reflexivity.
  - exact N.
  - intros [j [x [y [Hx [Hy Hxy]]]]]. apply N. intros [Hinc _].
    specialize (Hinc j x y Hx Hy). apply leb_ltb_false in Hxy. congruence.
Qed.

(** C2. On at least 7 well-formed readings the detector returns as long
    as the history is within the argument limit of the runtime, and
    whenever it returns, its
    anomalies of type drift are, index by index from 5 on and in that
    order, those of [driftsAt]: for index [i] one anomaly when the 6
    consecutive readings ending at [i] increase strictly across every
    consecutive pair, the last consumption exceeds mean + 1.5 stdDev of
    the baseline of the last reading's day type, and the average daily
    increase ((last - first) / first * 100) / 5 exceeds 3, and none
    otherwise. The anomaly has severity 2 when the average daily increase
    exceeds 5 and 1 otherwise, expected is the first consumption of the
    window, consumption its last, and timestamp that of its last reading.
    A single pair that does not increase suppresses the anomaly. *)
Theorem drift_pass_spec (data : list Reading) :
  7 <= length data ->
  forallb knownDayType data = true ->
  forallb validHour data = true ->
  forallb numericConsumption data = true ->
  (length data <= argumentLimit -> exists out, detectAnomalies data = Ok out) /\
  (forall out,
      detectAnomalies data = Ok out ->
      filter (hasType "drift") out
      = flat_map (driftsAt data) (seq 5 (length data - 5))) /\
    forall i,
      5 <= i < length data ->
      exists first last,
        length (readingsEndingAt data i 6) = 6%nat /\
        nth_error (readingsEndingAt data i 6) 0 = Some first /\
        nth_error (readingsEndingAt data i 6) 5 = Some last /\
        nth_error data (i - 5) = Some first /\
        nth_error data i = Some last /\
        let values := map (@Reading.consumption _) (readingsEndingAt data i 6) in
        let increasing :=
          forall j x y,
            nth_error values j = Some x -> nth_error values (S j) = Some y ->
            (x <? y) = true in
        let avg :=
          ((Reading.consumption last - Reading.consumption first)
           / Reading.consumption first * 100) / 5 in
        let b := baseline data (Reading.dayType last) in
        let flagged :=
          increasing
          /\ gtb (Reading.consumption last) (Stats.mean b + 1.5 * Stats.stdDev b)
             = true
          /\ gtb avg 3 = true in
        (flagged -> driftsAt data i = [driftAnomaly first last]) /\
        (~ flagged -> driftsAt data i = []) /\
        ((exists j x y,
             nth_error values j = Some x /\ nth_error values (S j) = Some y
             /\ (y <=? x) = true) ->
         driftsAt data i = []) /\
        Anomaly.type (driftAnomaly first last) = "drift"%string /\
        Anomaly.severity (driftAnomaly first last)
        = (if gtb avg 5 then 2 else 1)%Z /\
        Anomaly.expected (driftAnomaly first last) = Reading.consumption first /\
        Anomaly.consumption (driftAnomaly first last) = Reading.consumption last /\
        Anomaly.timestamp (driftAnomaly first last) = Reading.timestamp last.
Proof.
  intros Hlen Hd Hv Hn.
  split; [intros Hl; apply detectAnomalies_within; assumption|].
  split.
  - intros out Ho. rewrite (@detectAnomalies_returns data out Hlen Hd Hv Ho).
    rewrite filter_passes.
    + simpl. rewrite app_nil_r. apply flat_map_ext_in.
      intros i _. apply driftsRawAt_numeric. assumption.
    + apply Forall_flat_map_seq, spikesAt_type.
    + apply Forall_flat_map_seq, driftsRawAt_type.
    + apply Forall_flat_map_seq, schedulesAt_type.
  - intros i Hi.
    assert (W : readingsEndingAt data i 6 = firstn 6 (skipn (i - 5) data)).
    { unfold readingsEndingAt. replace (i + 1 - 6)%nat with (i - 5)%nat by lia.
      reflexivity. }
    pose proof (window_length data Hi) as Hl.
    pose proof (window_last data (i := i) (proj1 Hi)) as Hlast.
    assert (Hfirst : nth_error (firstn 6 (skipn (i - 5) data)) 0
                     = nth_error data (i - 5)).
    { rewrite nth_error_firstn. change (Nat.ltb 0 6) with true. cbv iota.
      rewrite nth_error_skipn. f_equal. lia. }
    rewrite <- W in Hl, Hlast, Hfirst.
    destruct (nth_error_in_range (readingsEndingAt data i 6) (i := 0))
      as [first Hf]; [lia|].
    destruct (nth_error_in_range (readingsEndingAt data i 6) (i := 5))
      as [last Hla]; [lia|].
    exists first, last.
    split; [assumption|]. split; [assumption|]. split; [assumption|].
    split; [congruence|]. split; [congruence|].
    destruct (driftsAt_cases data i Hf Hla) as [C1 [C2 C3]].
    split; [exact C1|]. split; [exact C2|]. split; [exact C3|].
    repeat split.
Qed.

Lemma schedulesAt_cases (data : list Reading) (i : nat) (entry : Reading)
  (hour : nat) :
  nth_error data i = Some entry ->
  getHours (Reading.timestamp entry) = Some hour ->
  let d := Reading.dayType entry in
  let count := length (hourValues data d hour) in
  let m := hourMean data d hour in
  let sd := hourStdDev data d hour in
  let avg := allHoursAverage data d in
  let flagged :=
    gtb (Reading.consumption entry) (m + 2.5 * sd) = true
    /\ (m <? 0.7 * avg) = true in
  (count < 3 -> schedulesAt data i = []) /\
  (3 <= count -> flagged -> schedulesAt data i = [scheduleAnomaly data entry hour]) /\
  (3 <= count -> ~ flagged -> schedulesAt data i = []) /\
  ((0.7 * avg <=? m) = true -> schedulesAt data i = []).
Proof.
  intros He Hh d count m sd avg flagged.
  assert (E : scheduleCondition data entry hour = true <-> flagged).
  { unfold scheduleCondition, flagged. cbv zeta. apply andb_true_iff. }
  assert (D : schedulesAt data i
              = if Nat.ltb count 3 then []
                else if scheduleCondition data entry hour
                     then [scheduleAnomaly data entry hour] else []).
  { unfold schedulesAt. rewrite He, Hh. reflexivity. }
  assert (N : ~ flagged -> schedulesAt data i = []).
  { intros F. rewrite D. destruct (Nat.ltb count 3); [reflexivity|].
    destruct (scheduleCondition data entry hour); [|reflexivity].
    exfalso. apply F, E. reflexivity. }
  split; [|split; [|split]].
  - intros C. rewrite D. destruct (Nat.ltb_spec count 3); [reflexivity|lia].
  - intros C F. rewrite D. destruct (Nat.ltb_spec count 3); [lia|].
    apply E in F. rewrite F. reflexivity.
  - intros _. exact N.
  - intros L. apply N. intros [_ F]. apply leb_ltb_false in L. congruence.
Qed.

(** C3. On at least 7 well-formed readings the detector returns as long
    as the history is within the argument limit of the runtime, and
    whenever it returns, the two profiles it built are the hourly profiles
    of the two day types and its
    anomalies of type schedule are, reading by reading and in that order,
    those of [schedulesAt]. A reading is skipped when its hour of the day
    has fewer than 3 samples in the profile of its day type; otherwise
    there is one anomaly when the consumption exceeds the hour's mean +
    2.5 stdDev and the hour's mean is below 0.7 times the average of the
    24 hourly means, and none otherwise. The percentage increase is taken
    against the hour's mean, and the severity is 2 when it exceeds 70 and
    1 otherwise. An hour whose mean is at least 0.7 times the average is
    never flagged. *)
Theorem schedule_pass_spec (data : list Reading) :
  7 <= length data ->
  forallb knownDayType data = true ->
  forallb validHour data = true ->
  (length data <= argumentLimit -> exists out, detectAnomalies data = Ok out) /\
  (forall out,
      detectAnomalies data = Ok out ->
      filter (hasType "schedule") out
      = flat_map (schedulesAt data) (seq 0 (length data)) /\
      createHourlyProfile
        (filter (fun entry => String.eqb (Reading.dayType entry) "weekday") data)
      = Ok (hourlyProfile data "weekday") /\
      createHourlyProfile
        (filter (fun entry => String.eqb (Reading.dayType entry) "weekend") data)
      = Ok (hourlyProfile data "weekend")) /\
    forall i entry,
      nth_error data i = Some entry ->
      exists hour,
        getHours (Reading.timestamp entry) = Some hour /\
        hour < 24 /\
        let d := Reading.dayType entry in
        let count := length (hourValues data d hour) in
        let m := hourMean data d hour in
        let sd := hourStdDev data d hour in
        let avg := sumOf (map (hourMean data d) (seq 0 24)) / 24 in
        let p := (Reading.consumption entry - m) / m * 100 in
        let flagged :=
          gtb (Reading.consumption entry) (m + 2.5 * sd) = true
          /\ (m <? 0.7 * avg) = true in
        obj_get (hourlyProfile data d) (Some hour)
        = Some (HourBucket.mk (hourValues data d hour) m sd count) /\
        (count < 3 -> schedulesAt data i = []) /\
        (3 <= count -> flagged ->
         schedulesAt data i = [scheduleAnomaly data entry hour]) /\
        (3 <= count -> ~ flagged -> schedulesAt data i = []) /\
        ((0.7 * avg <=? m) = true -> schedulesAt data i = []) /\
        Anomaly.type (scheduleAnomaly data entry hour) = "schedule"%string /\
        Anomaly.expected (scheduleAnomaly data entry hour) = m /\
        Anomaly.percentageIncrease (scheduleAnomaly data entry hour)
        = Math_round (p * 10) / 10 /\
        Anomaly.severity (scheduleAnomaly data entry hour)
        = (if gtb p 70 then 2 else 1)%Z.
Proof.
  intros Hlen Hd Hv.
  split; [intros Hl; apply detectAnomalies_within; assumption|].
  split.
  { intros out Ho. rewrite (@detectAnomalies_returns data out Hlen Hd Hv Ho).
    destruct (@detectAnomalies_returns_within data out Hlen Ho) as [Hwd Hwe].
    split.
    { rewrite filter_passes.
      + reflexivity.
      + apply Forall_flat_map_seq, spikesAt_type.
      + apply Forall_flat_map_seq, driftsRawAt_type.
      + apply Forall_flat_map_seq, schedulesAt_type. }
    split; apply createHourlyProfile_dayType; assumption. }
  intros i entry He.
  pose proof (forallb_nth_error _ _ _ Hv He) as Hh. unfold validHour in Hh.
  destruct (getHours (Reading.timestamp entry)) as [hour|] eqn:Eh; [|discriminate].
  apply Nat.ltb_lt in Hh.
  exists hour. split; [reflexivity|]. split; [assumption|].
  destruct (schedulesAt_cases data i He Eh) as [C1 [C2 [C3 C4]]].
  split.
  { unfold hourlyProfile. rewrite obj_get_tabulate.
    destruct (Nat.ltb_spec hour (0 + 24)); [reflexivity|lia]. }
  split; [exact C1|]. split; [exact C2|]. split; [exact C3|]. split; [exact C4|].
  repeat split.
Qed.

(** ** The statistics *)

Lemma Math_min2_spec (x y : float) :
  is_nan x = false -> is_nan y = false ->
  (Math_min2 x y = x \/ Math_min2 x y = y)
  /\ (Math_min2 x y <=? x) = true /\ (Math_min2 x y <=? y) = true.
Proof.
  intros Hx Hy. unfold Math_min2. rewrite Hx, Hy. cbn [orb].
  destruct (x <? y) eqn:Exy.
  - auto using leb_refl, ltb_leb.
  - destruct (y <? x) eqn:Eyx.
    + auto using leb_refl, ltb_leb.
    + pose proof (ltb_false_leb Hx Hy Exy). pose proof (ltb_false_leb Hy Hx Eyx).
      destruct (signbit x); auto using leb_refl.
Qed.

Lemma Math_max2_spec (x y : float) :
  is_nan x = false -> is_nan y = false ->
  (Math_max2 x y = x \/ Math_max2 x y = y)
  /\ (x <=? Math_max2 x y) = true /\ (y <=? Math_max2 x y) = true.
Proof.
  intros Hx Hy. unfold Math_max2. rewrite Hx, Hy. cbn [orb].
  destruct (y <? x) eqn:Eyx.
  - auto using leb_refl, ltb_leb.
  - destruct (x <? y) eqn:Exy.
    + auto using leb_refl, ltb_leb.
    + pose proof (ltb_false_leb Hx Hy Exy). pose proof (ltb_false_leb Hy Hx Eyx).
      destruct (signbit x); auto using leb_refl.
Qed.

Lemma Math_min2_infinity (v : float) : is_nan v = false -> Math_min2 infinity v = v.
Proof.
  intros Hv. unfold Math_min2. rewrite Hv.
  change (is_nan infinity) with false. cbn [orb].
  assert (E : (infinity <? v) = false).
  { rewrite FloatAxioms.ltb_spec. unfold SFltb.
    change (Prim2SF infinity) with (S754_infinity false).
    destruct (Prim2SF v) as [[]|[]| |[] m e]; reflexivity. }
  rewrite E. change (signbit infinity) with false.
  destruct (v <? infinity); reflexivity.
Qed.

Lemma Math_max2_neg_infinity (v : float) :
  is_nan v = false -> Math_max2 neg_infinity v = v.
Proof.
  intros Hv. unfold Math_max2. rewrite Hv.
  change (is_nan neg_infinity) with false. cbn [orb].
  assert (E : (v <? neg_infinity) = false).
  { rewrite FloatAxioms.ltb_spec. unfold SFltb.
    change (Prim2SF neg_infinity) with (S754_infinity true).
    destruct (Prim2SF v) as [[]|[]| |[] m e]; reflexivity. }
  rewrite E. change (signbit neg_infinity) with true.
  destruct (neg_infinity <? v); reflexivity.
Qed.

Lemma fold_Math_min2 (vs : list float) (m : float) :
  is_nan m = false ->
  forallb (fun v => negb (is_nan v)) vs = true ->
  let r := fold_left Math_min2 vs m in
  is_nan r = false /\ (r = m \/ In r vs) /\ (r <=? m) = true
  /\ Forall (fun v => (r <=? v) = true) vs.
Proof.
  revert m. induction vs as [|v vs IH]; intros m Hm Hvs; cbn [fold_left].
  - cbv zeta. auto using leb_refl.
  - cbn [forallb] in Hvs. apply andb_true_iff in Hvs. destruct Hvs as [Hv Hvs].
    apply negb_true_iff in Hv.
    destruct (Math_min2_spec m v Hm Hv) as [Hc [Hle1 Hle2]].
    assert (Hn : is_nan (Math_min2 m v) = false) by (destruct Hc as [->| ->]; assumption).
    destruct (IH _ Hn Hvs) as [Hr [Hin [Hle Hall]]].
    cbv zeta. split; [assumption|]. split; [|split].
    + destruct Hin as [E|Hin]; [|right; right; assumption].
      rewrite E. destruct Hc as [->| ->]; [left; reflexivity|right; left; reflexivity].
    + eapply leb_trans; eassumption.
    + constructor; [eapply leb_trans; eassumption|assumption].
Qed.

Lemma fold_Math_max2 (vs : list float) (m : float) :
  is_nan m = false ->
  forallb (fun v => negb (is_nan v)) vs = true ->
  let r := fold_left Math_max2 vs m in
  is_nan r = false /\ (r = m \/ In r vs) /\ (m <=? r) = true
  /\ Forall (fun v => (v <=? r) = true) vs.
Proof.
  revert m. induction vs as [|v vs IH]; intros m Hm Hvs; cbn [fold_left].
  - cbv zeta. auto using leb_refl.
  - cbn [forallb] in Hvs. apply andb_true_iff in Hvs. destruct Hvs as [Hv Hvs].
    apply negb_true_iff in Hv.
    destruct (Math_max2_spec m v Hm Hv) as [Hc [Hle1 Hle2]].
    assert (Hn : is_nan (Math_max2 m v) = false) by (destruct Hc as [->| ->]; assumption).
    destruct (IH _ Hn Hvs) as [Hr [Hin [Hle Hall]]].
    cbv zeta. split; [assumption|]. split; [|split].
    + destruct Hin as [E|Hin]; [|right; right; assumption].
      rewrite E. destruct Hc as [->| ->]; [left; reflexivity|right; left; reflexivity].
    + eapply leb_trans; eassumption.
    + constructor; [eapply leb_trans; eassumption|assumption].
Qed.

(** C8. For the empty sequence [calculateStats] returns the all-zero
    statistics, not an error. For a non-empty sequence that a call can
    take as arguments it returns, the mean is the sum
    divided by the count, the standard deviation is the population one
    (the square root of the sum of the squared deviations divided by the
    count, not by the count less one), and, the values being numbers, min
    and max are the least and the greatest value of the sequence. For a
    sequence longer than the argument limit of the runtime the call
    [Math.min(...values)] throws a [RangeError]. *)
Theorem calculateStats_spec :
  calculateStats [] = Ok (Stats.mk 0 0 0 0) /\
  forall (v : float) (vs : list float),
    let values := v :: vs in
    let count := Number_of_nat (length values) in
    let mean := sumOf values / count in
    (argumentLimit < length values -> calculateStats values = RangeError) /\
    (length values <= argumentLimit ->
     exists s,
       calculateStats values = Ok s /\
       Stats.mean s = mean /\
       Stats.stdDev s
       = sqrt (sumOf (map (fun x => Math_pow (x - mean) 2) values) / count) /\
       (forallb (fun x => negb (is_nan x)) values = true ->
        In (Stats.min s) values /\
        Forall (fun x => (Stats.min s <=? x) = true) values /\
        In (Stats.max s) values /\
        Forall (fun x => (x <=? Stats.max s) = true) values)).
Proof.
  split; [reflexivity|].
  intros v vs values count mean. split.
  { intros H. rewrite calculateStats_cases.
    destruct (Nat.ltb_spec argumentLimit (length values)); [reflexivity|lia]. }
  intros Hl. exists (statistics values).
  split; [apply calculateStats_within; assumption|].
  set (s := statistics values).
  split; [reflexivity|]. split; [reflexivity|].
  intros Hn. pose proof Hn as Hn'. unfold values in Hn'.
  cbn [forallb] in Hn'. apply andb_true_iff in Hn'. destruct Hn' as [Hv Hvs].
  apply negb_true_iff in Hv.
  assert (Emin : Stats.min s = fold_left Math_min2 vs v).
  { unfold s, values, statistics. cbn [length Nat.eqb Stats.min].
    unfold Math_min. cbn [fold_left]. rewrite Math_min2_infinity by assumption.
    reflexivity. }
  assert (Emax : Stats.max s = fold_left Math_max2 vs v).
  { unfold s, values, statistics. cbn [length Nat.eqb Stats.max].
    unfold Math_max. cbn [fold_left]. rewrite Math_max2_neg_infinity by assumption.
    reflexivity. }
  rewrite Emin, Emax.
  destruct (fold_Math_min2 vs v Hv Hvs) as [_ [Hin [Hle Hall]]].
  destruct (fold_Math_max2 vs v Hv Hvs) as [_ [Hin' [Hle' Hall']]].
  unfold values. repeat split.
  - destruct Hin as [->|Hin]; [left; reflexivity|right; assumption].
  - constructor; assumption.
  - destruct Hin' as [->|Hin']; [left; reflexivity|right; assumption].
  - constructor; assumption.
Qed.

(** ** Savings *)

Lemma fold_left_map {A B C : Type} (f : C -> B -> C) (g : A -> B) (l : list A)
  (c : C) :
  fold_left f (map g l) c = fold_left (fun acc a => f acc (g a)) l c.
Proof.
  revert c. induction l as [|a l IH]; intros c; simpl; [reflexivity|apply IH].
Qed.

(** C5. [calculateSavings] returns energy = round(excess, 1), cost =
    round(excess * 0.15, 2) and carbon = round(excess * 0.4, 1), where
    excess is the sum of consumption - expected over the anomalies, no
    contribution being clamped: an anomaly whose consumption is below its
    expected value makes all three savings negative. For the empty list the
    three values are zero. *)
Theorem calculateSavings_spec :
  (forall (anomalies : list Anomaly) (buildingData : Building),
      calculateSavings anomalies buildingData
      = Savings.mk (roundTo 1 (excess anomalies))
          (roundTo 2 (excess anomalies * 0.15))
          (roundTo 1 (excess anomalies * 0.4))) /\
  (forall (t : Timestamp) (buildingData : Building),
      exists anomalies : list Anomaly,
        anomalies <> [] /\
        Forall (fun a => (Anomaly.consumption a <? Anomaly.expected a) = true)
          anomalies /\
        (Savings.energy (calculateSavings anomalies buildingData) <? 0) = true /\
        (Savings.cost (calculateSavings anomalies buildingData) <? 0) = true /\
        (Savings.carbon (calculateSavings anomalies buildingData) <? 0) = true) /\
  (forall buildingData : Building,
      calculateSavings [] buildingData = Savings.mk 0 0 0).
Proof.
  split; [|split].
  - intros anomalies buildingData. unfold calculateSavings, excess.
    destruct anomalies as [|a rest]; [reflexivity|].
    cbn [length Nat.eqb]. cbv zeta.
    unfold reduce, sumOf, ELECTRICITY_COST_PER_KWH, CARBON_INTENSITY, roundTo.
    rewrite fold_left_map. reflexivity.
  - intros t buildingData.
    exists [Anomaly.mk "schedule" t 50 100 (-50) 1%Z []].
    split; [discriminate|]. split; [repeat constructor|].
    repeat split.
  - reflexivity.
Qed.

(** ** Objects keyed by hour *)

Lemma key_eqb_eq (k k' : Key) : key_eqb k k' = true <-> k = k'.
Proof.
  destruct k as [n|], k' as [n'|]; simpl; split; intros H;
    try discriminate; try reflexivity.
  - apply Nat.eqb_eq in H. congruence.
  - inversion H. apply Nat.eqb_refl.
Qed.

Lemma key_eqb_refl (k : Key) : key_eqb k k = true.
Proof. apply key_eqb_eq. reflexivity. Qed.

Lemma key_eqb_sym (k k' : Key) : key_eqb k k' = key_eqb k' k.
Proof.
  destruct k as [n|], k' as [n'|]; simpl; try reflexivity. apply Nat.eqb_sym.
Qed.

Lemma key_before_trans (a b c : Key) :
  key_before a b = true -> key_before b c = true -> key_before a c = true.
Proof.
  destruct a as [x|], b as [y|], c as [z|]; simpl; intros H1 H2;
    try discriminate; try reflexivity.
  apply Nat.ltb_lt in H1, H2. apply Nat.ltb_lt. lia.
Qed.

Lemma key_before_irrefl (a : Key) : key_before a a = false.
Proof. destruct a as [x|]; simpl; [apply Nat.ltb_irrefl|reflexivity]. Qed.

Lemma key_trichotomy (a b : Key) :
  key_eqb a b = false -> key_before a b = false -> key_before b a = true.
Proof.
  destruct a as [x|], b as [y|]; simpl; intros H1 H2;
    try discriminate; try reflexivity.
  apply Nat.eqb_neq in H1. apply Nat.ltb_ge in H2. apply Nat.ltb_lt. lia.
Qed.

Lemma obj_get_set {V : Type} (o : Obj V) (k k' : Key) (v : V) :
  obj_get (obj_set o k v) k' = if key_eqb k' k then Some v else obj_get o k'.
Proof.
  induction o as [|[k0 v0] rest IH]; simpl.
  - destruct (key_eqb k' k); reflexivity.
  - destruct (key_eqb k k0) eqn:E0.
    + apply key_eqb_eq in E0. subst k0. simpl.
      destruct (key_eqb k' k); reflexivity.
    + destruct (key_before k k0); simpl.
      * destruct (key_eqb k' k); reflexivity.
      * rewrite IH. destruct (key_eqb k' k0) eqn:E1; [|reflexivity].
        destruct (key_eqb k' k) eqn:E2; [|reflexivity].
        apply key_eqb_eq in E1, E2. subst. rewrite key_eqb_refl in E0.
        discriminate.
Qed.

Lemma obj_set_In {V : Type} (o : Obj V) (k : Key) (v : V) (e : Key * V) :
  In e (obj_set o k v) -> e = (k, v) \/ In e o.
Proof.
  induction o as [|[k0 v0] rest IH]; simpl.
  - intros [H|[]]; auto.
  - destruct (key_eqb k k0).
    + intros [H|H]; auto.
    + destruct (key_before k k0).
      * intros [H|[H|H]]; auto.
      * intros [H|H]; auto. destruct (IH H); auto.
Qed.

Lemma obj_set_sorted {V : Type} (o : Obj V) (k : Key) (v : V) :
  sortedObj o -> sortedObj (obj_set o k v).
Proof.
  unfold sortedObj. induction 1 as [|[k0 v0] rest Hs IH Hall]; simpl.
  - repeat constructor.
  - destruct (key_eqb k k0) eqn:E0.
    + apply key_eqb_eq in E0. subst k0. constructor; assumption.
    + destruct (key_before k k0) eqn:E1.
      * constructor; [constructor; assumption|].
        constructor; [exact E1|].
        revert Hall. apply Forall_impl. intros e He. simpl in *.
        eapply key_before_trans; eassumption.
      * constructor; [exact IH|].
        apply Forall_forall. intros e He. apply obj_set_In in He.
        destruct He as [->|He].
        -- simpl. apply key_trichotomy; assumption.
        -- rewrite Forall_forall in Hall. apply Hall. assumption.
Qed.

Lemma sorted_obj_get {V : Type} (o : Obj V) (k : Key) (v : V) :
  sortedObj o -> In (k, v) o -> obj_get o k = Some v.
Proof.
  unfold sortedObj. induction 1 as [|[k0 v0] rest Hs IH Hall]; simpl.
  - intros [].
  - intros [H|H].
    + inversion H. subst. rewrite key_eqb_refl. reflexivity.
    + destruct (key_eqb k k0) eqn:E.
      * apply key_eqb_eq in E. subst k0.
        rewrite Forall_forall in Hall. specialize (Hall _ H). simpl in Hall.
        rewrite key_before_irrefl in Hall. discriminate.
      * apply IH. assumption.
Qed.

Lemma obj_get_In {V : Type} (o : Obj V) (k : Key) (v : V) :
  obj_get o k = Some v -> In (k, v) o.
Proof.
  induction o as [|[k0 v0] rest IH]; simpl; [discriminate|].
  destruct (key_eqb k k0) eqn:E.
  - apply key_eqb_eq in E. subst. intros H. inversion H. left. reflexivity.
  - intros H. right. apply IH. assumption.
Qed.

(** ** The recommendations *)

Lemma groupByHour_from (l : list Anomaly) (o0 : Obj (list Anomaly)) :
  sortedObj o0 ->
  exists o,
    forEach l
      (fun anomaly hourGroups =>
         let hour := getHours (Anomaly.timestamp anomaly) in
         let hourGroups :=
           match obj_get hourGroups hour with
           | None => obj_set hourGroups hour []
           | Some _ => hourGroups
           end in
         group <- obj_read hourGroups hour ;;
         Ok (obj_set hourGroups hour (group ++ [anomaly])))
      o0
    = Ok o
    /\ sortedObj o
    /\ forall k, obj_get o k = pushed (obj_get o0 k) (atHour k l).
Proof.
  revert o0. induction l as [|a rest IH]; intros o0 Hs.
  - exists o0. repeat split; assumption.
  - cbn [forEach]. cbv zeta.
    set (ka := getHours (Anomaly.timestamp a)).
    set (o1 := match obj_get o0 ka with
               | None => obj_set o0 ka []
               | Some _ => o0
               end).
    set (g0 := match obj_get o0 ka with Some g => g | None => [] end).
    assert (H1 : obj_read o1 ka = Ok g0).
    { unfold obj_read, o1, g0. destruct (obj_get o0 ka) eqn:E.
      - rewrite E. reflexivity.
      - rewrite obj_get_set, key_eqb_refl. reflexivity. }
    assert (S1 : sortedObj o1).
    { unfold o1. destruct (obj_get o0 ka); [assumption|].
      apply obj_set_sorted. assumption. }
    assert (G1 : forall k, key_eqb k ka = false -> obj_get o1 k = obj_get o0 k).
    { intros k Hk. unfold o1. destruct (obj_get o0 ka); [reflexivity|].
      rewrite obj_get_set, Hk. reflexivity. }
    rewrite H1. cbn [bind].
    destruct (IH (obj_set o1 ka (g0 ++ [a])) (obj_set_sorted _ _ S1))
      as [o [Ho [So Go]]].
    exists o. split; [exact Ho|]. split; [exact So|].
    intros k. rewrite Go, obj_get_set. unfold atHour. cbn [filter].
    fold (atHour k rest). unfold hourOf. fold ka. rewrite (key_eqb_sym ka k).
    destruct (key_eqb k ka) eqn:Ek.
    + apply key_eqb_eq in Ek. subst k. fold g0.
      unfold pushed. destruct (atHour ka rest).
      * reflexivity.
      * rewrite <- app_assoc. reflexivity.
    + rewrite G1 by assumption. reflexivity.
Qed.

Lemma groupByHour_spec (l : list Anomaly) :
  exists o,
    groupByHour l = Ok o
    /\ sortedObj o
    /\ forall k, obj_get o k = match atHour k l with [] => None | g => Some g end.
Proof.
  destruct (groupByHour_from l (o0 := [])) as [o [Ho [So Go]]];
    [constructor|].
  exists o. split; [exact Ho|]. split; [exact So|].
  intros k. rewrite Go. unfold pushed. simpl.
  destruct (atHour k l); reflexivity.
Qed.

Lemma findWorstHour_fold (l : list (Key * list Anomaly)) (k0 : Key) (n0 : nat) :
  let r :=
    fold_left
      (fun (st : Key * nat) (entry : Key * list Anomaly) =>
         let '(worstHour, maxCount) := st in
         let '(hour, anomalies) := entry in
         if Nat.ltb maxCount (length anomalies) then (hour, length anomalies)
         else (worstHour, maxCount))
      l (k0, n0) in
  (r = (k0, n0) /\ Forall (fun e => length (snd e) <= n0) l)
  \/ (exists l1 g l2,
         l = l1 ++ (fst r, g) :: l2
         /\ length g = snd r
         /\ n0 < snd r
         /\ Forall (fun e => length (snd e) < snd r) l1
         /\ Forall (fun e => length (snd e) <= snd r) l2).
Proof.
  revert k0 n0. induction l as [|[k1 g1] rest IH]; intros k0 n0.
  - left. split; [reflexivity|constructor].
  - cbn [fold_left]. destruct (Nat.ltb_spec n0 (length g1)) as [Hlt|Hge].
    + destruct (IH k1 (length g1)) as [[Er Hall]|[l1 [g [l2 [El [Hg [Hn [H1 H2]]]]]]]].
      * right. exists [], g1, rest. cbv zeta. rewrite Er. simpl.
        repeat split; auto.
      * right. exists ((k1, g1) :: l1), g, l2. cbv zeta in *.
        split; [rewrite El at 1; reflexivity|].
        split; [exact Hg|]. split; [lia|].
        split; [constructor; [simpl; lia|assumption]|assumption].
    + destruct (IH k0 n0) as [[Er Hall]|[l1 [g [l2 [El [Hg [Hn [H1 H2]]]]]]]].
      * left. split; [exact Er|]. constructor; [simpl; lia|assumption].
      * right. exists ((k1, g1) :: l1), g, l2. cbv zeta in *.
        split; [rewrite El at 1; reflexivity|].
        split; [exact Hg|]. split; [exact Hn|].
        split; [constructor; [simpl; lia|assumption]|assumption].
Qed.

Lemma sorted_split {V : Type} (l1 l2 : Obj V) (e : Key * V) :
  sortedObj (l1 ++ e :: l2) ->
  Forall (fun e' => key_before (fst e) (fst e') = true) l2.
Proof.
  unfold sortedObj. induction l1 as [|x l1 IH]; simpl; intros H.
  - inversion H. assumption.
  - inversion H. auto.
Qed.

(** The hour the code settles on has the most anomalies, and among the
    hours with as many it is the first in the order of the keys. *)
Lemma codeWorstHour_spec (sched : list Anomaly) :
  sched <> [] ->
  exists o,
    groupByHour sched = Ok o
    /\ findWorstHour o
       = (codeWorstHour sched, length (atHour (codeWorstHour sched) sched))
    /\ obj_read o (codeWorstHour sched) = Ok (atHour (codeWorstHour sched) sched)
    /\ 0 < length (atHour (codeWorstHour sched) sched)
    /\ (forall k, length (atHour k sched)
                  <= length (atHour (codeWorstHour sched) sched))
    /\ (forall k, length (atHour k sched)
                  = length (atHour (codeWorstHour sched) sched) ->
                  k = codeWorstHour sched
                  \/ key_before (codeWorstHour sched) k = true).
Proof.
  intros Hne. destruct (groupByHour_spec sched) as [o [Ho [So Go]]].
  exists o. split; [exact Ho|].
  unfold codeWorstHour. rewrite Ho.
  assert (Hin : forall k g, In (k, g) o -> g = atHour k sched /\ g <> []).
  { intros k g H. apply (@sorted_obj_get _ o k g So) in H. rewrite Go in H.
    destruct (atHour k sched); [discriminate|]. inversion H. split;
      [reflexivity|discriminate]. }
  assert (Hmem : forall k, atHour k sched <> [] -> In (k, atHour k sched) o).
  { intros k Hk. apply obj_get_In. rewrite Go.
    destruct (atHour k sched); [congruence|reflexivity]. }
  unfold findWorstHour, Object_entries.
  pose proof (findWorstHour_fold o (Some 0%nat) 0) as F. cbv zeta in F.
  match type of F with
  | context [fold_left ?f o ?i] => set (r := fold_left f o i) in *
  end.
  destruct F as [[Er Hall]|[l1 [g [l2 [El [Hg [Hn [H1 H2]]]]]]]].
  - exfalso. destruct sched as [|a rest]; [congruence|].
    assert (Ha : atHour (hourOf a) (a :: rest) <> []).
    { unfold atHour. cbn [filter]. rewrite key_eqb_refl. discriminate. }
    specialize (Hmem _ Ha). rewrite Forall_forall in Hall.
    specialize (Hall _ Hmem). cbn [snd] in Hall.
    destruct (atHour (hourOf a) (a :: rest)); [congruence|simpl in Hall; lia].
  - assert (Hkg : In (fst r, g) o) by (rewrite El; apply in_elt).
    destruct (Hin _ _ Hkg) as [Eg _].
    assert (Hlen : length (atHour (fst r) sched) = snd r) by (rewrite <- Eg; exact Hg).
    split; [rewrite Hlen; destruct r; reflexivity|].
    split; [unfold obj_read; rewrite (@sorted_obj_get _ o (fst r) g So Hkg), Eg; reflexivity|].
    split; [lia|].
    assert (Hcase : forall k, atHour k sched <> [] ->
              In (k, atHour k sched) l1 \/ k = fst r
              \/ In (k, atHour k sched) l2).
    { intros k Hk. specialize (Hmem k Hk). rewrite El in Hmem.
      apply in_app_or in Hmem. destruct Hmem as [H|[H|H]]; auto.
      inversion H. auto. }
    split.
    + intros k. destruct (atHour k sched) eqn:Ek; [simpl; lia|].
      rewrite <- Ek. rewrite Hlen.
      destruct (Hcase k) as [H|[H|H]]; [rewrite Ek; discriminate| | |].
      * rewrite Forall_forall in H1. specialize (H1 _ H). simpl in H1. lia.
      * subst k. lia.
      * rewrite Forall_forall in H2. specialize (H2 _ H). simpl in H2. lia.
    + intros k Hk. rewrite Hlen in Hk.
      assert (Hk' : atHour k sched <> []).
      { intros E. rewrite E in Hk. simpl in Hk. lia. }
      destruct (Hcase k Hk') as [H|[H|H]].
      * rewrite Forall_forall in H1. specialize (H1 _ H). simpl in H1. lia.
      * left. assumption.
      * right. rewrite El in So. apply sorted_split in So.
        rewrite Forall_forall in So. apply (So _ H).
Qed.

Lemma sort_insert_cons {A : Type} (p : A -> A -> bool) (a : A) (l : list A) :
  exists w rest, sort_insert p a l = w :: rest.
Proof.
  destruct l as [|b l]; simpl; [eauto|]. destruct (p a b); eauto.
Qed.

Lemma get_sort_head {A : Type} (p : A -> A -> bool) (l : list A) :
  l <> [] ->
  exists w rest, sort p l = w :: rest /\ get (sort p l) 0 = Ok w.
Proof.
  destruct l as [|a l]; [congruence|]. intros _. unfold sort. cbn [fold_right].
  destruct (sort_insert_cons p a (fold_right (sort_insert p) [] l)) as [w [rest E]].
  exists w, rest. rewrite E. split; reflexivity.
Qed.

Lemma excess_reduce (group : list Anomaly) :
  reduce (fun sum a => sum + (Anomaly.consumption a - Anomaly.expected a)) 0 group
  = excess group.
Proof. unfold reduce, excess, sumOf. rewrite fold_left_map. reflexivity. Qed.

Lemma spike_step (now : float) (anomalies : list Anomaly) :
  (if Nat.ltb 0 (length (filter (hasType "spike") anomalies)) then
     worstSpike <-
       get (sort (fun a b => (0 <? Anomaly.severity b - Anomaly.severity a)%Z)
              (filter (hasType "spike") anomalies)) 0 ;;
     Ok ([] ++ [spikeRecommendation now worstSpike])
   else Ok [])
  = Ok (spikePart now anomalies).
Proof.
  unfold spikePart. destruct (filter (hasType "spike") anomalies) as [|a l] eqn:E.
  - reflexivity.
  - cbn [length Nat.ltb Nat.leb].
    destruct (get_sort_head
                (fun a b => (0 <? Anomaly.severity b - Anomaly.severity a)%Z)
                (l := a :: l)) as [w [rest [Es Eg]]]; [discriminate|].
    rewrite Eg, Es. reflexivity.
Qed.

Lemma drift_step (now : float) (anomalies : list Anomaly)
  (recommendations : list Recommendation) :
  (if Nat.ltb 0 (length (filter (hasType "drift") anomalies)) then
     mostRecent <-
       get (sort (fun a b =>
                    gtb (getTime (Anomaly.timestamp b)
                         - getTime (Anomaly.timestamp a)) 0)
              (filter (hasType "drift") anomalies)) 0 ;;
     Ok (recommendations ++ [driftRecommendation now mostRecent])
   else Ok recommendations)
  = Ok (recommendations ++ driftPart now anomalies).
Proof.
  unfold driftPart. destruct (filter (hasType "drift") anomalies) as [|a l] eqn:E.
  - cbn. rewrite app_nil_r. reflexivity.
  - cbn [length Nat.ltb Nat.leb].
    destruct (get_sort_head
                (fun a b =>
                   gtb (getTime (Anomaly.timestamp b)
                        - getTime (Anomaly.timestamp a)) 0)
                (l := a :: l)) as [w [rest [Es Eg]]]; [discriminate|].
    rewrite Eg, Es. reflexivity.
Qed.

Lemma schedule_step (now : float) (anomalies : list Anomaly)
  (recommendations : list Recommendation) :
  (if Nat.ltb 0 (length (filter (hasType "schedule") anomalies)) then
     hourGroups <- groupByHour (filter (hasType "schedule") anomalies) ;;
     let '(worstHour, maxCount) := findWorstHour hourGroups in
     if Nat.ltb 0 maxCount then
       worstGroup <- obj_read hourGroups worstHour ;;
       let averageExcess :=
         reduce (fun sum a => sum + (Anomaly.consumption a - Anomaly.expected a))
           0 worstGroup
         / Number_of_nat (length worstGroup) in
       Ok (recommendations ++
           [scheduleRecommendation now worstHour maxCount averageExcess])
     else Ok recommendations
   else Ok recommendations)
  = Ok (recommendations ++ schedulePart now anomalies).
Proof.
  unfold schedulePart.
  destruct (filter (hasType "schedule") anomalies) as [|a l] eqn:E.
  - cbn. rewrite app_nil_r. reflexivity.
  - change (Nat.ltb 0 (length (a :: l))) with true. cbv iota.
    destruct (codeWorstHour_spec (sched := a :: l)) as [o [Ho [Hw [Hr [Hpos _]]]]];
      [discriminate|].
    rewrite Ho. cbn [bind]. rewrite Hw.
    destruct (Nat.ltb_spec 0 (length (atHour (codeWorstHour (a :: l)) (a :: l))));
      [|lia].
    rewrite Hr. cbn [bind]. cbv zeta. rewrite excess_reduce. reflexivity.
Qed.

Lemma generateRecommendations_shape (Date_now : nat -> float)
  (anomalies : list Anomaly) (buildingData : Building) :
  generateRecommendations Date_now anomalies buildingData
  = Ok (recommendationsOf Date_now anomalies).
Proof.
  unfold generateRecommendations, recommendationsOf.
  destruct anomalies as [|a rest]; [reflexivity|].
  cbn [length Nat.eqb]. cbv zeta.
  change (fun a0 : Anomaly => String.eqb (Anomaly.type a0) "spike")
    with (hasType "spike").
  change (fun a0 : Anomaly => String.eqb (Anomaly.type a0) "drift")
    with (hasType "drift").
  change (fun a0 : Anomaly => String.eqb (Anomaly.type a0) "schedule")
    with (hasType "schedule").
  rewrite spike_step. cbn [bind length].
  rewrite drift_step. cbn [bind].
  rewrite schedule_step. cbn [bind].
  rewrite app_assoc. reflexivity.
Qed.

Lemma spikePart_sameButId (now1 now2 : float) (anomalies : list Anomaly) :
  Forall2 sameButId (spikePart now1 anomalies) (spikePart now2 anomalies).
Proof.
  unfold spikePart. destruct (sort _ _); repeat constructor.
Qed.

Lemma driftPart_sameButId (now1 now2 : float) (anomalies : list Anomaly) :
  Forall2 sameButId (driftPart now1 anomalies) (driftPart now2 anomalies).
Proof.
  unfold driftPart. destruct (sort _ _); repeat constructor.
Qed.

Lemma schedulePart_sameButId (now1 now2 : float) (anomalies : list Anomaly) :
  Forall2 sameButId (schedulePart now1 anomalies) (schedulePart now2 anomalies).
Proof.
  unfold schedulePart. destruct (filter _ _); repeat constructor.
Qed.

(** C9. The building descriptor is not read: for every anomaly list and
    every two descriptors [generateRecommendations] returns the same
    recommendations, identifier included when the clock reads the same, and
    with every field but the identifier the same whatever the clock; and
    [calculateSavings] returns the same savings. *)
Theorem building_independence (anomalies : list Anomaly)
  (buildingData1 buildingData2 : Building) (Date_now1 Date_now2 : nat -> float) :
  generateRecommendations Date_now1 anomalies buildingData1
  = generateRecommendations Date_now1 anomalies buildingData2
  /\ (exists recs1 recs2,
         generateRecommendations Date_now1 anomalies buildingData1 = Ok recs1
         /\ generateRecommendations Date_now2 anomalies buildingData2 = Ok recs2
         /\ Forall2 sameButId recs1 recs2)
  /\ calculateSavings anomalies buildingData1
     = calculateSavings anomalies buildingData2.
Proof.
  split; [reflexivity|]. split; [|reflexivity].
  exists (recommendationsOf Date_now1 anomalies),
    (recommendationsOf Date_now2 anomalies).
  split; [apply generateRecommendations_shape|].
  split; [apply generateRecommendations_shape|].
  unfold recommendationsOf. cbv zeta.
  apply Forall2_app; [apply spikePart_sameButId|].
  apply Forall2_app; [apply driftPart_sameButId|apply schedulePart_sameButId].
Qed.

Lemma existsb_filter_nil {A : Type} (p : A -> bool) (l : list A) :
  existsb p l = false <-> filter p l = [].
Proof.
  induction l as [|a l IH]; simpl; [tauto|].
  destruct (p a); simpl; [split; discriminate|exact IH].
Qed.

Lemma sort_nil_inv {A : Type} (p : A -> A -> bool) (l : list A) :
  sort p l = [] -> l = [].
Proof.
  destruct l as [|a l]; [reflexivity|]. intros H.
  destruct (get_sort_head p (l := a :: l)) as [w [rest [E _]]]; [discriminate|].
  congruence.
Qed.

Lemma spikePart_type (now : float) (anomalies : list Anomaly) :
  map (@Recommendation.anomalyType _) (spikePart now anomalies)
  = if existsb (hasType "spike") anomalies then ["spike"%string] else [].
Proof.
  unfold spikePart.
  destruct (existsb (hasType "spike") anomalies) eqn:E.
  - destruct (sort _ _) eqn:Es; [|reflexivity].
    apply sort_nil_inv in Es. apply existsb_filter_nil in Es. congruence.
  - apply existsb_filter_nil in E. rewrite E. reflexivity.
Qed.

Lemma driftPart_type (now : float) (anomalies : list Anomaly) :
  map (@Recommendation.anomalyType _) (driftPart now anomalies)
  = if existsb (hasType "drift") anomalies then ["drift"%string] else [].
Proof.
  unfold driftPart.
  destruct (existsb (hasType "drift") anomalies) eqn:E.
  - destruct (sort _ _) eqn:Es; [|reflexivity].
    apply sort_nil_inv in Es. apply existsb_filter_nil in Es. congruence.
  - apply existsb_filter_nil in E. rewrite E. reflexivity.
Qed.

Lemma schedulePart_type (now : float) (anomalies : list Anomaly) :
  map (@Recommendation.anomalyType _) (schedulePart now anomalies)
  = if existsb (hasType "schedule") anomalies then ["schedule"%string] else [].
Proof.
  unfold schedulePart.
  destruct (existsb (hasType "schedule") anomalies) eqn:E.
  - destruct (filter _ _) eqn:Es; [|reflexivity].
    apply existsb_filter_nil in Es. congruence.
  - apply existsb_filter_nil in E. rewrite E. reflexivity.
Qed.

Lemma recommendationsOf_types (Date_now : nat -> float) (anomalies : list Anomaly) :
  map (@Recommendation.anomalyType _) (recommendationsOf Date_now anomalies)
  = filter (fun t => existsb (hasType t) anomalies)
      ["spike"%string; "drift"%string; "schedule"%string].
Proof.
  unfold recommendationsOf. cbv zeta.
  rewrite !map_app, spikePart_type, driftPart_type, schedulePart_type.
  cbn [filter].
  destruct (existsb (hasType "spike") anomalies),
    (existsb (hasType "drift") anomalies),
    (existsb (hasType "schedule") anomalies); reflexivity.
Qed.

Lemma existsb_Permutation {A : Type} (p : A -> bool) (l l' : list A) :
  Permutation l l' -> existsb p l = existsb p l'.
Proof.
  induction 1 as [|x l l' _ IH|x y l|l l' l'' _ IH1 _ IH2]; simpl.
  - reflexivity.
  - rewrite IH. reflexivity.
  - destruct (p x), (p y); reflexivity.
  - congruence.
Qed.

(** C10. [generateRecommendations] returns, for every anomaly list, one
    recommendation for each of the types spike, drift and schedule that
    occurs in the list, in that order: at most three, and the order of the
    types does not depend on the order of the anomalies. *)
Theorem recommendations_order (Date_now : nat -> float) (anomalies : list Anomaly)
  (buildingData : Building) :
  exists recs,
    generateRecommendations Date_now anomalies buildingData = Ok recs
    /\ map (@Recommendation.anomalyType _) recs
       = filter (fun t => existsb (hasType t) anomalies)
           ["spike"%string; "drift"%string; "schedule"%string]
    /\ length recs <= 3
    /\ forall (anomalies' : list Anomaly) (Date_now' : nat -> float)
              (buildingData' : Building),
         Permutation anomalies anomalies' ->
         exists recs',
           generateRecommendations Date_now' anomalies' buildingData' = Ok recs'
           /\ map (@Recommendation.anomalyType _) recs'
              = map (@Recommendation.anomalyType _) recs.
Proof.
  exists (recommendationsOf Date_now anomalies).
  split; [apply generateRecommendations_shape|].
  split; [apply recommendationsOf_types|]. split.
  - rewrite <- (length_map (@Recommendation.anomalyType _)).
    rewrite recommendationsOf_types. cbn [filter].
    destruct (existsb (hasType "spike") anomalies),
      (existsb (hasType "drift") anomalies),
      (existsb (hasType "schedule") anomalies); simpl; lia.
  - intros anomalies' Date_now' buildingData' HP.
    exists (recommendationsOf Date_now' anomalies').
    split; [apply generateRecommendations_shape|].
    rewrite !recommendationsOf_types. cbn [filter].
    rewrite !(existsb_Permutation _ HP). reflexivity.
Qed.

(** C4, amended. When the anomaly list has a schedule anomaly, the last
    recommendation returned is the schedule one. It is computed from the
    anomalies of one hour, which has the most schedule anomalies; among
    the hours with as many, it is the numerically smallest one (an invalid
    date's [NaN] hour coming after all the others), whatever the order of
    the input. The dollar estimate is round(average excess at that hour *
    number of anomalies at that hour * 4 * 0.15), and the urgency is the
    Medium tier when that number exceeds 3 and the Low tier otherwise. *)
Theorem schedule_recommendation_spec (Date_now : nat -> float)
  (anomalies : list Anomaly) (buildingData : Building) :
  filter (hasType "schedule") anomalies <> [] ->
  exists recs r worstHour,
    generateRecommendations Date_now anomalies buildingData = Ok (recs ++ [r])
    /\ Forall (fun r' => Recommendation.anomalyType r' <> "schedule"%string) recs
    /\ Recommendation.anomalyType r = "schedule"%string
    /\ let scheduleAnomalies := filter (hasType "schedule") anomalies in
       let group := atHour worstHour scheduleAnomalies in
       let count := length group in
       0 < count
       /\ (forall k, length (atHour k scheduleAnomalies) <= count)
       /\ (forall k, length (atHour k scheduleAnomalies) = count ->
                     k = worstHour \/ key_before worstHour k = true)
       /\ Recommendation.impact r
          = [Lit "Optimizing scheduling could save approximately $";
             Num (Math_round
                    (sumOf (map (fun a => Anomaly.consumption a - Anomaly.expected a)
                              group)
                     / Number_of_nat count * Number_of_nat count * 4 * 0.15));
             Lit " per month."]
       /\ Recommendation.urgency r
          = (if Nat.ltb 3 count then "Medium - Investigate within 2 weeks"
             else "Low - Investigate during next maintenance cycle")%string.
Proof.
  intros Hne.
  set (s := spikePart (Date_now 0%nat) anomalies).
  set (d := driftPart (Date_now (length s)) anomalies).
  destruct (codeWorstHour_spec Hne) as [o [_ [_ [_ [Hpos [Hmax Htie]]]]]].
  exists (s ++ d),
    (scheduleRecommendation (Date_now (length (s ++ d)))
       (codeWorstHour (filter (hasType "schedule") anomalies))
       (length (atHour (codeWorstHour (filter (hasType "schedule") anomalies))
                  (filter (hasType "schedule") anomalies)))
       (excess (atHour (codeWorstHour (filter (hasType "schedule") anomalies))
                  (filter (hasType "schedule") anomalies))
        / Number_of_nat
            (length (atHour (codeWorstHour (filter (hasType "schedule") anomalies))
                       (filter (hasType "schedule") anomalies))))),
    (codeWorstHour (filter (hasType "schedule") anomalies)).
  split.
  { rewrite generateRecommendations_shape. unfold recommendationsOf. cbv zeta.
    fold s. fold d. rewrite <- app_assoc. do 3 f_equal.
    unfold schedulePart.
    destruct (filter (hasType "schedule") anomalies); [congruence|reflexivity]. }
  split.
  { apply Forall_app. split.
    - unfold s, spikePart. destruct (sort _ _); repeat constructor; discriminate.
    - unfold d, driftPart. destruct (sort _ _); repeat constructor; discriminate. }
  split; [reflexivity|].
  cbv zeta. split; [exact Hpos|]. split; [exact Hmax|]. split; [exact Htie|].
  split; reflexivity.
Qed.

(** ** The detector on every input *)

Lemma detectAnomalies_short_history' (data : list Reading) :
  length data < 7 -> detectAnomalies data = Ok [].
Proof.
  intros H. unfold detectAnomalies.
  destruct (Nat.ltb_spec (length data) 7); [reflexivity|lia].
Qed.

Lemma stats_is_bucket_baseline (data : list Reading) (r : Reading) :
  (if String.eqb (Reading.dayType r) "weekday"
   then statistics
          (map (@Reading.consumption _)
             (filter (fun entry => String.eqb (Reading.dayType entry) "weekday") data))
   else statistics
          (map (@Reading.consumption _)
             (filter (fun entry => String.eqb (Reading.dayType entry) "weekend") data)))
  = baseline data (dayBucket (Reading.dayType r)).
Proof.
  unfold dayBucket, baseline.
  destruct (String.eqb (Reading.dayType r) "weekday"); reflexivity.
Qed.

Lemma spikeBody_emits (data : list Reading) (i : nat) (acc : list Anomaly) :
  1 <= i < length data ->
  spikeBody data
    (statistics
       (map (@Reading.consumption _)
          (filter (fun entry => String.eqb (Reading.dayType entry) "weekday") data)))
    (statistics
       (map (@Reading.consumption _)
          (filter (fun entry => String.eqb (Reading.dayType entry) "weekend") data)))
    i acc
  = Ok (acc ++ emittedSpikes data i).
Proof.
  intros Hi. unfold spikeBody, emittedSpikes.
  destruct (nth_error_in_range data (i := i)) as [current Hc]; [lia|].
  destruct (nth_error_in_range data (i := i - 1)) as [previous Hp]; [lia|].
  rewrite (get_nth_error _ _ Hc), (get_nth_error _ _ Hp), Hc, Hp. simpl.
  rewrite (stats_is_bucket_baseline data current).
  unfold percentageOver.
  destruct (_ && _); [reflexivity|nothing_pushed].
Qed.

Lemma driftBody_emits (data : list Reading) (i : nat) (acc : list Anomaly) :
  5 <= i < length data ->
  driftBody data
    (statistics
       (map (@Reading.consumption _)
          (filter (fun entry => String.eqb (Reading.dayType entry) "weekday") data)))
    (statistics
       (map (@Reading.consumption _)
          (filter (fun entry => String.eqb (Reading.dayType entry) "weekend") data)))
    i acc
  = Ok (acc ++ emittedDrifts data i).
Proof.
  intros Hi. unfold driftBody, emittedDrifts, readingsEndingAt, slice, windowSize.
  replace (i + 1 - (i - 5))%nat with 6%nat by lia.
  replace (i + 1 - 6)%nat with (i - 5)%nat by lia.
  pose proof (window_length data Hi) as Hlen.
  pose proof (window_last data (i := i) (proj1 Hi)) as Hlast.
  destruct (firstn 6 (skipn (i - 5) data))
    as [|w0 [|w1 [|w2 [|w3 [|w4 [|w5 [|w6 rest]]]]]]] eqn:Ew;
    simpl in Hlen; try discriminate.
  simpl in Hlast. symmetry in Hlast.
  rewrite (get_nth_error _ _ Hlast). simpl.
  rewrite (stats_is_bucket_baseline data w5).
  unfold avgDailyIncrease, percentageOver.
  destruct (Reading.consumption w1 <=? Reading.consumption w0); simpl;
    [nothing_pushed|].
  destruct (Reading.consumption w2 <=? Reading.consumption w1); simpl;
    [nothing_pushed|].
  destruct (Reading.consumption w3 <=? Reading.consumption w2); simpl;
    [nothing_pushed|].
  destruct (Reading.consumption w4 <=? Reading.consumption w3); simpl;
    [nothing_pushed|].
  destruct (Reading.consumption w5 <=? Reading.consumption w4); simpl;
    [nothing_pushed|].
  destruct (gtb (Reading.consumption w5) _); simpl; [|nothing_pushed].
  change (Number_of_nat 5) with 5.
  destruct (gtb _ 3); simpl; [reflexivity|nothing_pushed].
Qed.

Lemma profile_is_bucket_profile (data : list Reading) (r : Reading) :
  (if String.eqb (Reading.dayType r) "weekday" then hourlyProfile data "weekday"
   else hourlyProfile data "weekend")
  = hourlyProfile data (dayBucket (Reading.dayType r)).
Proof.
  unfold dayBucket. destruct (String.eqb (Reading.dayType r) "weekday"); reflexivity.
Qed.

Lemma scheduleBody_emits (data : list Reading) (i : nat) (acc : list Anomaly) :
  i < length data ->
  scheduleBody data (hourlyProfile data "weekday") (hourlyProfile data "weekend") i acc
  = Ok (acc ++ emittedSchedules data i).
Proof.
  intros Hi. unfold scheduleBody, emittedSchedules.
  destruct (nth_error_in_range data Hi) as [entry He].
  rewrite (get_nth_error _ _ He), He. cbn [bind]. cbv zeta.
  rewrite (profile_is_bucket_profile data entry).
  rewrite allHoursAvg_spec.
  destruct (getHours (Reading.timestamp entry)) as [h|] eqn:Eh.
  - unfold hourlyProfile at 1. rewrite obj_get_tabulate. cbn [Nat.leb andb].
    change (0 + 24)%nat with 24%nat.
    destruct (Nat.ltb h 24); [|nothing_pushed].
    unfold hourBucket. cbn [HourBucket.count HourBucket.mean HourBucket.stdDev].
    destruct (Nat.ltb _ 3); [nothing_pushed|].
    unfold scheduleAnomalyIn, percentageOver, hourMean, hourStdDev. cbn [roundTo].
    destruct (gtb (Reading.consumption entry) _); cbn [andb]; [|nothing_pushed].
    destruct (_ <? _); [reflexivity|nothing_pushed].
  - unfold hourlyProfile at 1, tabulate.
    assert (E : forall (f : nat -> HourBucket.t) a n,
               obj_get (map (fun h => (Some h, f h)) (seq a n)) None = None).
    { intros f a n. revert a. induction n as [|n IH]; intros a; simpl;
        [reflexivity|apply IH]. }
    rewrite E. nothing_pushed.
Qed.

(** The profile builder throws at the first reading without an hour. *)
Lemma profile_fill_throws (l : list Reading) (f : nat -> HourBucket.t) :
  forallb validHour l = false ->
  forEach l
    (fun entry hourlyData =>
       let hour := getHours (Reading.timestamp entry) in
       bucket <- obj_read hourlyData hour ;;
       Ok (obj_set hourlyData hour
             (HourBucket.mk
                (HourBucket.values bucket ++ [Reading.consumption entry])
                (HourBucket.mean bucket) (HourBucket.stdDev bucket)
                (HourBucket.count bucket))))
    (tabulate f 0 24)
  = TypeError.
Proof.
  revert f. induction l as [|entry rest IH]; intros f Hv; [discriminate|].
  cbn [forallb] in Hv. cbn [forEach]. cbv zeta.
  unfold validHour in Hv at 1.
  destruct (getHours (Reading.timestamp entry)) as [h0|] eqn:Eh.
  - destruct (Nat.ltb_spec h0 24) as [Hlt|Hge].
    + cbn [andb] in Hv. rewrite obj_read_tabulate by assumption. cbn [bind].
      rewrite obj_set_tabulate by lia. apply IH. assumption.
    + unfold obj_read. rewrite obj_get_tabulate.
      destruct (Nat.ltb_spec h0 (0 + 24)); [lia|].
      rewrite andb_false_r. reflexivity.
  - unfold obj_read, tabulate.
    assert (E : forall a n,
               obj_get (map (fun h => (Some h, f h)) (seq a n)) None = None).
    { intros a n. revert a. induction n as [|n IHn]; intros a; simpl;
        [reflexivity|apply IHn]. }
    rewrite E. reflexivity.
Qed.

Lemma createHourlyProfile_cases (l : list Reading) :
  createHourlyProfile l
  = if forallb validHour l
    then if forallb (fun h => Nat.leb (length (consumptionAt l h)) argumentLimit)
              (seq 0 24)
         then Ok (tabulate (fun h => hourBucket (consumptionAt l h)) 0 24)
         else RangeError
    else TypeError.
Proof.
  destruct (forallb validHour l) eqn:E.
  - apply createHourlyProfile_valid. assumption.
  - unfold createHourlyProfile.
    change (forRange 24 0
              (fun hour hourlyData =>
                 Ok (obj_set hourlyData (Some hour) (HourBucket.mk [] 0 0 0))) [])
      with (Ok (tabulate (fun _ : nat => HourBucket.mk [] 0 0 0) 0 24)).
    cbn [bind]. rewrite profile_fill_throws by assumption. reflexivity.
Qed.

Lemma forallb_filter_and {A : Type} (p q : A -> bool) (l : list A) :
  forallb p (filter q l) = forallb (fun x => negb (q x) || p x) l.
Proof.
  induction l as [|x l IH]; simpl; [reflexivity|].
  destruct (q x); simpl; rewrite IH; reflexivity.
Qed.

Lemma hourlyProfile_of_filter (data : list Reading) (dayType : string) :
  tabulate
    (fun h =>
       hourBucket
         (consumptionAt
            (filter (fun entry => String.eqb (Reading.dayType entry) dayType) data) h))
    0 24
  = hourlyProfile data dayType.
Proof.
  apply tabulate_ext. intros h _.
  unfold consumptionAt, hourValues. rewrite filter_filter. reflexivity.
Qed.

(** What [detectAnomalies] does on every input of at least 7 readings. *)
Lemma detectAnomalies_cases (data : list Reading) :
  7 <= length data ->
  detectAnomalies data
  = if overArgumentLimit data then RangeError
    else if forallb (fun r => negb (knownDayType r) || validHour r) data
         then Ok (emitted data)
         else TypeError.
Proof.
  intros Hlen. unfold detectAnomalies, overArgumentLimit.
  destruct (Nat.ltb_spec (length data) 7); [lia|]. cbv zeta.
  rewrite !calculateStats_cases, !length_map.
  destruct (Nat.ltb_spec argumentLimit
              (length
                 (filter (fun entry => String.eqb (Reading.dayType entry) "weekday")
                    data))) as [|Hwd];
    cbn [bind orb]; [reflexivity|].
  destruct (Nat.ltb_spec argumentLimit
              (length
                 (filter (fun entry => String.eqb (Reading.dayType entry) "weekend")
                    data))) as [|Hwe];
    cbn [bind]; [reflexivity|].
  rewrite (forRange_append (emittedSpikes data))
    by (intros; apply spikeBody_emits; lia).
  cbn [bind app]. unfold windowSize at 1 2.
  rewrite (forRange_append (emittedDrifts data))
    by (intros; apply driftBody_emits; lia).
  cbn [bind].
  rewrite !createHourlyProfile_cases, !buckets_within by assumption.
  rewrite !forallb_filter_and, !hourlyProfile_of_filter.
  assert (E : forallb (fun r => negb (knownDayType r) || validHour r) data
              = forallb (fun x => negb (String.eqb (Reading.dayType x) "weekday")
                                  || validHour x) data
                && forallb (fun x => negb (String.eqb (Reading.dayType x) "weekend")
                                     || validHour x) data).
  { clear. induction data as [|r l IH]; [reflexivity|].
    cbn [forallb]. rewrite IH. unfold knownDayType.
    destruct (String.eqb (Reading.dayType r) "weekday"),
      (String.eqb (Reading.dayType r) "weekend"), (validHour r); simpl;
      try reflexivity;
      repeat (rewrite ?andb_true_r, ?andb_false_r; simpl); try reflexivity;
      destruct (forallb _ l); reflexivity. }
  rewrite E.
  destruct (forallb (fun x => negb (String.eqb (Reading.dayType x) "weekday")
                              || validHour x) data); cbn [bind andb];
    [|reflexivity].
  destruct (forallb (fun x => negb (String.eqb (Reading.dayType x) "weekend")
                              || validHour x) data); cbn [bind];
    [|reflexivity].
  rewrite (forRange_append (emittedSchedules data))
    by (intros; apply scheduleBody_emits; lia).
  cbn [bind]. unfold emitted. rewrite <- app_assoc. reflexivity.
Qed.

(** X1. When [detectAnomalies] throws, and what. On fewer than 7
    readings it returns. On 7 readings or more it throws a [RangeError]
    exactly when there are more weekday readings, or more weekend
    readings, than a call takes arguments: the statistics of the two day
    types are computed first, by spreading the readings into [Math.min].
    Otherwise it throws a [TypeError] exactly when one reading of day type
    weekday or weekend has a timestamp that is not a date (it has no hour
    of the day): that reading reaches [createHourlyProfile], which reads a
    property of a bucket that does not exist. On every other input it
    returns. *)
Theorem detectAnomalies_throws_iff (data : list Reading) :
  (detectAnomalies data = RangeError
   <-> 7 <= length data /\ overArgumentLimit data = true)
  /\ (detectAnomalies data = TypeError
      <-> 7 <= length data
          /\ overArgumentLimit data = false
          /\ existsb (fun r => knownDayType r && negb (validHour r)) data = true)
  /\ ((exists out, detectAnomalies data = Ok out)
      <-> length data < 7
          \/ (overArgumentLimit data = false
              /\ existsb (fun r => knownDayType r && negb (validHour r)) data
                 = false)).
Proof.
  destruct (Nat.lt_ge_cases (length data) 7) as [Hlt|Hge].
  - rewrite detectAnomalies_short_history' by assumption.
    split; [|split].
    + split; [discriminate|]. intros [H _]. lia.
    + split; [discriminate|]. intros [H _]. lia.
    + split; [intros _; left; assumption|]. intros _. eauto.
  - rewrite detectAnomalies_cases by assumption.
    assert (E : forallb (fun r => negb (knownDayType r) || validHour r) data
                = negb (existsb (fun r => knownDayType r && negb (validHour r)) data)).
    { clear. induction data as [|r l IH]; [reflexivity|].
      cbn [forallb existsb]. rewrite IH.
      destruct (knownDayType r), (validHour r); reflexivity. }
    rewrite E.
    destruct (overArgumentLimit data), (existsb _ data); simpl;
      (split; [|split]);
      (split;
       [ try discriminate; try (intros [out H]; discriminate H); intros _;
         try (split; [assumption|]); try (split; reflexivity); try reflexivity;
         try (right; split; reflexivity)
       | try (intros [_ H]; discriminate H);
         try (intros [_ [H1 H2]]; try discriminate H1; discriminate H2);
         try (intros [H|[H1 H2]];
              [lia|try discriminate H1; discriminate H2]);
         intros _; try reflexivity; eauto ]).
Qed.

Lemma emittedSpikes_shape (data : list Reading) (i : nat) :
  emittedSpikes data i = []
  \/ exists previous current,
       nth_error data (i - 1) = Some previous
       /\ nth_error data i = Some current
       /\ emittedSpikes data i = [spikeAnomaly previous current].
Proof.
  unfold emittedSpikes.
  destruct (nth_error data (i - 1)) as [previous|]; [|left; reflexivity].
  destruct (nth_error data i) as [current|]; [|left; reflexivity].
  cbv zeta. destruct (_ && _); [|left; reflexivity].
  right. exists previous, current. auto.
Qed.

Lemma emittedDrifts_shape (data : list Reading) (i : nat) :
  emittedDrifts data i = []
  \/ exists first last,
       In first data /\ In last data
       /\ emittedDrifts data i = [driftAnomaly first last].
Proof.
  unfold emittedDrifts. cbv zeta.
  destruct (nth_error (readingsEndingAt data i 6) 0) as [first|] eqn:Ef;
    [|left; reflexivity].
  destruct (nth_error (readingsEndingAt data i 6) 5) as [last|] eqn:El;
    [|left; reflexivity].
  destruct (_ && _); [|left; reflexivity].
  right. exists first, last.
  apply nth_error_In in Ef, El. unfold readingsEndingAt in Ef, El.
  apply window_in_data in Ef, El. auto.
Qed.

Lemma emittedSchedules_shape (data : list Reading) (i : nat) :
  emittedSchedules data i = []
  \/ exists entry hour,
       nth_error data i = Some entry
       /\ emittedSchedules data i
          = [scheduleAnomalyIn data (dayBucket (Reading.dayType entry)) entry hour].
Proof.
  unfold emittedSchedules.
  destruct (nth_error data i) as [entry|]; [|left; reflexivity].
  cbv zeta. destruct (getHours _) as [hour|]; [|left; reflexivity].
  destruct (Nat.ltb hour 24); [|left; reflexivity].
  destruct (Nat.ltb _ 3); [left; reflexivity|].
  destruct (_ && _); [|left; reflexivity].
  right. exists entry, hour. auto.
Qed.

Lemma flat_map_length_le {A : Type} (f : nat -> list A) (lo n : nat) :
  (forall i, length (f i) <= 1) -> length (flat_map f (seq lo n)) <= n.
Proof.
  intros H. revert lo. induction n as [|n IH]; intros lo; simpl; [lia|].
  rewrite length_app. specialize (H lo). specialize (IH (S lo)). lia.
Qed.

Lemma detectAnomalies_Ok_emitted (data : list Reading) (out : list Anomaly) :
  detectAnomalies data = Ok out ->
  out = [] \/ (7 <= length data /\ out = emitted data).
Proof.
  intros H. destruct (Nat.lt_ge_cases (length data) 7) as [Hlt|Hge].
  - rewrite detectAnomalies_short_history' in H by assumption.
    left. congruence.
  - rewrite detectAnomalies_cases in H by assumption.
    destruct (overArgumentLimit data); [discriminate|].
    destruct (forallb _ data); [|discriminate]. right. split; congruence.
Qed.

(** X2. Whenever [detectAnomalies] returns, its result is the spike
    anomalies, followed by the drift anomalies, followed by the schedule
    anomalies: no anomaly of a later pass comes before one of an earlier
    pass, and no anomaly has another type. *)
Theorem detectAnomalies_emission_order (data : list Reading) (out : list Anomaly) :
  detectAnomalies data = Ok out ->
  exists spikes drifts schedules,
    out = spikes ++ drifts ++ schedules
    /\ Forall (fun a => Anomaly.type a = "spike"%string) spikes
    /\ Forall (fun a => Anomaly.type a = "drift"%string) drifts
    /\ Forall (fun a => Anomaly.type a = "schedule"%string) schedules.
Proof.
  intros H. apply detectAnomalies_Ok_emitted in H. destruct H as [->|[_ ->]].
  - exists [], [], []. repeat split; constructor.
  - exists (flat_map (emittedSpikes data) (seq 1 (length data - 1))),
      (flat_map (emittedDrifts data) (seq 5 (length data - 5))),
      (flat_map (emittedSchedules data) (seq 0 (length data))).
    split; [reflexivity|]. repeat split; apply Forall_flat_map_seq; intros i.
    + destruct (emittedSpikes_shape data i) as [->|[p [c [_ [_ ->]]]]];
        repeat constructor.
    + destruct (emittedDrifts_shape data i) as [->|[f [l [_ [_ ->]]]]];
        repeat constructor.
    + destruct (emittedSchedules_shape data i) as [->|[e [h [_ ->]]]];
        repeat constructor.
Qed.

(** X3. Whenever [detectAnomalies] returns, every anomaly of the result
    carries the timestamp and the consumption of a reading of the input,
    and its severity is 2 or 3 for a spike and 1 or 2 for a drift or a
    schedule anomaly: no anomaly is made up, and no severity is outside 1
    to 3. *)
Theorem detectAnomalies_anomalies_from_readings (data : list Reading)
  (out : list Anomaly) :
  detectAnomalies data = Ok out ->
  Forall
    (fun a =>
       (exists r,
           In r data
           /\ Anomaly.timestamp a = Reading.timestamp r
           /\ Anomaly.consumption a = Reading.consumption r)
       /\ ((Anomaly.type a = "spike"%string
            /\ (Anomaly.severity a = 2 \/ Anomaly.severity a = 3)%Z)
           \/ ((Anomaly.type a = "drift"%string
                \/ Anomaly.type a = "schedule"%string)
               /\ (Anomaly.severity a = 1 \/ Anomaly.severity a = 2)%Z)))
    out.
Proof.
  intros H. apply detectAnomalies_Ok_emitted in H. destruct H as [->|[_ ->]];
    [constructor|].
  unfold emitted. rewrite !Forall_app.
  repeat split; apply Forall_flat_map_seq; intros i.
  - destruct (emittedSpikes_shape data i) as [->|[p [c [_ [Hc ->]]]]];
      [constructor|].
    constructor; [|constructor]. split.
    + exists c. split; [eapply nth_error_In; eauto|]. split; reflexivity.
    + left. split; [reflexivity|]. unfold spikeAnomaly. cbn [Anomaly.severity].
      destruct (gtb _ 50); auto.
  - destruct (emittedDrifts_shape data i) as [->|[f [l [_ [Hl ->]]]]];
      [constructor|].
    constructor; [|constructor]. split.
    + exists l. split; [assumption|]. split; reflexivity.
    + right. split; [left; reflexivity|]. unfold driftAnomaly.
      cbn [Anomaly.severity]. destruct (gtb _ 5); auto.
  - destruct (emittedSchedules_shape data i) as [->|[e [h [He ->]]]];
      [constructor|].
    constructor; [|constructor]. split.
    + exists e. split; [eapply nth_error_In; eauto|]. split; reflexivity.
    + right. split; [right; reflexivity|]. unfold scheduleAnomalyIn.
      cbn [Anomaly.severity]. destruct (gtb _ 70); auto.
Qed.

(** X4. Whenever [detectAnomalies] returns, on [n] readings, there is at
    most one spike for each reading after the first, one drift for each
    reading from the sixth on and one schedule anomaly for each reading:
    at most [n - 1], [n - 5] and [n] anomalies of the three types, so at
    most [3 n - 6] anomalies in all. *)
Theorem detectAnomalies_count_bounds (data : list Reading) (out : list Anomaly) :
  detectAnomalies data = Ok out ->
  length (filter (hasType "spike") out) <= length data - 1
  /\ length (filter (hasType "drift") out) <= length data - 5
  /\ length (filter (hasType "schedule") out) <= length data
  /\ length out <= 3 * length data - 6.
Proof.
  intros H. apply detectAnomalies_Ok_emitted in H.
  destruct H as [->|[Hlen ->]]; [simpl; lia|].
  assert (S1 : Forall (fun a => Anomaly.type a = "spike"%string)
                 (flat_map (emittedSpikes data) (seq 1 (length data - 1)))).
  { apply Forall_flat_map_seq. intros i.
    destruct (emittedSpikes_shape data i) as [->|[p [c [_ [_ ->]]]]];
      repeat constructor. }
  assert (S2 : Forall (fun a => Anomaly.type a = "drift"%string)
                 (flat_map (emittedDrifts data) (seq 5 (length data - 5)))).
  { apply Forall_flat_map_seq. intros i.
    destruct (emittedDrifts_shape data i) as [->|[f [l [_ [_ ->]]]]];
      repeat constructor. }
  assert (S3 : Forall (fun a => Anomaly.type a = "schedule"%string)
                 (flat_map (emittedSchedules data) (seq 0 (length data)))).
  { apply Forall_flat_map_seq. intros i.
    destruct (emittedSchedules_shape data i) as [->|[e [h [_ ->]]]];
      repeat constructor. }
  assert (L1 : length (flat_map (emittedSpikes data) (seq 1 (length data - 1)))
               <= length data - 1).
  { apply flat_map_length_le. intros i.
    destruct (emittedSpikes_shape data i) as [->|[p [c [_ [_ ->]]]]]; simpl; lia. }
  assert (L2 : length (flat_map (emittedDrifts data) (seq 5 (length data - 5)))
               <= length data - 5).
  { apply flat_map_length_le. intros i.
    destruct (emittedDrifts_shape data i) as [->|[f [l [_ [_ ->]]]]]; simpl; lia. }
  assert (L3 : length (flat_map (emittedSchedules data) (seq 0 (length data)))
               <= length data).
  { apply flat_map_length_le. intros i.
    destruct (emittedSchedules_shape data i) as [->|[e [h [_ ->]]]]; simpl; lia. }
  unfold emitted. rewrite !(filter_passes _ S1 S2 S3). cbn [String.eqb Ascii.eqb Bool.eqb].
  rewrite !app_nil_r, !length_app. simpl. lia.
Qed.

(** ** Readings that are not numbers, and readings of zero *)

Lemma is_nan_true_iff (x : float) : is_nan x = true <-> Prim2SF x = S754_nan.
Proof.
  split.
  - intros H. destruct (Prim2SF x) eqn:E; try reflexivity;
      assert (N : is_nan x = false)
        by (apply is_nan_Prim2SF; rewrite E; discriminate);
      congruence.
  - intros H. unfold is_nan. rewrite FloatAxioms.eqb_spec, H. reflexivity.
Qed.

Lemma add_nan_l (x y : float) : is_nan x = true -> is_nan (x + y) = true.
Proof.
  rewrite !is_nan_true_iff, FloatAxioms.add_spec. intros ->. reflexivity.
Qed.

Lemma add_nan_r (x y : float) : is_nan y = true -> is_nan (x + y) = true.
Proof.
  rewrite !is_nan_true_iff, FloatAxioms.add_spec. intros ->.
  destruct (Prim2SF x); reflexivity.
Qed.

Lemma div_nan_l (x y : float) : is_nan x = true -> is_nan (x / y) = true.
Proof.
  rewrite !is_nan_true_iff, FloatAxioms.div_spec. intros ->. reflexivity.
Qed.

Lemma mul_nan_r (x y : float) : is_nan y = true -> is_nan (x * y) = true.
Proof.
  rewrite !is_nan_true_iff, FloatAxioms.mul_spec. intros ->.
  destruct (Prim2SF x); reflexivity.
Qed.

Lemma ltb_nan_l (x y : float) : is_nan x = true -> (x <? y) = false.
Proof.
  rewrite is_nan_true_iff, FloatAxioms.ltb_spec. intros ->. reflexivity.
Qed.

Lemma ltb_nan_r (x y : float) : is_nan y = true -> (x <? y) = false.
Proof.
  rewrite is_nan_true_iff, FloatAxioms.ltb_spec. intros ->.
  unfold SFltb. destruct (Prim2SF x); reflexivity.
Qed.

Lemma fold_add_nan_acc (l : list float) (acc : float) :
  is_nan acc = true -> is_nan (fold_left PrimFloat.add l acc) = true.
Proof.
  revert acc. induction l as [|x l IH]; intros acc H; simpl; [assumption|].
  apply IH, add_nan_l. assumption.
Qed.

Lemma fold_add_nan (l : list float) (acc : float) :
  existsb is_nan l = true -> is_nan (fold_left PrimFloat.add l acc) = true.
Proof.
  revert acc. induction l as [|x l IH]; intros acc H; simpl in *; [discriminate|].
  destruct (is_nan x) eqn:E.
  - apply fold_add_nan_acc, add_nan_r. assumption.
  - apply IH. assumption.
Qed.

Lemma fold_Math_min2_nan (l : list float) (acc : float) :
  existsb is_nan l = true -> fold_left Math_min2 l acc = nan.
Proof.
  assert (K : forall l', fold_left Math_min2 l' nan = nan).
  { induction l' as [|x l' IH]; simpl; [reflexivity|exact IH]. }
  revert acc. induction l as [|x l IH]; intros acc H; simpl in *; [discriminate|].
  destruct (is_nan x) eqn:E.
  - unfold Math_min2 at 2. rewrite E, orb_true_r. apply K.
  - apply IH. assumption.
Qed.

Lemma fold_Math_max2_nan (l : list float) (acc : float) :
  existsb is_nan l = true -> fold_left Math_max2 l acc = nan.
Proof.
  assert (K : forall l', fold_left Math_max2 l' nan = nan).
  { induction l' as [|x l' IH]; simpl; [reflexivity|exact IH]. }
  revert acc. induction l as [|x l IH]; intros acc H; simpl in *; [discriminate|].
  destruct (is_nan x) eqn:E.
  - unfold Math_max2 at 2. rewrite E, orb_true_r. apply K.
  - apply IH. assumption.
Qed.

Lemma calculateStats_nan_mean (values : list float) :
  existsb is_nan values = true -> is_nan (Stats.mean (statistics values)) = true.
Proof.
  intros H. unfold statistics.
  destruct values as [|v vs]; [discriminate|].
  cbn [length Nat.eqb Stats.mean]. apply div_nan_l. unfold reduce.
  apply fold_add_nan. assumption.
Qed.

(** X5. A value that is not a number spoils the statistics of the whole
    sequence: on values that a call can take as arguments, one of which is
    [NaN], [calculateStats] returns, with [NaN] as mean, as min and as
    max. *)
Theorem calculateStats_nan (values : list float) :
  existsb is_nan values = true ->
  length values <= argumentLimit ->
  exists s,
    calculateStats values = Ok s
    /\ is_nan (Stats.mean s) = true
    /\ Stats.min s = nan
    /\ Stats.max s = nan.
Proof.
  intros H Hl. exists (statistics values).
  split; [apply calculateStats_within; assumption|].
  split; [apply calculateStats_nan_mean; assumption|].
  unfold statistics. destruct values as [|v vs]; [discriminate|].
  cbn [length Nat.eqb Stats.min Stats.max]. unfold Math_min, Math_max.
  split; [apply fold_Math_min2_nan|apply fold_Math_max2_nan]; assumption.
Qed.

Lemma flat_map_nil {A B : Type} (f : A -> list B) (l : list A) :
  (forall a, f a = []) -> flat_map f l = [].
Proof.
  intros H. induction l as [|a l IH]; simpl; [reflexivity|].
  rewrite H, IH. reflexivity.
Qed.

Lemma existsb_map {A B : Type} (p : B -> bool) (g : A -> B) (l : list A) :
  existsb p (map g l) = existsb (fun a => p (g a)) l.
Proof.
  induction l as [|a l IH]; simpl; [reflexivity|]. rewrite IH. reflexivity.
Qed.

Lemma existsb_filter {A : Type} (p q : A -> bool) (l : list A) :
  existsb p (filter q l) = existsb (fun a => q a && p a) l.
Proof.
  induction l as [|a l IH]; simpl; [reflexivity|].
  destruct (q a); simpl; rewrite IH; reflexivity.
Qed.

Lemma baseline_nan (data : list Reading) (d : string) :
  existsb (fun r => String.eqb (Reading.dayType r) d && is_nan (Reading.consumption r))
    data = true ->
  is_nan (Stats.mean (baseline data d)) = true.
Proof.
  intros H. unfold baseline. apply calculateStats_nan_mean.
  rewrite existsb_map, existsb_filter. exact H.
Qed.

Lemma allHoursAverage_nan (data : list Reading) (d : string) :
  existsb
    (fun r =>
       String.eqb (Reading.dayType r) d && validHour r
       && is_nan (Reading.consumption r))
    data = true ->
  is_nan (allHoursAverage data d) = true.
Proof.
  intros H. apply existsb_exists in H. destruct H as [r [Hr H]].
  apply andb_true_iff in H. destruct H as [H Hn].
  apply andb_true_iff in H. destruct H as [Hd Hv].
  unfold validHour in Hv.
  destruct (getHours (Reading.timestamp r)) as [h|] eqn:Eh; [|discriminate].
  apply Nat.ltb_lt in Hv.
  unfold allHoursAverage. apply div_nan_l. unfold sumOf. apply fold_add_nan.
  apply existsb_exists. exists (hourMean data d h). split.
  - apply in_map. apply in_seq. lia.
  - unfold hourMean. apply calculateStats_nan_mean.
    unfold hourValues. rewrite existsb_map, existsb_filter.
    apply existsb_exists. exists r. split; [assumption|].
    rewrite Hd, Eh, Hn. cbn [key_eqb]. rewrite Nat.eqb_refl. reflexivity.
Qed.

(** With a [NaN] reading of the day type every reading is judged against,
    the baseline mean and the average of the hourly means are [NaN], and
    no pass emits anything. *)
Lemma nan_emits_nothing (data : list Reading) (d : string) :
  forallb (fun r => String.eqb (dayBucket (Reading.dayType r)) d) data = true ->
  forallb validHour data = true ->
  existsb (fun r => String.eqb (Reading.dayType r) d && is_nan (Reading.consumption r))
    data = true ->
  emitted data = [].
Proof.
  intros Hd Hv Hn.
  assert (B : forall r, In r data -> dayBucket (Reading.dayType r) = d).
  { intros r Hr. rewrite forallb_forall in Hd. apply String.eqb_eq, Hd, Hr. }
  assert (M : is_nan (Stats.mean (baseline data d)) = true)
    by (apply baseline_nan; assumption).
  assert (A : is_nan (allHoursAverage data d) = true).
  { apply allHoursAverage_nan. apply existsb_exists in Hn.
    destruct Hn as [r [Hr H]]. apply existsb_exists. exists r.
    split; [assumption|]. apply andb_true_iff in H. destruct H as [H1 H2].
    rewrite forallb_forall in Hv. rewrite H1, H2, (Hv r Hr). reflexivity. }
  unfold emitted.
  rewrite (flat_map_nil (emittedSpikes data)),
    (flat_map_nil (emittedDrifts data)), (flat_map_nil (emittedSchedules data));
    [reflexivity| | |].
  - intros i. unfold emittedSchedules.
    destruct (nth_error data i) as [entry|] eqn:E; [|reflexivity].
    cbv zeta. rewrite (B entry) by (eapply nth_error_In; eauto).
    destruct (getHours _); [|reflexivity].
    destruct (Nat.ltb _ 24); [|reflexivity].
    destruct (Nat.ltb _ 3); [reflexivity|].
    rewrite (ltb_nan_r (hourMean data d n) (0.7 * allHoursAverage data d))
      by (apply mul_nan_r; assumption).
    rewrite andb_false_r. reflexivity.
  - intros i. unfold emittedDrifts. cbv zeta.
    destruct (nth_error (readingsEndingAt data i 6) 0); [|reflexivity].
    destruct (nth_error (readingsEndingAt data i 6) 5) as [last|] eqn:E;
      [|reflexivity].
    rewrite (B last)
      by (apply nth_error_In in E; unfold readingsEndingAt in E;
          apply window_in_data in E; assumption).
    unfold gtb at 1.
    rewrite (ltb_nan_l (Stats.mean (baseline data d) + 1.5 * Stats.stdDev (baseline data d))
               (Reading.consumption last))
      by (apply add_nan_l; assumption).
    rewrite andb_false_r. reflexivity.
  - intros i. unfold emittedSpikes.
    destruct (nth_error data (i - 1)); [|reflexivity].
    destruct (nth_error data i) as [current|] eqn:E; [|reflexivity].
    cbv zeta. rewrite (B current) by (eapply nth_error_In; eauto).
    unfold gtb at 2.
    rewrite (ltb_nan_l (Stats.mean (baseline data d) + 2 * Stats.stdDev (baseline data d))
               (Reading.consumption current))
      by (apply add_nan_l; assumption).
    rewrite andb_false_r. reflexivity.
Qed.

(** X6. One reading that is not a number silences the detector for its
    day type. When every reading is judged against the statistics of the
    day type [d] (for weekday: every reading is a weekday one; for
    weekend: none is), timestamps are dates, and one reading of day type
    [d] has a [NaN] consumption, [detectAnomalies] reports no anomaly at
    all, whatever the other readings are: it returns the empty list when
    the history is within the argument limit of the runtime, and whenever
    it returns, what it returns is the empty list. The [NaN] makes the
    baseline mean and the average of the hourly means [NaN], and every
    comparison with them fails. *)
Theorem nan_reading_silences_detector (data : list Reading) (d : string) :
  7 <= length data ->
  forallb (fun r => String.eqb (dayBucket (Reading.dayType r)) d) data = true ->
  forallb validHour data = true ->
  existsb (fun r => String.eqb (Reading.dayType r) d && is_nan (Reading.consumption r))
    data = true ->
  (length data <= argumentLimit -> detectAnomalies data = Ok [])
  /\ (forall out, detectAnomalies data = Ok out -> out = []).
Proof.
  intros Hlen Hd Hv Hn.
  pose proof (nan_emits_nothing data d Hd Hv Hn) as E.
  rewrite detectAnomalies_cases by assumption.
  assert (V : forallb (fun r => negb (knownDayType r) || validHour r) data = true).
  { rewrite forallb_forall in *. intros r Hr. rewrite (Hv r Hr).
    apply orb_true_r. }
  rewrite V, E. split.
  - intros Hl. rewrite overArgumentLimit_false by assumption. reflexivity.
  - intros out Ho. destruct (overArgumentLimit data); [discriminate|]. congruence.
Qed.

Lemma percentage_over_zero (c : float) :
  (0 <? c) = true -> percentageOver 0 c = infinity.
Proof.
  intros H. rewrite FloatAxioms.ltb_spec in H. unfold SFltb in H.
  change (Prim2SF 0) with (S754_zero false) in H.
  rewrite <- (SF2Prim_Prim2SF (percentageOver 0 c)).
  change infinity with (SF2Prim (S754_infinity false)). f_equal.
  unfold percentageOver.
  rewrite FloatAxioms.mul_spec, FloatAxioms.div_spec, FloatAxioms.sub_spec.
  change (Prim2SF 0) with (S754_zero false).
  assert (E : exists m e, Prim2SF 100 = S754_finite false m e)
    by (vm_compute; eauto).
  destruct E as [m [e ->]].
  destruct (Prim2SF c) as [s|[]| |[] mc ec]; try discriminate; reflexivity.
Qed.

Lemma percentage_zero_over_zero (c : float) :
  (c =? 0) = true -> is_nan (percentageOver 0 c) = true.
Proof.
  intros H. rewrite FloatAxioms.eqb_spec in H. unfold SFeqb in H.
  change (Prim2SF 0) with (S754_zero false) in H.
  apply is_nan_true_iff. unfold percentageOver.
  rewrite FloatAxioms.mul_spec, FloatAxioms.div_spec, FloatAxioms.sub_spec.
  change (Prim2SF 0) with (S754_zero false).
  destruct (Prim2SF c) as [[]|[]| |[] mc ec]; try discriminate; reflexivity.
Qed.

(** X7. The reading after a reading of zero. When the previous
    consumption is 0 and the consumption is positive, the percentage
    increase is [+Infinity]: whenever [detectAnomalies] returns, the
    reading is reported as a spike as soon as its consumption exceeds
    mean + 2 stdDev of its baseline, with severity 3 and an infinite
    percentageIncrease. When the consumption is zero too the percentage
    is [NaN] and the body of the loop pushes nothing for the reading,
    whatever the statistics are. *)
Theorem spike_after_zero (data : list Reading) (out : list Anomaly) (i : nat)
  (previous current : Reading) :
  detectAnomalies data = Ok out ->
  7 <= length data ->
  1 <= i ->
  nth_error data (i - 1) = Some previous ->
  nth_error data i = Some current ->
  Reading.consumption previous = 0 ->
  let c := Reading.consumption current in
  let b := baseline data (dayBucket (Reading.dayType current)) in
  ((0 <? c) = true ->
   percentageOver 0 c = infinity
   /\ (gtb c (Stats.mean b + 2 * Stats.stdDev b) = true ->
       In (spikeAnomaly previous current) out
       /\ Anomaly.percentageIncrease (spikeAnomaly previous current) = infinity
       /\ Anomaly.severity (spikeAnomaly previous current) = 3%Z))
  /\ ((c =? 0) = true ->
      is_nan (percentageOver 0 c) = true
      /\ forall weekdayStats weekendStats anomalies,
          spikeBody data weekdayStats weekendStats i anomalies = Ok anomalies).
Proof.
  intros Ho Hlen Hi Hp Hc Hz c b.
  rewrite detectAnomalies_cases in Ho by assumption.
  destruct (overArgumentLimit data); [discriminate|].
  destruct (forallb _ data); [|discriminate].
  assert (Eo : out = emitted data) by congruence. subst out.
  assert (Ei : emittedSpikes data i
               = if gtb (percentageOver 0 c) 30
                    && gtb c (Stats.mean b + 2 * Stats.stdDev b)
                 then [spikeAnomaly previous current] else []).
  { unfold emittedSpikes. rewrite Hp, Hc, Hz. reflexivity. }
  split.
  - intros Hpos. pose proof (@percentage_over_zero c Hpos) as Einf.
    split; [exact Einf|]. intros Hb.
    rewrite Einf, Hb in Ei. change (gtb infinity 30 && true) with true in Ei.
    split; [|split].
    + unfold emitted. apply in_or_app. left. apply in_flat_map.
      exists i. split.
      * apply in_seq. assert (i < length data) by (apply nth_error_Some; congruence).
        lia.
      * rewrite Ei. left. reflexivity.
    + unfold spikeAnomaly. cbn [Anomaly.percentageIncrease].
      rewrite Hz. fold c. rewrite Einf. vm_compute. reflexivity.
    + unfold spikeAnomaly. cbn [Anomaly.severity].
      rewrite Hz. fold c. rewrite Einf. reflexivity.
  - intros Hzero. pose proof (@percentage_zero_over_zero c Hzero) as En.
    split; [exact En|]. intros weekdayStats weekendStats anomalies.
    unfold spikeBody.
    rewrite (get_nth_error _ _ Hc), (get_nth_error _ _ Hp). cbn [bind].
    cbv zeta. rewrite Hz. fold c.
    change ((c - 0) / 0 * 100) with (percentageOver 0 c).
    unfold gtb at 1.
    rewrite (ltb_nan_r 30 (percentageOver 0 c)) by assumption. reflexivity.
Qed.

(** ** The hourly profile, the hour groups and the recommendations *)

Lemma list_sum_map_add {A : Type} (f g : A -> nat) (l : list A) :
  list_sum (map (fun a => (f a + g a)%nat) l)
  = (list_sum (map f l) + list_sum (map g l))%nat.
Proof.
  induction l as [|a l IH]; simpl; [reflexivity|]. rewrite IH. lia.
Qed.

Lemma list_sum_indicator (h0 a n : nat) :
  list_sum (map (fun h => if Nat.eqb h0 h then 1%nat else 0%nat) (seq a n))
  = if Nat.leb a h0 && Nat.ltb h0 (a + n) then 1%nat else 0%nat.
Proof.
  revert a. induction n as [|n IH]; intros a; simpl.
  - destruct (Nat.leb_spec a h0), (Nat.ltb_spec h0 (a + 0)); simpl; lia.
  - rewrite IH.
    destruct (Nat.eqb_spec h0 a), (Nat.leb_spec (S a) h0), (Nat.leb_spec a h0),
      (Nat.ltb_spec h0 (S a + n)), (Nat.ltb_spec h0 (a + S n)); simpl; lia.
Qed.

Lemma profile_counts_sum (l : list Reading) :
  forallb validHour l = true ->
  list_sum (map (fun h => length (consumptionAt l h)) (seq 0 24)) = length l.
Proof.
  induction l as [|e l IH]; intros Hv.
  - simpl. reflexivity.
  - cbn [forallb] in Hv. apply andb_true_iff in Hv. destruct Hv as [He Hl].
    unfold validHour in He.
    destruct (getHours (Reading.timestamp e)) as [h0|] eqn:Eh; [|discriminate].
    apply Nat.ltb_lt in He.
    rewrite (map_ext _
               (fun h =>
                  ((if Nat.eqb h0 h then 1 else 0) + length (consumptionAt l h))%nat)).
    + rewrite list_sum_map_add, list_sum_indicator, IH by assumption.
      destruct (Nat.leb_spec 0 h0), (Nat.ltb_spec h0 (0 + 24)); simpl; lia.
    + intros h. unfold consumptionAt. cbn [filter]. rewrite Eh. cbn [key_eqb].
      destruct (Nat.eqb h0 h); reflexivity.
Qed.

(** X8. [createHourlyProfile] throws a [TypeError] when a reading has no
    hour of the day (its timestamp is not a date). When every reading has
    one, it throws a [RangeError] if some hour has more readings than a
    call takes arguments (the statistics of each hour are computed by
    [calculateStats]), and returns otherwise.
    What it returns has exactly the 24 keys 0 to 23, in that order; the
    bucket of an hour holds the consumption of the readings of that hour
    in the order of the input, their mean and standard deviation as
    [calculateStats] returns them, and
    their number as count; and the counts add up to the number of
    readings: every reading is in exactly one bucket. *)
Theorem createHourlyProfile_behaviour (l : list Reading) :
  (forallb validHour l = false -> createHourlyProfile l = TypeError)
  /\ (forallb validHour l = true ->
      (exists h,
          h < 24
          /\ argumentLimit
             < length
                 (filter (fun r => key_eqb (getHours (Reading.timestamp r)) (Some h)) l)) ->
      createHourlyProfile l = RangeError)
  /\ (forallb validHour l = true ->
      (forall h,
          h < 24 ->
          length (filter (fun r => key_eqb (getHours (Reading.timestamp r)) (Some h)) l)
          <= argumentLimit) ->
      exists profile,
        createHourlyProfile l = Ok profile
        /\ map fst profile = map Some (seq 0 24)
        /\ (forall h, h < 24 ->
              exists bucket stats,
                obj_get profile (Some h) = Some bucket
                /\ HourBucket.values bucket
                   = map (@Reading.consumption _)
                       (filter
                          (fun r => key_eqb (getHours (Reading.timestamp r)) (Some h))
                          l)
                /\ HourBucket.count bucket = length (HourBucket.values bucket)
                /\ calculateStats (HourBucket.values bucket) = Ok stats
                /\ HourBucket.mean bucket = Stats.mean stats
                /\ HourBucket.stdDev bucket = Stats.stdDev stats)
        /\ list_sum (map HourBucket.count (Object_values profile)) = length l).
Proof.
  rewrite createHourlyProfile_cases. split; [|split].
  - intros H. rewrite H. reflexivity.
  - intros H [h [Hh Hover]]. rewrite H.
    replace (forallb (fun h => Nat.leb (length (consumptionAt l h)) argumentLimit)
               (seq 0 24)) with false; [reflexivity|].
    symmetry. apply not_true_is_false. intros F. rewrite forallb_forall in F.
    specialize (F h). rewrite in_seq in F.
    assert (Hle : Nat.leb (length (consumptionAt l h)) argumentLimit = true)
      by (apply F; lia).
    apply Nat.leb_le in Hle. unfold consumptionAt in Hle.
    rewrite length_map in Hle. lia.
  - intros H Hwithin. rewrite H.
    assert (W : forall h, h < 24 -> length (consumptionAt l h) <= argumentLimit).
    { intros h Hh. unfold consumptionAt. rewrite length_map. apply Hwithin, Hh. }
    replace (forallb (fun h => Nat.leb (length (consumptionAt l h)) argumentLimit)
               (seq 0 24)) with true.
    + eexists. split; [reflexivity|]. split; [|split].
      * unfold tabulate. rewrite map_map. reflexivity.
      * intros h Hh. exists (hourBucket (consumptionAt l h)).
        exists (statistics (consumptionAt l h)). split.
        -- rewrite obj_get_tabulate.
           destruct (Nat.ltb_spec h (0 + 24)); [reflexivity|lia].
        -- split; [reflexivity|]. split; [reflexivity|].
           split; [|split; reflexivity].
           apply calculateStats_within. apply W, Hh.
      * unfold Object_values, tabulate. rewrite !map_map. cbn [snd].
        apply profile_counts_sum. assumption.
    + symmetry. apply forallb_forall. intros h Hh. apply in_seq in Hh.
      apply Nat.leb_le, W. lia.
Qed.

(** X9. The grouping of the schedule anomalies by hour never throws. A
    lookup of an hour in the groups gives the anomalies of that hour, in
    the order of the input, and nothing for an hour without anomaly: no
    group is empty, and no anomaly is lost or put in two groups. The
    groups are enumerated in ascending order of hour. *)
Theorem groupByHour_lookup (scheduleAnomalies : list Anomaly) :
  exists hourGroups,
    groupByHour scheduleAnomalies = Ok hourGroups
    /\ (forall k,
          obj_get hourGroups k
          = match filter (fun a => key_eqb (getHours (Anomaly.timestamp a)) k)
                    scheduleAnomalies
            with
            | [] => None
            | group => Some group
            end)
    /\ StronglySorted (fun e1 e2 => key_before (fst e1) (fst e2) = true)
         (Object_entries hourGroups).
Proof.
  destruct (groupByHour_spec scheduleAnomalies) as [o [Ho [So Go]]].
  exists o. split; [exact Ho|]. split; [exact Go|exact So].
Qed.

Lemma sort_head_first_max (l : list Anomaly) :
  l <> [] ->
  exists l1 w l2 rest,
    l = l1 ++ w :: l2
    /\ Forall (fun a => (Anomaly.severity a < Anomaly.severity w)%Z) l1
    /\ Forall (fun a => (Anomaly.severity a <= Anomaly.severity w)%Z) l2
    /\ sort (fun a b => (0 <? Anomaly.severity b - Anomaly.severity a)%Z) l
       = w :: rest.
Proof.
  induction l as [|a l IH]; [congruence|]. intros _.
  destruct l as [|b l'].
  - exists [], a, [], []. repeat split; constructor.
  - destruct IH as [l1 [w [l2 [rest [El [H1 [H2 Es]]]]]]]; [discriminate|].
    unfold sort in *. cbn [fold_right] in *. rewrite Es. cbn [sort_insert].
    destruct (Z.ltb_spec 0 (Anomaly.severity w - Anomaly.severity a)) as [Hlt|Hge].
    + exists (a :: l1), w, l2, (sort_insert
                                  (fun a0 b0 =>
                                     (0 <? Anomaly.severity b0 - Anomaly.severity a0)%Z)
                                  a rest).
      split; [rewrite El; reflexivity|].
      split; [constructor; [lia|assumption]|]. split; [assumption|reflexivity].
    + exists [], a, (b :: l'), (w :: rest).
      split; [reflexivity|]. split; [constructor|]. split; [|reflexivity].
      rewrite El. apply Forall_app. split.
      * revert H1. apply Forall_impl. intros x Hx. lia.
      * constructor; [lia|]. revert H2. apply Forall_impl. intros x Hx. lia.
Qed.

(** X10. When the anomaly list has a spike, the first recommendation is
    the spike one, and it is made from the spike of greatest severity,
    the first of them in the order of the input when several have it:
    every spike before it is strictly less severe, every spike after it
    at most as severe. Its urgency is the High tier exactly when that
    severity is 3. *)
Theorem spike_recommendation_first_worst (Date_now : nat -> float)
  (anomalies : list Anomaly) (buildingData : Building) :
  filter (hasType "spike") anomalies <> [] ->
  exists before worstSpike after rest,
    filter (hasType "spike") anomalies = before ++ worstSpike :: after
    /\ Forall (fun a => (Anomaly.severity a < Anomaly.severity worstSpike)%Z) before
    /\ Forall (fun a => (Anomaly.severity a <= Anomaly.severity worstSpike)%Z) after
    /\ generateRecommendations Date_now anomalies buildingData
       = Ok (spikeRecommendation (Date_now 0%nat) worstSpike :: rest)
    /\ (Recommendation.urgency (spikeRecommendation (Date_now 0%nat) worstSpike)
        = "High - Immediate attention recommended"%string
        <-> Anomaly.severity worstSpike = 3%Z).
Proof.
  intros Hne.
  destruct (sort_head_first_max Hne) as [l1 [w [l2 [rest [El [H1 [H2 Es]]]]]]].
  exists l1, w, l2.
  exists (driftPart (Date_now 1%nat) anomalies
          ++ schedulePart
               (Date_now (length ([spikeRecommendation (Date_now 0%nat) w]
                                  ++ driftPart (Date_now 1%nat) anomalies)))
               anomalies).
  split; [exact El|]. split; [exact H1|]. split; [exact H2|]. split.
  - rewrite generateRecommendations_shape. unfold recommendationsOf. cbv zeta.
    unfold spikePart. rewrite !Es. reflexivity.
  - unfold spikeRecommendation. cbn [Recommendation.urgency].
    destruct (Z.eqb_spec (Anomaly.severity w) 3); split; intros H;
      try reflexivity; try assumption; try discriminate; try contradiction.
Qed.

(** X11. The identifiers of the recommendations of one call. The [k]-th
    recommendation returned has as identifier its anomaly type, a dash
    and the [k]-th reading of the clock, so the identifiers of one result
    are pairwise distinct even when the clock does not advance between
    them. *)
Theorem recommendation_ids (Date_now : nat -> float) (anomalies : list Anomaly)
  (buildingData : Building) :
  exists recs,
    generateRecommendations Date_now anomalies buildingData = Ok recs
    /\ (forall k r,
          nth_error recs k = Some r ->
          Recommendation.id r
          = [Lit (Recommendation.anomalyType r ++ "-")%string; Num (Date_now k)])
    /\ NoDup (map (@Recommendation.id _) recs).
Proof.
  exists (recommendationsOf Date_now anomalies).
  split; [apply generateRecommendations_shape|].
  unfold recommendationsOf. cbv zeta.
  unfold spikePart, driftPart, schedulePart.
  destruct (sort _ (filter (hasType "spike") anomalies)) as [|ws ?];
    destruct (sort _ (filter (hasType "drift") anomalies)) as [|wd ?];
    destruct (filter (hasType "schedule") anomalies) as [|a0 ?];
    cbn [app length];
    (split;
     [ intros [|[|[|k]]] r Hk; cbn [nth_error] in Hk;
       try discriminate Hk; try (destruct k; discriminate Hk);
       injection Hk as <-; reflexivity
     | cbn [map Recommendation.id spikeRecommendation driftRecommendation
              scheduleRecommendation];
       repeat (apply NoDup_cons;
               [ cbn [In]; intros H;
                 repeat (destruct H as [H|H]; try discriminate H); exact H
               | ]);
       apply NoDup_nil ]).
Qed.

(** ** What the detector reads, and readings without a known day type *)

Lemma filter_map_strip (p : Reading -> bool) (l : list Reading) :
  (forall r, p (strip r) = p r) ->
  filter p (map strip l) = map strip (filter p l).
Proof.
  intros Hp. induction l as [|r l IH]; [reflexivity|].
  cbn [map filter]. rewrite Hp, IH. destruct (p r); reflexivity.
Qed.

Lemma consumption_strip (l : list Reading) :
  map (@Reading.consumption _) (map strip l) = map (@Reading.consumption _) l.
Proof. rewrite map_map. apply map_ext. reflexivity. Qed.

Lemma baseline_strip (data : list Reading) (d : string) :
  baseline (map strip data) d = baseline data d.
Proof.
  unfold baseline. rewrite filter_map_strip by reflexivity.
  rewrite consumption_strip. reflexivity.
Qed.

Lemma hourValues_strip (data : list Reading) (d : string) (h : nat) :
  hourValues (map strip data) d h = hourValues data d h.
Proof.
  unfold hourValues. rewrite filter_map_strip by reflexivity.
  apply consumption_strip.
Qed.

Lemma allHoursAverage_strip (data : list Reading) (d : string) :
  allHoursAverage (map strip data) d = allHoursAverage data d.
Proof.
  unfold allHoursAverage. f_equal. f_equal. apply map_ext. intros h.
  unfold hourMean. rewrite hourValues_strip. reflexivity.
Qed.

Lemma emitted_strip (data : list Reading) :
  emitted (map strip data) = emitted data.
Proof.
  unfold emitted. rewrite length_map. f_equal; [|f_equal].
  - apply flat_map_ext. intros i. unfold emittedSpikes.
    rewrite !nth_error_map.
    destruct (nth_error data (i - 1)) as [p|], (nth_error data i) as [c|];
      cbn [option_map]; try reflexivity.
    cbv zeta. rewrite baseline_strip. reflexivity.
  - apply flat_map_ext. intros i. unfold emittedDrifts, readingsEndingAt.
    cbv zeta. rewrite skipn_map, firstn_map, !nth_error_map.
    destruct (nth_error (firstn 6 (skipn (i + 1 - 6) data)) 0) as [f|],
      (nth_error (firstn 6 (skipn (i + 1 - 6) data)) 5) as [l|];
      cbn [option_map]; try reflexivity.
    rewrite baseline_strip, consumption_strip. reflexivity.
  - apply flat_map_ext. intros i. unfold emittedSchedules.
    rewrite nth_error_map.
    destruct (nth_error data i) as [e|]; cbn [option_map]; [|reflexivity].
    cbv zeta. unfold scheduleAnomalyIn, hourMean, hourStdDev.
    cbn [strip Reading.timestamp Reading.consumption Reading.dayType].
    destruct (getHours (Reading.timestamp e)) as [h|]; [|reflexivity].
    rewrite !hourValues_strip, allHoursAverage_strip. reflexivity.
Qed.

Lemma detectAnomalies_strip (data : list Reading) :
  detectAnomalies (map strip data) = detectAnomalies data.
Proof.
  destruct (Nat.lt_ge_cases (length data) 7) as [Hlt|Hge].
  - rewrite !detectAnomalies_short_history' by (rewrite ?length_map; assumption).
    reflexivity.
  - rewrite !detectAnomalies_cases by (rewrite ?length_map; assumption).
    rewrite emitted_strip.
    assert (E : forallb (fun r => negb (knownDayType r) || validHour r)
                  (map strip data)
                = forallb (fun r => negb (knownDayType r) || validHour r) data).
    { clear. induction data as [|r l IH]; [reflexivity|].
      cbn [map forallb]. rewrite IH. reflexivity. }
    assert (L : overArgumentLimit (map strip data) = overArgumentLimit data).
    { unfold overArgumentLimit. rewrite !filter_map_strip by reflexivity.
      rewrite !length_map. reflexivity. }
    rewrite E, L. reflexivity.
Qed.

(** X12. [detectAnomalies] reads the timestamp, the consumption and the
    day type of a reading and nothing else: two histories whose readings
    agree on these three fields, whatever their temperatures and
    occupancies, get the same result, be it a list of anomalies or a
    [TypeError]. *)
Theorem detectAnomalies_reads_three_fields (data data' : list Reading) :
  map coreOf data = map coreOf data' ->
  detectAnomalies data = detectAnomalies data'.
Proof.
  intros H.
  assert (E : map strip data = map strip data').
  { revert data' H. induction data as [|r l IH]; intros [|r' l'] H;
      try discriminate H; [reflexivity|].
    cbn [map] in *. unfold coreOf at 1 3 in H.
    injection H as Ht Hc Hd Hl. rewrite (IH _ Hl).
    unfold strip. rewrite Ht, Hc, Hd. reflexivity. }
  rewrite <- (detectAnomalies_strip data), <- (detectAnomalies_strip data'), E.
  reflexivity.
Qed.

Lemma baseline_unlabelled (data : list Reading) (d : string) :
  forallb (fun r => negb (knownDayType r)) data = true ->
  baseline data (dayBucket d) = Stats.mk 0 0 0 0.
Proof.
  intros H. unfold baseline.
  replace (filter (fun r => String.eqb (Reading.dayType r) (dayBucket d)) data)
    with (@nil Reading); [reflexivity|].
  symmetry. apply filter_none. rewrite forallb_forall in H.
  apply Forall_forall. intros r Hr. specialize (H r Hr).
  unfold knownDayType in H.
  unfold dayBucket. destruct (String.eqb d "weekday");
    destruct (String.eqb (Reading.dayType r) "weekday"),
      (String.eqb (Reading.dayType r) "weekend"); try discriminate H; reflexivity.
Qed.

Lemma hourValues_unlabelled (data : list Reading) (d : string) (h : nat) :
  forallb (fun r => negb (knownDayType r)) data = true ->
  hourValues data (dayBucket d) h = [].
Proof.
  intros H. unfold hourValues.
  replace (filter _ data) with (@nil Reading); [reflexivity|].
  symmetry. apply filter_none. rewrite forallb_forall in H.
  apply Forall_forall. intros r Hr. specialize (H r Hr).
  unfold knownDayType in H.
  unfold dayBucket. destruct (String.eqb d "weekday");
    destruct (String.eqb (Reading.dayType r) "weekday"),
      (String.eqb (Reading.dayType r) "weekend"); try discriminate H; reflexivity.
Qed.

Lemma overArgumentLimit_unlabelled (data : list Reading) :
  forallb (fun r => negb (knownDayType r)) data = true ->
  overArgumentLimit data = false.
Proof.
  intros H. unfold overArgumentLimit.
  assert (E : forall d,
             d = "weekday"%string \/ d = "weekend"%string ->
             filter (fun r => String.eqb (Reading.dayType r) d) data = []).
  { intros d Hd. apply filter_none. rewrite forallb_forall in H.
    apply Forall_forall. intros r Hr. specialize (H r Hr).
    unfold knownDayType in H.
    destruct Hd as [-> | ->];
      destruct (String.eqb (Reading.dayType r) "weekday"),
        (String.eqb (Reading.dayType r) "weekend"); try discriminate H; reflexivity. }
  rewrite !E by auto. cbn [length].
  destruct (Nat.ltb_spec argumentLimit 0); [lia|reflexivity].
Qed.

(** X13. A history of at least 7 readings none of which has the day type
    weekday or weekend. Both baselines are then the statistics of no
    value, all zero, and both profiles are empty, so [detectAnomalies]
    returns even when timestamps are not dates, reports no schedule
    anomaly, and the comparison of a reading with its baseline comes down
    to its consumption being positive: a spike is a rise of more than 30%
    to a positive consumption, a drift a window without a drop that ends
    on a positive consumption after more than 3% of rise a day. *)
Theorem unlabelled_history (data : list Reading) :
  7 <= length data ->
  forallb (fun r => negb (knownDayType r)) data = true ->
  detectAnomalies data
  = Ok (flat_map (emittedSpikes data) (seq 1 (length data - 1))
        ++ flat_map (emittedDrifts data) (seq 5 (length data - 5)))
  /\ (forall i previous current,
        nth_error data (i - 1) = Some previous ->
        nth_error data i = Some current ->
        emittedSpikes data i
        = if gtb (percentageOver (Reading.consumption previous)
                    (Reading.consumption current)) 30
             && gtb (Reading.consumption current) 0
          then [spikeAnomaly previous current]
          else [])
  /\ (forall i first last,
        nth_error (readingsEndingAt data i 6) 0 = Some first ->
        nth_error (readingsEndingAt data i 6) 5 = Some last ->
        emittedDrifts data i
        = if noDrop (map (@Reading.consumption _) (readingsEndingAt data i 6))
             && gtb (Reading.consumption last) 0
             && gtb (avgDailyIncrease first last) 3
          then [driftAnomaly first last]
          else []).
Proof.
  intros Hlen Hun. split; [|split].
  - rewrite detectAnomalies_cases by assumption.
    rewrite overArgumentLimit_unlabelled by assumption.
    replace (forallb (fun r => negb (knownDayType r) || validHour r) data)
      with true.
    + unfold emitted. f_equal. f_equal.
      rewrite <- (app_nil_r (flat_map (emittedDrifts data) _)) at 2.
      f_equal. apply flat_map_nil. intros i. unfold emittedSchedules.
      destruct (nth_error data i) as [e|]; [|reflexivity]. cbv zeta.
      destruct (getHours (Reading.timestamp e)) as [h|]; [|reflexivity].
      rewrite hourValues_unlabelled by assumption. cbn [length].
      destruct (Nat.ltb h 24); reflexivity.
    + symmetry. rewrite forallb_forall in Hun |- *. intros r Hr.
      rewrite (Hun r Hr). reflexivity.
  - intros i previous current Hp Hc. unfold emittedSpikes. rewrite Hp, Hc.
    cbv zeta. rewrite baseline_unlabelled by assumption.
    cbn [Stats.mean Stats.stdDev].
    replace (0 + 2 * 0) with 0 by (vm_compute; reflexivity). reflexivity.
  - intros i first last Hf Hl. unfold emittedDrifts. cbv zeta. rewrite Hf, Hl.
    rewrite baseline_unlabelled by assumption.
    cbn [Stats.mean Stats.stdDev].
    replace (0 + 1.5 * 0) with 0 by (vm_compute; reflexivity). reflexivity.
Qed.

End Engine.

(** ** The engine on the sample inputs *)

(** On the end-to-end scenario of the specification the detector reports the
    one spike, and the recommendation and the savings are those the
    specification gives. *)
Example scenario_run :
  detectAnomalies Demo.getHours Demo.Math_pow Demo.argumentLimit Demo.scenario
  = Ok [Anomaly.mk "spike" (Some 201%nat) 180 105 71.4 3%Z
          [Lit "Sudden energy spike of "; Num 71; Lit "% detected"]]
  /\ calculateSavings
       [Anomaly.mk "spike" (Some 201%nat) 180 105 71.4 3%Z
          ([] : Template Demo.Timestamp)]
       Demo.building
     = Savings.mk 75 11.25 30.
Proof. split; vm_compute; reflexivity. Qed.

(** Twelve readings whose timestamps are not dates make the profile
    builder throw. *)
Example invalid_dates_throw :
  detectAnomalies Demo.getHours Demo.Math_pow Demo.argumentLimit
      (Demo.shortInvalid ++ Demo.shortInvalid)
  = TypeError.
Proof. vm_compute. reflexivity. Qed.

(** The standard deviation divides by the count: 2 for these eight values,
    where dividing by the count less one gives 2.138. *)
Example calculateStats_run :
  calculateStats Demo.Math_pow Demo.argumentLimit [2; 4; 4; 4; 5; 5; 7; 9]
  = Ok (Stats.mk 5 2 2 9).
Proof. vm_compute. reflexivity. Qed.

(** On a runtime whose calls take no more than 10 arguments the 14 weekday
    readings of the scenario cannot be spread into [Math.min]: the
    detector throws. *)
Example argument_limit_throws :
  detectAnomalies Demo.getHours Demo.Math_pow 10 Demo.scenario = RangeError.
Proof. vm_compute. reflexivity. Qed.

(** Why the drift pass is specified on numbers: the loop leaves a window
    when a reading is less than or equal to the one before it, and a [NaN]
    is neither. The window that ends at the last reading of [Demo.gap]
    holds a [NaN], so it does not increase strictly, and the code reports a
    drift for it. *)
Example drift_window_with_NaN :
  forallb (@numericConsumption _) Demo.gap = false
  /\ driftsAt Demo.Math_pow Demo.gap 7 = []
  /\ detectAnomalies Demo.getHours Demo.Math_pow Demo.argumentLimit Demo.gap
     = Ok [Anomaly.mk "drift" (Some 177%nat) 200 120 66.7 2%Z
             [Lit "Gradual efficiency loss of "; Num 67; Lit "% over "; Count 5;
              Lit " days"]].
Proof. repeat split; vm_compute; reflexivity. Qed.

Example Math_round_ties_up :
  Math_round 2.5 = 3 /\ Math_round (-2.5) = -2 /\ Math_round (-0.4) = neg_zero.
Proof. repeat split; vm_compute; reflexivity. Qed.

(** C7, on six readings whose timestamps are not dates. *)
Lemma detectAnomalies_short_history_witness :
  length Demo.shortInvalid < 7
  /\ detectAnomalies Demo.getHours Demo.Math_pow Demo.argumentLimit
      Demo.shortInvalid = Ok [].
Proof.
  assert (H : length Demo.shortInvalid < 7) by (simpl; lia).
  split; [exact H|].
  exact (detectAnomalies_short_history Demo.getHours Demo.Math_pow
           Demo.argumentLimit Demo.shortInvalid H).
Defined.

(** C1, on the scenario of the specification: reading 8 is the spike. *)
Lemma spike_pass_spec_witness :
  7 <= length Demo.scenario
  /\ forallb (@knownDayType _) Demo.scenario = true
  /\ forallb (validHour Demo.getHours) Demo.scenario = true
  /\ exists out,
       detectAnomalies Demo.getHours Demo.Math_pow Demo.argumentLimit
           Demo.scenario = Ok out
       /\ filter (hasType "spike") out
          = flat_map (spikesAt Demo.Math_pow Demo.scenario)
              (seq 1 (length Demo.scenario - 1)).
Proof.
  assert (H1 : 7 <= length Demo.scenario) by (simpl; lia).
  assert (H2 : forallb (@knownDayType _) Demo.scenario = true) by reflexivity.
  assert (H3 : forallb (validHour Demo.getHours) Demo.scenario = true) by reflexivity.
  assert (H4 : length Demo.scenario <= Demo.argumentLimit)
    by (apply Nat.leb_le; vm_compute; reflexivity).
  split; [exact H1|]. split; [exact H2|]. split; [exact H3|].
  destruct (spike_pass_spec Demo.getHours Demo.Math_pow Demo.argumentLimit
              Demo.scenario H1 H2 H3) as [Hr [Hf _]].
  destruct (Hr H4) as [out Ho].
  exists out. split; [exact Ho|exact (Hf out Ho)].
Defined.

(** C2, on eight days of steady increase. *)
Lemma drift_pass_spec_witness :
  7 <= length Demo.rising
  /\ forallb (@knownDayType _) Demo.rising = true
  /\ forallb (validHour Demo.getHours) Demo.rising = true
  /\ forallb (@numericConsumption _) Demo.rising = true
  /\ exists out,
       detectAnomalies Demo.getHours Demo.Math_pow Demo.argumentLimit
           Demo.rising = Ok out
       /\ filter (hasType "drift") out
          = flat_map (driftsAt Demo.Math_pow Demo.rising)
              (seq 5 (length Demo.rising - 5)).
Proof.
  assert (H1 : 7 <= length Demo.rising) by (simpl; lia).
  assert (H2 : forallb (@knownDayType _) Demo.rising = true) by reflexivity.
  assert (H3 : forallb (validHour Demo.getHours) Demo.rising = true) by reflexivity.
  assert (H4 : forallb (@numericConsumption _) Demo.rising = true) by reflexivity.
  assert (H5 : length Demo.rising <= Demo.argumentLimit)
    by (apply Nat.leb_le; vm_compute; reflexivity).
  split; [exact H1|]. split; [exact H2|]. split; [exact H3|]. split; [exact H4|].
  destruct (drift_pass_spec Demo.getHours Demo.Math_pow Demo.argumentLimit
              Demo.rising H1 H2 H3 H4) as [Hr [Hf _]].
  destruct (Hr H5) as [out Ho].
  exists out. split; [exact Ho|exact (Hf out Ho)].
Defined.

(** C3, on ten days with a night and a noon reading. *)
Lemma schedule_pass_spec_witness :
  7 <= length Demo.offHours
  /\ forallb (@knownDayType _) Demo.offHours = true
  /\ forallb (validHour Demo.getHours) Demo.offHours = true
  /\ exists out,
       detectAnomalies Demo.getHours Demo.Math_pow Demo.argumentLimit
           Demo.offHours = Ok out
       /\ filter (hasType "schedule") out
          = flat_map (schedulesAt Demo.getHours Demo.Math_pow Demo.offHours)
              (seq 0 (length Demo.offHours)).
Proof.
  assert (H1 : 7 <= length Demo.offHours) by (simpl; lia).
  assert (H2 : forallb (@knownDayType _) Demo.offHours = true) by reflexivity.
  assert (H3 : forallb (validHour Demo.getHours) Demo.offHours = true) by reflexivity.
  assert (H4 : length Demo.offHours <= Demo.argumentLimit)
    by (apply Nat.leb_le; vm_compute; reflexivity).
  split; [exact H1|]. split; [exact H2|]. split; [exact H3|].
  destruct (schedule_pass_spec Demo.getHours Demo.Math_pow Demo.argumentLimit
              Demo.offHours H1 H2 H3) as [Hr [Hf _]].
  destruct (Hr H4) as [out Ho].
  exists out. split; [exact Ho|exact (proj1 (Hf out Ho))].
Defined.

(** C6. There is a sequence of at least 7 readings with a reading whose
    previous consumption is zero for which the percentage increase of the
    spike pass, computed by dividing by that zero, is infinite: the
    detector neither throws nor skips the reading, it returns and emits
    the spike with an infinite percentageIncrease. Where the reading
    itself is zero too the percentage is undefined ([NaN]). *)
Theorem spike_division_by_zero :
  7 <= length Demo.zeroPrevious
  /\ (exists previous current,
         nth_error Demo.zeroPrevious 7 = Some previous
         /\ nth_error Demo.zeroPrevious 8 = Some current
         /\ Reading.consumption previous = 0
         /\ percentageOver (Reading.consumption previous)
              (Reading.consumption current) = infinity
         /\ spikesAt Demo.Math_pow Demo.zeroPrevious 8
            = [spikeAnomaly previous current]
         /\ Anomaly.percentageIncrease (spikeAnomaly previous current) = infinity
         /\ exists out,
              detectAnomalies Demo.getHours Demo.Math_pow Demo.argumentLimit
                Demo.zeroPrevious = Ok out
              /\ In (spikeAnomaly previous current) out)
  /\ (exists previous current,
         nth_error Demo.zeroPrevious 6 = Some previous
         /\ nth_error Demo.zeroPrevious 7 = Some current
         /\ Reading.consumption previous = 0
         /\ is_nan (percentageOver (Reading.consumption previous)
                      (Reading.consumption current)) = true
         /\ spikesAt Demo.Math_pow Demo.zeroPrevious 7 = []).
Proof.
  split; [simpl; lia|]. split.
  - exists (Demo.reading (24 * 7 + 9) 0), (Demo.reading (24 * 8 + 9) 500).
    split; [reflexivity|]. split; [reflexivity|]. split; [reflexivity|].
    split; [vm_compute; reflexivity|]. split; [vm_compute; reflexivity|].
    split; [vm_compute; reflexivity|].
    eexists. split; [vm_compute; reflexivity|]. left. vm_compute. reflexivity.
  - exists (Demo.reading (24 * 6 + 9) 0), (Demo.reading (24 * 7 + 9) 0).
    split; [reflexivity|]. split; [reflexivity|]. split; [reflexivity|].
    split; vm_compute; reflexivity.
Qed.

(** C4 as stated fails: of two schedule anomalies, the first at 5 o'clock
    and the second at 3 o'clock, the hour first encountered is 5, for an
    estimate of 60; the recommendation is for 3 o'clock, with an estimate
    of 6. *)
Lemma schedule_tie_counterexample :
  filter (hasType "schedule") Demo.tie = Demo.tie
  /\ firstSeenWorstHour Demo.getHours Demo.tie = Some 5%nat
  /\ firstSeenImpact Demo.getHours Demo.tie = 60
  /\ exists r,
       generateRecommendations Demo.getHours Demo.getTime Demo.Date_now Demo.tie
         Demo.building = Ok [r]
       /\ Recommendation.description r
          = [Lit "Abnormal energy consumption detected during expected low-usage hours (";
             HourNum (Some 3%nat); Lit "am"; Lit "). This has occurred ";
             Count 1; Lit " times recently."]
       /\ Recommendation.impact r
          = [Lit "Optimizing scheduling could save approximately $"; Num 6;
             Lit " per month."]
       /\ (6 =? firstSeenImpact Demo.getHours Demo.tie) = false.
Proof.
  split; [reflexivity|]. split; [vm_compute; reflexivity|].
  split; [vm_compute; reflexivity|].
  eexists. split; [vm_compute; reflexivity|].
  repeat split; vm_compute; reflexivity.
Qed.

(** C4, amended, on the two anomalies of the tie. *)
Lemma schedule_recommendation_spec_witness :
  filter (hasType "schedule") Demo.tie <> []
  /\ exists recs r,
       generateRecommendations Demo.getHours Demo.getTime Demo.Date_now Demo.tie
         Demo.building = Ok (recs ++ [r])
       /\ Recommendation.anomalyType r = "schedule"%string.
Proof.
  assert (H : filter (hasType "schedule") Demo.tie <> []) by discriminate.
  split; [exact H|].
  destruct (schedule_recommendation_spec Demo.getHours Demo.getTime Demo.Date_now
              Demo.tie Demo.building H) as [recs [r [k [Hg [_ [Ht _]]]]]].
  exists recs, r. split; assumption.
Defined.

(** ** The further properties on the sample inputs *)

(** X2, on the ten days with a night and a noon reading. *)
Lemma detectAnomalies_emission_order_witness :
  exists out spikes drifts schedules,
    detectAnomalies Demo.getHours Demo.Math_pow Demo.argumentLimit
        Demo.offHours = Ok out
    /\ out = spikes ++ drifts ++ schedules
    /\ Forall (fun a => Anomaly.type a = "spike"%string) spikes
    /\ Forall (fun a => Anomaly.type a = "drift"%string) drifts
    /\ Forall (fun a => Anomaly.type a = "schedule"%string) schedules.
Proof.
  destruct (detectAnomalies Demo.getHours Demo.Math_pow Demo.argumentLimit
      Demo.offHours)
    as [out| |] eqn:Ho; try (vm_compute in Ho; discriminate Ho).
  destruct (@detectAnomalies_emission_order _ Demo.getHours Demo.Math_pow
    Demo.argumentLimit
              Demo.offHours out Ho) as [spikes [drifts [schedules H]]].
  exists out, spikes, drifts, schedules. split; [reflexivity|exact H].
Defined.

(** X3, on the scenario of the specification. *)
Lemma detectAnomalies_anomalies_from_readings_witness :
  exists out,
    detectAnomalies Demo.getHours Demo.Math_pow Demo.argumentLimit
        Demo.scenario = Ok out
    /\ Forall
         (fun a =>
            (exists r,
                In r Demo.scenario
                /\ Anomaly.timestamp a = Reading.timestamp r
                /\ Anomaly.consumption a = Reading.consumption r)
            /\ ((Anomaly.type a = "spike"%string
                 /\ (Anomaly.severity a = 2 \/ Anomaly.severity a = 3)%Z)
                \/ ((Anomaly.type a = "drift"%string
                     \/ Anomaly.type a = "schedule"%string)
                    /\ (Anomaly.severity a = 1 \/ Anomaly.severity a = 2)%Z)))
         out.
Proof.
  destruct (detectAnomalies Demo.getHours Demo.Math_pow Demo.argumentLimit
      Demo.scenario)
    as [out| |] eqn:Ho; try (vm_compute in Ho; discriminate Ho).
  exists out. split; [reflexivity|].
  exact (@detectAnomalies_anomalies_from_readings _ Demo.getHours Demo.Math_pow
    Demo.argumentLimit
           Demo.scenario out Ho).
Defined.

(** X4, on eight days of steady increase. *)
Lemma detectAnomalies_count_bounds_witness :
  exists out,
    detectAnomalies Demo.getHours Demo.Math_pow Demo.argumentLimit Demo.rising = Ok out
    /\ length (filter (hasType "spike") out) <= length Demo.rising - 1
    /\ length (filter (hasType "drift") out) <= length Demo.rising - 5
    /\ length (filter (hasType "schedule") out) <= length Demo.rising
    /\ length out <= 3 * length Demo.rising - 6.
Proof.
  destruct (detectAnomalies Demo.getHours Demo.Math_pow Demo.argumentLimit Demo.rising)
    as [out| |] eqn:Ho; try (vm_compute in Ho; discriminate Ho).
  exists out. split; [reflexivity|].
  exact (@detectAnomalies_count_bounds _ Demo.getHours Demo.Math_pow Demo.argumentLimit
           Demo.rising out Ho).
Defined.

(** X6, on the scenario with a reading that is not a number: the spike of
    day 8 is no longer reported. *)
Lemma nan_reading_silences_detector_witness :
  7 <= length Demo.notANumber
  /\ length Demo.notANumber <= Demo.argumentLimit
  /\ detectAnomalies Demo.getHours Demo.Math_pow Demo.argumentLimit Demo.notANumber
     = Ok [].
Proof.
  assert (H1 : 7 <= length Demo.notANumber) by (simpl; lia).
  assert (H2 : length Demo.notANumber <= Demo.argumentLimit)
    by (apply Nat.leb_le; vm_compute; reflexivity).
  split; [exact H1|]. split; [exact H2|].
  apply (@nan_reading_silences_detector _ Demo.getHours Demo.Math_pow
           Demo.argumentLimit Demo.notANumber "weekday" H1);
    [vm_compute; reflexivity | vm_compute; reflexivity | vm_compute; reflexivity
    | exact H2].
Defined.

(** X5, on three values of which the second is not a number. *)
Lemma calculateStats_nan_witness :
  exists s,
    calculateStats Demo.Math_pow Demo.argumentLimit [1; nan; 3] = Ok s
    /\ is_nan (Stats.mean s) = true
    /\ Stats.min s = nan
    /\ Stats.max s = nan.
Proof.
  apply (@calculateStats_nan Demo.Math_pow Demo.argumentLimit [1; nan; 3]).
  - vm_compute. reflexivity.
  - apply Nat.leb_le. vm_compute. reflexivity.
Defined.

(** X7, on the readings of days 7 and 8 of the sequence with two zeros:
    the jump from 0 to 500 is reported with severity 3. *)
Lemma spike_after_zero_witness :
  exists out,
    detectAnomalies Demo.getHours Demo.Math_pow Demo.argumentLimit
        Demo.zeroPrevious = Ok out
    /\ nth_error Demo.zeroPrevious 7 = Some (Demo.reading 177 0)
    /\ nth_error Demo.zeroPrevious 8 = Some (Demo.reading 201 500)
    /\ In (spikeAnomaly (Demo.reading 177 0) (Demo.reading 201 500)) out
    /\ Anomaly.severity (spikeAnomaly (Demo.reading 177 0) (Demo.reading 201 500))
       = 3%Z.
Proof.
  destruct (detectAnomalies Demo.getHours Demo.Math_pow Demo.argumentLimit
      Demo.zeroPrevious)
    as [out| |] eqn:Ho; try (vm_compute in Ho; discriminate Ho).
  assert (H1 : 7 <= length Demo.zeroPrevious) by (simpl; lia).
  assert (H2 : 1 <= 8) by lia.
  assert (Hp : nth_error Demo.zeroPrevious (8 - 1) = Some (Demo.reading 177 0))
    by reflexivity.
  assert (Hc : nth_error Demo.zeroPrevious 8 = Some (Demo.reading 201 500))
    by reflexivity.
  assert (Hz : Reading.consumption (Demo.reading 177 0) = 0) by reflexivity.
  destruct (@spike_after_zero _ Demo.getHours Demo.Math_pow Demo.argumentLimit Demo.zeroPrevious out
              8%nat (Demo.reading 177 0) (Demo.reading 201 500)
              Ho H1 H2 Hp Hc Hz) as [Hpos _].
  destruct (Hpos ltac:(vm_compute; reflexivity)) as [_ Hb].
  destruct (Hb ltac:(vm_compute; reflexivity)) as [Hin [_ Hsev]].
  exists out. split; [reflexivity|]. split; [exact Hp|]. split; [exact Hc|].
  split; [exact Hin|exact Hsev].
Defined.

(** X10, on three spikes of severity 2, 3 and 3: the recommendation is made
    from the second one. *)
Lemma spike_recommendation_first_worst_witness :
  filter (hasType "spike") Demo.spikes <> []
  /\ exists before worstSpike after rest,
       filter (hasType "spike") Demo.spikes = before ++ worstSpike :: after
       /\ Forall (fun a => (Anomaly.severity a < Anomaly.severity worstSpike)%Z)
            before
       /\ Forall (fun a => (Anomaly.severity a <= Anomaly.severity worstSpike)%Z)
            after
       /\ generateRecommendations Demo.getHours Demo.getTime Demo.Date_now
            Demo.spikes Demo.building
          = Ok (spikeRecommendation (Demo.Date_now 0%nat) worstSpike :: rest).
Proof.
  assert (H : filter (hasType "spike") Demo.spikes <> [])
    by (vm_compute; discriminate).
  split; [exact H|].
  destruct (@spike_recommendation_first_worst _ Demo.getHours Demo.getTime
              Demo.Date_now Demo.spikes Demo.building H)
    as [before [worstSpike [after [rest [H1 [H2 [H3 [H4 _]]]]]]]].
  exists before, worstSpike, after, rest. repeat split; assumption.
Defined.

(** X12, on the scenario and the scenario with other temperatures and
    occupancies. *)
Lemma detectAnomalies_reads_three_fields_witness :
  map (@coreOf _) Demo.scenario = map (@coreOf _) Demo.occupied
  /\ detectAnomalies Demo.getHours Demo.Math_pow Demo.argumentLimit Demo.scenario
     = detectAnomalies Demo.getHours Demo.Math_pow Demo.argumentLimit Demo.occupied.
Proof.
  assert (H : map (@coreOf _) Demo.scenario = map (@coreOf _) Demo.occupied)
    by reflexivity.
  split; [exact H|].
  exact (@detectAnomalies_reads_three_fields _ Demo.getHours Demo.Math_pow
    Demo.argumentLimit
           Demo.scenario Demo.occupied H).
Defined.

(** X13, on eight readings of an unknown day type whose timestamps are
    not dates. *)
Lemma unlabelled_history_witness :
  7 <= length Demo.holidays
  /\ forallb (fun r => negb (knownDayType r)) Demo.holidays = true
  /\ detectAnomalies Demo.getHours Demo.Math_pow Demo.argumentLimit Demo.holidays
     = Ok (flat_map (emittedSpikes Demo.Math_pow Demo.holidays)
             (seq 1 (length Demo.holidays - 1))
           ++ flat_map (emittedDrifts Demo.Math_pow Demo.holidays)
                (seq 5 (length Demo.holidays - 5))).
Proof.
  assert (H1 : 7 <= length Demo.holidays) by (simpl; lia).
  assert (H2 : forallb (fun r => negb (knownDayType r)) Demo.holidays = true)
    by reflexivity.
  split; [exact H1|]. split; [exact H2|].
  exact (proj1 (@unlabelled_history _ Demo.getHours Demo.Math_pow Demo.argumentLimit Demo.holidays
                  H1 H2)).
Defined.
